(** * Pengawas Pintar: connection protocol and violation escalation core

    A shallow embedding of the proctoring core of the repository:

    - [shared/networking/protocol.py]  (message envelope and codec),
    - [shared/networking/server.py]    (connection registry, send, broadcast),
    - [shared/networking/client.py]    (reconnecting client loop),
    - [shared/database/models.py] and [shared/database/database_manager.py]
      (entities and the persistence operations),
    - [admin_app/app.py]               (registration, integrity score and
      automatic escalation handlers).

    Python values are modelled by a type of JSON-like trees, Python
    dictionaries by insertion-ordered association lists with unique keys,
    exceptions by an explicit result type, and the effects of the handlers
    (database, registry, clock, transport) by a state-and-exception monad. *)

From Stdlib Require Import ZArith List String Ascii Bool Lia.
From Stdlib Require Import DecimalString DecimalZ DecimalPos.
Import ListNotations.

Local Open Scope string_scope.
Local Open Scope Z_scope.

(* ================================================================== *)
(** * Python values, dictionaries and exceptions *)
(* ================================================================== *)

(** The values that travel in message payloads: [None], booleans, integers,
    strings, lists and string-keyed dictionaries. *)
#[warnings="-register-all"]
Inductive json : Type :=
| JNull
| JBool (b : bool)
| JInt (n : Z)
| JStr (s : string)
| JList (l : list json)
| JDict (d : list (string * json)).

(** Python truthiness, as used by [x or default] and [if not x]. *)
Definition truthy (v : json) : bool :=
  match v with
  | JNull => false
  | JBool b => b
  | JInt n => negb (n =? 0)
  | JStr s => negb (s =? "")%string
  | JList l => match l with [] => false | _ => true end
  | JDict d => match d with [] => false | _ => true end
  end.

(** [x or y]. *)
Definition py_or (x y : json) : json := if truthy x then x else y.

(** An optional string as a Python value ([None] or a [str]). *)
Definition of_option (o : option string) : json :=
  match o with
  | Some s => JStr s
  | None => JNull
  end.

(** Insertion-ordered dictionaries with string keys.  A key occurs at most
    once; [set] keeps the position of a key that is already present and
    appends a new key at the end, as Python's [dict] does. *)
Module PyDict.
Section Dict.
Context {V : Type}.

Definition t := list (string * V).

Fixpoint get (k : string) (d : t) : option V :=
  match d with
  | [] => None
  | (k', v) :: d' => if (k' =? k)%string then Some v else get k d'
  end.

Definition mem (k : string) (d : t) : bool :=
  match get k d with Some _ => true | None => false end.

Fixpoint set (k : string) (v : V) (d : t) : t :=
  match d with
  | [] => [(k, v)]
  | (k', v') :: d' =>
      if (k' =? k)%string then (k', v) :: d' else (k', v') :: set k v d'
  end.

(** [del d[k]], used on a key that is present. *)
Definition del (k : string) (d : t) : t :=
  filter (fun kv => negb (fst kv =? k)%string) d.

Definition keys (d : t) : list string := map fst d.

(** [d.get(k, default)]. *)
Definition get_default (k : string) (default : V) (d : t) : V :=
  match get k d with Some v => v | None => default end.

(** The invariant of a Python dictionary. *)
Definition wf (d : t) : Prop := NoDup (keys d).
End Dict.
Arguments t : clear implicits.
End PyDict.

(** Exceptions.  [InvalidEnumValue e v] is the [ValueError] that the
    constructor of the enumeration [e] raises on a value [v] that is not the
    value of one of its members.  [LookupError e text] is raised when a row
    is read whose column of the enumeration type [e] holds [text], which is
    not the name of a member.  [RuntimeError] is what
    [loop.run_until_complete] raises in a thread that is running an event
    loop already. *)
Inductive exc : Type :=
| KeyError (key : string)
| TypeError
| ValueError (msg : string)
| InvalidEnumValue (enum : string) (v : json)
| AttributeError
| JSONDecodeError
| LookupError (enum : string) (text : string)
| RuntimeError.

(** The Python class of an exception. *)
Definition exc_class (e : exc) : string :=
  match e with
  | KeyError _ => "KeyError"
  | TypeError => "TypeError"
  | ValueError _ => "ValueError"
  | InvalidEnumValue _ _ => "ValueError"
  | AttributeError => "AttributeError"
  | JSONDecodeError => "JSONDecodeError"
  | LookupError _ _ => "LookupError"
  | RuntimeError => "RuntimeError"
  end.

(** The outcome of a call: a returned value or a raised exception. *)
Inductive result (A : Type) : Type :=
| Return (a : A)
| Raise (e : exc).
Arguments Return {A} a.
Arguments Raise {A} e.

Definition rbind {A B} (r : result A) (k : A -> result B) : result B :=
  match r with
  | Return a => k a
  | Raise e => Raise e
  end.

Declare Scope result_scope.
Delimit Scope result_scope with result.
Notation "'let?' x ':=' r 'in' k" := (rbind r (fun x => k))
  (at level 10, x name, r at level 100, k at level 200) : result_scope.

(** A naive [datetime], counted in microseconds. *)
Definition datetime := Z.

(** [timedelta(minutes=n)]. *)
Definition minutes (n : Z) : Z := n * 60000000.

(** The functions of Python's standard library that the code calls and that
    are taken as given: [json.dumps] and [json.loads] between value trees and
    their text, [datetime.isoformat] and [datetime.fromisoformat], and
    [repr] (used when a list or a dictionary is formatted into a string). *)
Record PyLib : Type := {
  wire : Type;
  dumps : json -> wire;
  loads : wire -> result json;
  isoformat : datetime -> string;
  fromisoformat : string -> result datetime;
  repr : json -> string
}.

(** What the codec needs from the library: parsing the text of a value tree
    gives the tree back, and so for the ISO format of a [datetime]. *)
Record PyLibLaws (lib : PyLib) : Prop := {
  loads_dumps : forall v, loads lib (dumps lib v) = Return v;
  fromisoformat_isoformat :
    forall t, fromisoformat lib (isoformat lib t) = Return t
}.

(* ================================================================== *)
(** * shared/networking/protocol.py *)
(* ================================================================== *)

Module Protocol.

Inductive MessageType : Type :=
| REGISTER | HEARTBEAT | VIOLATION_REPORT | PERMISSION_REQUEST | STATUS_UPDATE
| REGISTER_ACK | CONFIG_UPDATE | WARNING | LOCK | UNLOCK
| PERMISSION_RESPONSE | EMERGENCY_LOCK
| PING | PONG.

(** [MessageType.X.value]. *)
Definition value (t : MessageType) : string :=
  match t with
  | REGISTER => "register"
  | HEARTBEAT => "heartbeat"
  | VIOLATION_REPORT => "violation_report"
  | PERMISSION_REQUEST => "permission_request"
  | STATUS_UPDATE => "status_update"
  | REGISTER_ACK => "register_ack"
  | CONFIG_UPDATE => "config_update"
  | WARNING => "warning"
  | LOCK => "lock"
  | UNLOCK => "unlock"
  | PERMISSION_RESPONSE => "permission_response"
  | EMERGENCY_LOCK => "emergency_lock"
  | PING => "ping"
  | PONG => "pong"
  end.

Definition members : list MessageType :=
  [REGISTER; HEARTBEAT; VIOLATION_REPORT; PERMISSION_REQUEST; STATUS_UPDATE;
   REGISTER_ACK; CONFIG_UPDATE; WARNING; LOCK; UNLOCK;
   PERMISSION_RESPONSE; EMERGENCY_LOCK; PING; PONG].

(** The member whose value is the string [s], searched in declaration
    order. *)
Definition by_value (s : string) : option MessageType :=
  find (fun t => (value t =? s)%string) members.

(** [MessageType(v)]: the enumeration's constructor applied to a value. *)
Definition MessageType_call (v : json) : result MessageType :=
  match v with
  | JStr s =>
      match by_value s with
      | Some t => Return t
      | None => Raise (InvalidEnumValue "MessageType" v)
      end
  | _ => Raise (InvalidEnumValue "MessageType" v)
  end.

(** The message envelope.  The fields hold Python values: [data] is whatever
    the constructor was given (a dictionary in all uses of the repository),
    [participant_id] is a string or [None]. *)
Record Message : Type := mkMessage {
  type : MessageType;
  data : json;
  participant_id : json;
  timestamp : datetime
}.

(** [Message.__init__(msg_type, data=None, participant_id=None,
    timestamp=None)].  [now] is the value [datetime.utcnow()] has when the
    constructor runs; it is read only when no timestamp is given. *)
Definition Message_init (msg_type : MessageType) (data : json)
    (participant_id : json) (timestamp : option datetime) (now : datetime)
  : Message :=
  {| type := msg_type;
     data := py_or data (JDict []);
     participant_id := participant_id;
     timestamp := match timestamp with Some ts => ts | None => now end |}.

Section Codec.
Variable lib : PyLib.

Definition to_dict (m : Message) : json :=
  JDict [("type", JStr (value (type m)));
         ("data", data m);
         ("participant_id", participant_id m);
         ("timestamp", JStr (isoformat lib (timestamp m)))].

(** [data['type']] for a value [data] of any type. *)
Definition getitem (d : json) (k : string) : result json :=
  match d with
  | JDict kv =>
      match PyDict.get k kv with
      | Some v => Return v
      | None => Raise (KeyError k)
      end
  | _ => Raise TypeError
  end.

(** [data.get(k, default)] once [data] is known to be a dictionary. *)
Definition get (d : json) (k : string) (default : json) : json :=
  match d with
  | JDict kv => PyDict.get_default k default kv
  | _ => default
  end.

(** [datetime.fromisoformat(v)]: a [TypeError] unless [v] is a string. *)
Definition fromisoformat_value (v : json) : result datetime :=
  match v with
  | JStr s => fromisoformat lib s
  | _ => Raise TypeError
  end.

(** [Message.from_dict(data)].  The keyword arguments are evaluated from
    left to right, so the type is looked up and converted first.  [now]
    is the clock value used for the default of the timestamp. *)
Definition from_dict (now : datetime) (d : json) : result Message :=
  (let? ty_value := getitem d "type" in
   let? msg_type := MessageType_call ty_value in
   let payload := get d "data" (JDict []) in
   let pid := get d "participant_id" JNull in
   let? ts := fromisoformat_value
                (get d "timestamp" (JStr (isoformat lib now))) in
   Return (Message_init msg_type payload pid (Some ts) now))%result.

Definition to_json (m : Message) : wire lib := dumps lib (to_dict m).

Definition from_json (now : datetime) (s : wire lib) : result Message :=
  (let? d := loads lib s in from_dict now d)%result.
End Codec.

End Protocol.

(* ================================================================== *)
(** * String methods *)
(* ================================================================== *)

(** Strings are sequences of code points below 256.  [str.lower] and
    [str.strip] are given on that range. *)
Module Str.

Definition is_upper (c : ascii) : bool :=
  let n := nat_of_ascii c in
  ((65 <=? n) && (n <=? 90) || (192 <=? n) && (n <=? 214)
   || (216 <=? n) && (n <=? 222))%nat.

Definition lower_char (c : ascii) : ascii :=
  if is_upper c then ascii_of_nat (nat_of_ascii c + 32) else c.

(** [s.lower()]. *)
Fixpoint lower (s : string) : string :=
  match s with
  | EmptyString => EmptyString
  | String c s' => String (lower_char c) (lower s')
  end.

Definition is_space (c : ascii) : bool :=
  let n := nat_of_ascii c in
  ((9 <=? n) && (n <=? 13) || (28 <=? n) && (n <=? 32)
   || (n =? 133) || (n =? 160))%nat.

Fixpoint lstrip (s : string) : string :=
  match s with
  | EmptyString => EmptyString
  | String c s' => if is_space c then lstrip s' else s
  end.

(** Drops the white space at the end: the result is empty when the rest of
    the string is white space only. *)
Fixpoint rstrip (s : string) : string :=
  match s with
  | EmptyString => EmptyString
  | String c s' =>
      match rstrip s' with
      | EmptyString => if is_space c then EmptyString else String c EmptyString
      | r => String c r
      end
  end.

(** [s.strip()]. *)
Definition strip (s : string) : string := rstrip (lstrip s).

(** [str(n)] for an integer. *)
Definition of_Z (n : Z) : string :=
  DecimalString.NilZero.string_of_int (Z.to_int n).

End Str.

(** [str(v)], as f-strings apply it to an interpolated value. *)
Definition py_str (lib : PyLib) (v : json) : string :=
  match v with
  | JNull => "None"
  | JBool true => "True"
  | JBool false => "False"
  | JInt n => Str.of_Z n
  | JStr s => s
  | JList _ | JDict _ => repr lib v
  end.

(* ================================================================== *)
(** * shared/database/models.py *)
(* ================================================================== *)

Module Models.

Inductive ViolationType : Type :=
| APPLICATION_BLOCKED | PROCESS_TERMINATION_ATTEMPT | FACE_ABSENCE
| MULTIPLE_FACES | SUSPICIOUS_MOVEMENT | VOICE_ACTIVITY | MULTIPLE_SPEAKERS
| SCREEN_SWITCH | SHORTCUT_BLOCKED | UNAUTHORIZED_WEBSITE.

Definition ViolationType_value (t : ViolationType) : string :=
  match t with
  | APPLICATION_BLOCKED => "application_blocked"
  | PROCESS_TERMINATION_ATTEMPT => "process_termination_attempt"
  | FACE_ABSENCE => "face_absence"
  | MULTIPLE_FACES => "multiple_faces"
  | SUSPICIOUS_MOVEMENT => "suspicious_movement"
  | VOICE_ACTIVITY => "voice_activity"
  | MULTIPLE_SPEAKERS => "multiple_speakers"
  | SCREEN_SWITCH => "screen_switch"
  | SHORTCUT_BLOCKED => "shortcut_blocked"
  | UNAUTHORIZED_WEBSITE => "unauthorized_website"
  end.

Definition ViolationType_members : list ViolationType :=
  [APPLICATION_BLOCKED; PROCESS_TERMINATION_ATTEMPT; FACE_ABSENCE;
   MULTIPLE_FACES; SUSPICIOUS_MOVEMENT; VOICE_ACTIVITY; MULTIPLE_SPEAKERS;
   SCREEN_SWITCH; SHORTCUT_BLOCKED; UNAUTHORIZED_WEBSITE].

(** [ViolationType(v)]. *)
Definition ViolationType_call (v : json) : result ViolationType :=
  match v with
  | JStr s =>
      match find (fun t => (ViolationType_value t =? s)%string)
                 ViolationType_members with
      | Some t => Return t
      | None => Raise (InvalidEnumValue "ViolationType" v)
      end
  | _ => Raise (InvalidEnumValue "ViolationType" v)
  end.

Inductive ViolationSeverity : Type := LOW | MEDIUM | HIGH | CRITICAL.

Definition ViolationSeverity_value (s : ViolationSeverity) : string :=
  match s with
  | LOW => "low"
  | MEDIUM => "medium"
  | HIGH => "high"
  | CRITICAL => "critical"
  end.

(** [ViolationSeverity(v)]. *)
Definition ViolationSeverity_call (v : json) : result ViolationSeverity :=
  match v with
  | JStr s =>
      match find (fun t => (ViolationSeverity_value t =? s)%string)
                 [LOW; MEDIUM; HIGH; CRITICAL] with
      | Some t => Return t
      | None => Raise (InvalidEnumValue "ViolationSeverity" v)
      end
  | _ => Raise (InvalidEnumValue "ViolationSeverity" v)
  end.

Inductive PermissionStatus : Type := PENDING | APPROVED | REJECTED | EXPIRED.

(** [PermissionStatus.X.name] and [PermissionStatus.X.value]. *)
Definition PermissionStatus_name (s : PermissionStatus) : string :=
  match s with
  | PENDING => "PENDING"
  | APPROVED => "APPROVED"
  | REJECTED => "REJECTED"
  | EXPIRED => "EXPIRED"
  end.

Definition PermissionStatus_value (s : PermissionStatus) : string :=
  match s with
  | PENDING => "pending"
  | APPROVED => "approved"
  | REJECTED => "rejected"
  | EXPIRED => "expired"
  end.

(** The column [status] is declared [Enum(PermissionStatus)] and holds
    text.  A member written to it (the column default is one) is stored as
    its name; a string written to it is stored as it is, whether or not it is
    the name of a member.  Reading the column gives the member whose name the
    text is and raises a [LookupError] when there is none. *)
Definition load_status (text : string) : result PermissionStatus :=
  match find (fun s => (PermissionStatus_name s =? text)%string)
             [PENDING; APPROVED; REJECTED; EXPIRED] with
  | Some s => Return s
  | None => Raise (LookupError "permissionstatus" text)
  end.

(** A row of [participants].  [integrity_score] is a float column; every
    score the core computes is an integer between 0 and 100, which a float
    represents exactly, so the column is read as an integer. *)
Record Participant : Type := mkParticipant {
  id : Z;
  participant_id : string;
  name : string;
  exam_session_id : Z;
  computer_ip : json;
  computer_name : json;
  joined_at : datetime;
  last_heartbeat : datetime;
  is_active : bool;
  integrity_score : Z;
  warning_count : Z;
  violation_count : Z;
  is_locked : bool
}.

(** A row of [violations]; [v_participant_id] is the foreign key to
    [participants.id]. *)
Record Violation : Type := mkViolation {
  v_id : Z;
  v_participant_id : Z;
  v_exam_session_id : Z;
  violation_type : ViolationType;
  severity : ViolationSeverity;
  description : json;
  v_timestamp : datetime;
  is_resolved : bool;
  resolved_at : option datetime;
  resolved_by : option string
}.

(** A row of [permission_requests]; [status] is the text the column
    holds. *)
Record PermissionRequest : Type := mkPermissionRequest {
  r_id : Z;
  r_participant_id : Z;
  request_type : json;
  status : string;
  requested_at : datetime;
  approved_at : option datetime;
  expires_at : option datetime;
  duration_minutes : Z;
  reason : json
}.

(** The tables the core touches, each in row order. *)
Record Database : Type := mkDatabase {
  participants : list Participant;
  violations : list Violation;
  permission_requests : list PermissionRequest
}.

End Models.

(* ================================================================== *)
(** * The admin process: state, environment and effects *)
(* ================================================================== *)

(** A live transport handle (the [WebSocket] object of one connection). *)
Definition WebSocket := nat.

(** One call of [websocket.send_text]: the handle written to, the message
    whose JSON text was written, and whether the write completed ([false]
    when it raised). *)
Record Delivery : Type := mkDelivery {
  handle : WebSocket;
  message : Protocol.Message;
  completed : bool
}.

(** The two entries of [config['ai_proctoring']['escalation']] the core
    reads; [None] when the entry is absent. *)
Record Config : Type := mkConfig {
  warnings_before_flag : option Z;
  warnings_before_lock : option Z
}.

(** The environment of a run: the value of the [n]-th reading of
    [datetime.utcnow()], and whether the [n]-th transport write completes. *)
Record Env : Type := mkEnv {
  utcnow_at : nat -> datetime;
  send_text_ok : nat -> bool
}.

(** [db] is the database behind [DatabaseManager]; [connected_clients] and
    [client_info] are the two dictionaries of [ProctoringServer];
    [current_session_id], [ai_proctor_mode] and [config] are attributes of
    [AdminApp].  [clock_reads] counts the readings of the clock so far and
    [transport_log] lists the transport writes so far, oldest first. *)
Record World : Type := mkWorld {
  db : Models.Database;
  connected_clients : PyDict.t WebSocket;
  client_info : PyDict.t (PyDict.t json);
  current_session_id : option Z;
  ai_proctor_mode : bool;
  config : Config;
  clock_reads : nat;
  transport_log : list Delivery
}.

Definition set_db (d : Models.Database) (w : World) : World :=
  mkWorld d (connected_clients w) (client_info w) (current_session_id w)
          (ai_proctor_mode w) (config w) (clock_reads w) (transport_log w).

Definition set_connected_clients (c : PyDict.t WebSocket) (w : World) : World :=
  mkWorld (db w) c (client_info w) (current_session_id w)
          (ai_proctor_mode w) (config w) (clock_reads w) (transport_log w).

Definition set_client_info (i : PyDict.t (PyDict.t json)) (w : World) : World :=
  mkWorld (db w) (connected_clients w) i (current_session_id w)
          (ai_proctor_mode w) (config w) (clock_reads w) (transport_log w).

Definition set_clock_reads (n : nat) (w : World) : World :=
  mkWorld (db w) (connected_clients w) (client_info w) (current_session_id w)
          (ai_proctor_mode w) (config w) n (transport_log w).

Definition set_transport_log (l : list Delivery) (w : World) : World :=
  mkWorld (db w) (connected_clients w) (client_info w) (current_session_id w)
          (ai_proctor_mode w) (config w) (clock_reads w) l.

(** Computations that read and change the world and may raise. *)
Definition M (A : Type) : Type := World -> result A * World.

Definition ret {A} (a : A) : M A := fun w => (Return a, w).

Definition bind {A B} (c : M A) (k : A -> M B) : M B :=
  fun w =>
    match c w with
    | (Return a, w') => k a w'
    | (Raise e, w') => (Raise e, w')
    end.

Definition raise {A} (e : exc) : M A := fun w => (Raise e, w).

(** Lifts a pure outcome. *)
Definition lift {A} (r : result A) : M A := fun w => (r, w).

Definition gets {A} (f : World -> A) : M A := fun w => (Return (f w), w).

Definition modify (f : World -> World) : M unit := fun w => (Return tt, f w).

Declare Scope monad_scope.
Delimit Scope monad_scope with monad.
Notation "x <- c ;; k" := (bind c (fun x => k))
  (at level 61, c at next level, right associativity) : monad_scope.
Notation "c ;; k" := (bind c (fun _ => k))
  (at level 61, right associativity) : monad_scope.

Local Open Scope monad_scope.

(** [datetime.utcnow()]. *)
Definition utcnow (env : Env) : M datetime :=
  fun w => (Return (utcnow_at env (clock_reads w)),
            set_clock_reads (S (clock_reads w)) w).

(** [Message(msg_type, data=..., participant_id=...)]: the constructor
    without a timestamp reads the clock. *)
Definition new_message (env : Env) (msg_type : Protocol.MessageType)
    (data : json) (participant_id : json) : M Protocol.Message :=
  now <- utcnow env ;;
  ret (Protocol.Message_init msg_type data participant_id None now).

(* ================================================================== *)
(** * shared/database/database_manager.py *)
(* ================================================================== *)

(** Every operation runs in one session ([with self.get_session()]): it
    either commits all its changes or, when it raises, none.  A query with
    [.first()] yields the first matching row in row order.  The objects an
    operation returns are detached copies of the rows ([expire_on_commit] is
    off): they keep the values the row had when it was read. *)
Module DatabaseManager.
Import Models.

Fixpoint update_first {A} (test : A -> bool) (f : A -> A) (l : list A)
  : list A :=
  match l with
  | [] => []
  | x :: l' => if test x then f x :: l' else x :: update_first test f l'
  end.

(** The key SQLite gives to a new row: one more than the largest key. *)
Definition next_id (ids : list Z) : Z := 1 + fold_right Z.max 0 ids.

Definition set_participants (ps : list Participant) (d : Database) : Database :=
  mkDatabase ps (violations d) (permission_requests d).

Definition set_violations (vs : list Violation) (d : Database) : Database :=
  mkDatabase (participants d) vs (permission_requests d).

Definition set_permission_requests (rs : list PermissionRequest)
    (d : Database) : Database :=
  mkDatabase (participants d) (violations d) rs.

Definition with_heartbeat (now : datetime) (p : Participant) : Participant :=
  mkParticipant (id p) (participant_id p) (name p) (exam_session_id p)
    (computer_ip p) (computer_name p) (joined_at p) now true
    (integrity_score p) (warning_count p) (violation_count p) (is_locked p).

Definition with_integrity_score (s : Z) (p : Participant) : Participant :=
  mkParticipant (id p) (participant_id p) (name p) (exam_session_id p)
    (computer_ip p) (computer_name p) (joined_at p) (last_heartbeat p)
    (is_active p) s (warning_count p) (violation_count p) (is_locked p).

Definition with_warning_count (n : Z) (p : Participant) : Participant :=
  mkParticipant (id p) (participant_id p) (name p) (exam_session_id p)
    (computer_ip p) (computer_name p) (joined_at p) (last_heartbeat p)
    (is_active p) (integrity_score p) n (violation_count p) (is_locked p).

Definition with_violation_count (n : Z) (p : Participant) : Participant :=
  mkParticipant (id p) (participant_id p) (name p) (exam_session_id p)
    (computer_ip p) (computer_name p) (joined_at p) (last_heartbeat p)
    (is_active p) (integrity_score p) (warning_count p) n (is_locked p).

Definition with_is_locked (b : bool) (p : Participant) : Participant :=
  mkParticipant (id p) (participant_id p) (name p) (exam_session_id p)
    (computer_ip p) (computer_name p) (joined_at p) (last_heartbeat p)
    (is_active p) (integrity_score p) (warning_count p) (violation_count p) b.

(** [session.query(Participant).filter_by(participant_id=pid).first()]. *)
Definition query_participant (pid : string) (d : Database)
  : option Participant :=
  find (fun p => (participant_id p =? pid)%string) (participants d).

(** Writes the attributes changed on the object a query returned back to
    its row. *)
Definition update_participant (pid : string) (f : Participant -> Participant)
    (d : Database) : Database :=
  set_participants
    (update_first (fun p => (participant_id p =? pid)%string) f
                  (participants d)) d.

Definition query_request (request_id : Z) (d : Database)
  : option PermissionRequest :=
  find (fun r => r_id r =? request_id) (permission_requests d).

(** The attributes [approve_permission_request] sets; the status is
    assigned the string ['approved']. *)
Definition approved (t1 t2 : datetime) (r : PermissionRequest)
  : PermissionRequest :=
  mkPermissionRequest (r_id r) (r_participant_id r) (request_type r)
    "approved" (requested_at r) (Some t1)
    (Some (t2 + minutes (duration_minutes r)))
    (duration_minutes r) (reason r).

Section Operations.
Variable env : Env.

Definition get_participant (pid : string) : M (option Participant) :=
  gets (fun w => query_participant pid (db w)).

Definition update_participant_heartbeat (pid : string) : M unit :=
  participant <- gets (fun w => query_participant pid (db w)) ;;
  match participant with
  | Some _ =>
      now <- utcnow env ;;
      modify (fun w =>
        set_db (update_participant pid (with_heartbeat now) (db w)) w)
  | None => ret tt
  end.

Definition update_integrity_score (pid : string) (score : Z) : M unit :=
  participant <- gets (fun w => query_participant pid (db w)) ;;
  match participant with
  | Some _ =>
      modify (fun w =>
        set_db (update_participant pid
                  (with_integrity_score (Z.max 0 (Z.min 100 score)))
                  (db w)) w)
  | None => ret tt
  end.

Definition increment_warning_count (pid : string) : M unit :=
  participant <- gets (fun w => query_participant pid (db w)) ;;
  match participant with
  | Some _ =>
      modify (fun w =>
        set_db (update_participant pid
                  (fun p => with_warning_count (warning_count p + 1) p)
                  (db w)) w)
  | None => ret tt
  end.

Definition lock_participant (pid : string) (locked : bool) : M unit :=
  participant <- gets (fun w => query_participant pid (db w)) ;;
  match participant with
  | Some _ =>
      modify (fun w =>
        set_db (update_participant pid (with_is_locked locked) (db w)) w)
  | None => ret tt
  end.

Definition not_found (pid : string) : exc :=
  ValueError ("Participant " ++ pid ++ " not found").

(** The new row takes the column defaults: the time of the insertion,
    unresolved.  The description is kept as it is given, which is what the
    column, a [Text], does with a string or [None]. *)
Definition create_violation (pid : string) (exam_session_id : Z)
    (violation_type : ViolationType) (severity : ViolationSeverity)
    (description : json) : M Violation :=
  participant <- gets (fun w => query_participant pid (db w)) ;;
  match participant with
  | None => raise (not_found pid)
  | Some p =>
      now <- utcnow env ;;
      d <- gets db ;;
      let violation :=
        mkViolation (next_id (map v_id (violations d))) (id p)
          exam_session_id violation_type severity description now
          false None None in
      modify (set_db
        (update_participant pid
           (fun p => with_violation_count (violation_count p + 1) p)
           (set_violations (violations d ++ [violation]) d))) ;;
      ret violation
  end.

(** The request is built with the string ['pending'] as its status and
    inserted, which reads the clock for the column default of
    [requested_at]; [session.refresh(request)] then reads the new row back.
    The row is kept only when the session commits, after the refresh. *)
Definition create_permission_request (pid : string) (request_type : json)
    (duration_minutes : Z) (reason : json) : M PermissionRequest :=
  participant <- gets (fun w => query_participant pid (db w)) ;;
  match participant with
  | None => raise (not_found pid)
  | Some p =>
      now <- utcnow env ;;
      d <- gets db ;;
      let request :=
        mkPermissionRequest (next_id (map r_id (permission_requests d)))
          (id p) request_type "pending" now None None duration_minutes
          reason in
      _ <- lift (load_status (status request)) ;;
      modify (set_db
        (set_permission_requests (permission_requests d ++ [request]) d)) ;;
      ret request
  end.

(** The query reads the row, and with it the status.  The test is
    [request.status.value == 'pending'].  The clock is read twice: once for
    [approved_at] and once more for [expires_at]. *)
Definition approve_permission_request (request_id : Z) : M bool :=
  request <- gets (fun w => query_request request_id (db w)) ;;
  match request with
  | Some r =>
      member <- lift (load_status (status r)) ;;
      if (PermissionStatus_value member =? "pending")%string then
        t1 <- utcnow env ;;
        t2 <- utcnow env ;;
        modify (fun w =>
          set_db (set_permission_requests
                    (update_first (fun r => r_id r =? request_id)
                                  (approved t1 t2)
                                  (permission_requests (db w)))
                    (db w)) w) ;;
        ret true
      else ret false
  | None => ret false
  end.

(** The filter of [get_active_permission], which the database applies to
    the stored text: the request belongs to the participant, its status is
    the string ['approved'], and it expires after [now]; a request without
    an expiry never passes. *)
Definition is_active_for (p : Participant) (now : datetime)
    (r : PermissionRequest) : bool :=
  (r_participant_id r =? id p)
  && (status r =? "approved")%string
  && match expires_at r with
     | Some e => now <? e
     | None => false
     end.

(** The first row that passes the filter is read, and with it its
    status. *)
Definition get_active_permission (pid : string)
  : M (option PermissionRequest) :=
  participant <- gets (fun w => query_participant pid (db w)) ;;
  match participant with
  | None => ret None
  | Some p =>
      now <- utcnow env ;;
      row <-
        gets (fun w =>
          find (is_active_for p now) (permission_requests (db w))) ;;
      match row with
      | Some r => _ <- lift (load_status (status r)) ;; ret (Some r)
      | None => ret None
      end
  end.
End Operations.

End DatabaseManager.

(* ================================================================== *)
(** * shared/networking/server.py *)
(* ================================================================== *)

Module ProctoringServer.
Section Server.
Variable lib : PyLib.
Variable env : Env.

(** The first statements of [websocket_endpoint]: the accepted connection
    becomes the participant's handle, in place of an earlier one. *)
Definition accept (pid : string) (websocket : WebSocket) : M unit :=
  modify (fun w =>
    set_connected_clients (PyDict.set pid websocket (connected_clients w)) w).

Definition _disconnect_client (pid : string) : M unit :=
  modify (fun w =>
    if PyDict.mem pid (connected_clients w)
    then set_connected_clients (PyDict.del pid (connected_clients w)) w
    else w) ;;
  info <- gets (fun w => PyDict.get pid (client_info w)) ;;
  match info with
  | Some i =>
      now <- utcnow env ;;
      modify (fun w =>
        set_client_info
          (PyDict.set pid
             (PyDict.set "connected" (JBool false)
                (PyDict.set "last_seen" (JStr (isoformat lib now)) i))
             (client_info w)) w)
  | None => ret tt
  end.

(** [await websocket.send_text(message.to_json())]: the write is recorded
    with its outcome, which the environment decides. *)
Definition send_text (websocket : WebSocket) (m : Protocol.Message)
  : M bool :=
  fun w =>
    let ok := send_text_ok env (List.length (transport_log w)) in
    (Return ok,
     set_transport_log (transport_log w ++ [mkDelivery websocket m ok]) w).

Definition send_message (pid : string) (m : Protocol.Message) : M bool :=
  clients <- gets connected_clients ;;
  match PyDict.get pid clients with
  | Some websocket =>
      ok <- send_text websocket m ;;
      if ok then ret true
      else (_disconnect_client pid ;; ret false)
  | None => ret false
  end.

(** [Message.from_json(data)] as a step of a connection task: the clock is
    read, for the default of the timestamp, once the type has been
    converted. *)
Definition decode (text : wire lib) : M Protocol.Message :=
  fun w =>
    let reached :=
      match (let? d := loads lib text in
             let? v := Protocol.getitem d "type" in
             Protocol.MessageType_call v)%result with
      | Return _ => true
      | Raise _ => false
      end in
    (Protocol.from_json lib (utcnow_at env (clock_reads w)) text,
     if reached then set_clock_reads (S (clock_reads w)) w else w).

(** [handlers] is the table [message_handlers]; a message whose type has no
    handler is printed and skipped. *)
Definition _handle_message
    (handlers : Protocol.MessageType
                -> option (string -> Protocol.Message -> M unit))
    (pid : string) (m : Protocol.Message) : M unit :=
  match handlers (Protocol.type m) with
  | Some handler => handler pid m
  | None => ret tt
  end.

(** One turn of the loop of [websocket_endpoint] on a received text.  The
    result tells whether the loop goes on; an exception of the decoding or
    of the handler ends it with [_disconnect_client]. *)
Definition receive
    (handlers : Protocol.MessageType
                -> option (string -> Protocol.Message -> M unit))
    (pid : string) (text : wire lib) : M bool :=
  fun w =>
    match (m <- decode text ;; _handle_message handlers pid m) w with
    | (Return _, w') => (Return true, w')
    | (Raise _, w') => (_disconnect_client pid ;; ret false) w'
    end.

(** The handle one turn of the loop of [broadcast_message] writes to: that
  of [pid] in the registry [cc], unless [pid] is excluded or has none. *)
Definition turn_target (exclude : list string) (cc : PyDict.t WebSocket)
  (pid : string) : list WebSocket :=
if existsb (String.eqb pid) exclude then []
else match PyDict.get pid cc with
     | Some ws => [ws]
     | None => []
     end.

(** The loop of [broadcast_message] over the snapshot [ids]. *)
Fixpoint broadcast_loop (ids : list string) (m : Protocol.Message)
    (exclude : list string) : M unit :=
  match ids with
  | [] => ret tt
  | pid :: ids' =>
      (if existsb (String.eqb pid) exclude then ret tt
       else (_ <- send_message pid m ;; ret tt)) ;;
      broadcast_loop ids' m exclude
  end.

(** [exclude] is the list given, or the empty list for [None]. *)
Definition broadcast_message (m : Protocol.Message) (exclude : list string)
  : M unit :=
  ids <- gets (fun w => PyDict.keys (connected_clients w)) ;;
  broadcast_loop ids m exclude.
End Server.
End ProctoringServer.

(* ================================================================== *)
(** * admin_app/app.py *)
(* ================================================================== *)

(** The handlers of [AdminApp].  [loop.run_until_complete(coro)] is read as
    running [coro] to its end, which is what it does in a thread that runs
    no event loop: the functions of this module are the handlers as such a
    thread calls them.  The refresh of the dashboard widgets changes
    nothing in the world and is left out. *)
Module AdminApp.
Import Models.
Import Protocol.

(** [data.get(k, default)] on the payload of a message: an
    [AttributeError] when the payload is not a dictionary. *)
Definition payload_get (data : json) (k : string) (default : json)
  : result json :=
  match data with
  | JDict kv => Return (PyDict.get_default k default kv)
  | _ => Raise AttributeError
  end.

(** [v.strip()]: an [AttributeError] unless [v] is a string. *)
Definition strip_value (v : json) : result string :=
  match v with
  | JStr s => Return (Str.strip s)
  | _ => Raise AttributeError
  end.

(** [not self.current_session_id or
     participant.exam_session_id != self.current_session_id]. *)
Definition session_mismatch (current : option Z) (p : Participant) : bool :=
  match current with
  | None => true
  | Some s => (s =? 0) || negb (exam_session_id p =? s)
  end.

(** The attributes the registration handler sets on the participant. *)
Definition with_registration (ip cname : json) (now : datetime)
    (p : Participant) : Participant :=
  mkParticipant (id p) (Models.participant_id p) (name p) (exam_session_id p)
    ip cname (joined_at p) now true
    (integrity_score p) (warning_count p) (violation_count p) (is_locked p).

Definition rejected (text : string) : json :=
  JDict [("status", JStr "rejected"); ("message", JStr text)].

Definition registered (pid : string) (session_id : option Z) : json :=
  JDict [("status", JStr "registered");
         ("participant_id", JStr pid);
         ("exam_session_id",
          match session_id with Some s => JInt s | None => JNull end)].

Definition default (o : option Z) (d : Z) : Z :=
  match o with Some v => v | None => d end.

Section Handlers.
Variable lib : PyLib.
Variable env : Env.

(** Builds a [REGISTER_ACK] with the payload [body] and sends it. *)
Definition reply_ack (pid : string) (body : json) : M unit :=
  ack_message <- new_message env REGISTER_ACK body (JStr pid) ;;
  _ <- ProctoringServer.send_message lib env pid ack_message ;;
  ret tt.

Definition _handle_register_async (pid : string) (message : Message)
  : M unit :=
  let data := Protocol.data message in
  name_value <- lift (payload_get data "name" (JStr "")) ;;
  supplied <- lift (strip_value name_value) ;;
  participant <- DatabaseManager.get_participant pid ;;
  match participant with
  | None =>
      reply_ack pid
        (rejected ("ID Peserta " ++ pid
                   ++ " tidak terdaftar. Silakan hubungi pengawas."))
  | Some p =>
      if negb (Str.lower (name p) =? Str.lower supplied)%string then
        reply_ack pid
          (rejected ("Nama tidak sesuai. Nama yang terdaftar: " ++ name p))
      else
        current <- gets current_session_id ;;
        if session_mismatch current p then
          reply_ack pid (rejected "Sesi ujian tidak aktif atau tidak sesuai.")
        else
          ip <- lift (payload_get data "computer_ip" (JStr "")) ;;
          cname <- lift (payload_get data "computer_name" (JStr "")) ;;
          now <- utcnow env ;;
          modify (fun w =>
            set_db (DatabaseManager.set_participants
                      (DatabaseManager.update_first
                         (fun q => id q =? id p)
                         (with_registration ip cname now)
                         (participants (db w)))
                      (db w)) w) ;;
          current <- gets current_session_id ;;
          reply_ack pid (registered pid current)
  end.

Definition _handle_heartbeat_async (pid : string) (message : Message)
  : M unit :=
  DatabaseManager.update_participant_heartbeat env pid.

(** The score is computed in floats from the two counters; with integer
    counters every intermediate value is an integer. *)
Definition integrity_score_of (violation_count warning_count : Z) : Z :=
  let base_score := 100 in
  let violation_penalty := violation_count * 5 in
  let warning_penalty := warning_count * 2 in
  Z.max 0 (base_score - violation_penalty - warning_penalty).

Definition _update_integrity_score (pid : string) : M unit :=
  participant <-
    gets (fun w => DatabaseManager.query_participant pid (db w)) ;;
  match participant with
  | None => ret tt
  | Some p =>
      let score :=
        integrity_score_of (violation_count p) (warning_count p) in
      modify (fun w =>
        set_db (DatabaseManager.update_participant pid
                  (DatabaseManager.with_integrity_score score) (db w)) w)
  end.

Definition warning_body (violation : Violation) (p : Participant) : json :=
  JDict [("message",
          JStr ("Peringatan: " ++ py_str lib (description violation)));
         ("warning_count", JInt (warning_count p))].

Definition lock_body : json := JDict [("reason", JStr "auto_escalation")].

Definition flag_body : json :=
  JDict [("message", JStr "FLAG: Anda telah mencapai batas peringatan!");
         ("flag", JBool true)].

(** [participant] is the copy read before the counter is incremented; the
    warning and both threshold tests use its [warning_count]. *)
Definition _handle_violation_auto (violation : Violation) (pid : string)
  : M unit :=
  participant <- DatabaseManager.get_participant pid ;;
  match participant with
  | None => ret tt
  | Some p =>
      DatabaseManager.increment_warning_count pid ;;
      warning_message <-
        new_message env WARNING (warning_body violation p) (JStr pid) ;;
      _ <- ProctoringServer.send_message lib env pid warning_message ;;
      escalation <- gets config ;;
      let before_flag := default (warnings_before_flag escalation) 3 in
      let before_lock := default (warnings_before_lock escalation) 5 in
      if before_lock <=? warning_count p then
        DatabaseManager.lock_participant pid true ;;
        lock_message <- new_message env LOCK lock_body (JStr pid) ;;
        _ <- ProctoringServer.send_message lib env pid lock_message ;;
        ret tt
      else if before_flag <=? warning_count p then
        flag_message <- new_message env WARNING flag_body (JStr pid) ;;
        _ <- ProctoringServer.send_message lib env pid flag_message ;;
        ret tt
      else ret tt
  end.

Definition _handle_violation_report (pid : string) (message : Message)
  : M unit :=
  let data := Protocol.data message in
  type_value <-
    lift (payload_get data "violation_type" (JStr "application_blocked")) ;;
  violation_type <- lift (ViolationType_call type_value) ;;
  severity_value <- lift (payload_get data "severity" (JStr "medium")) ;;
  severity <- lift (ViolationSeverity_call severity_value) ;;
  current <- gets current_session_id ;;
  match current with
  | None => ret tt
  | Some session_id =>
      if session_id =? 0 then ret tt
      else
        text <- lift (payload_get data "description" (JStr "")) ;;
        violation <-
          DatabaseManager.create_violation env pid session_id
            violation_type severity text ;;
        participant <- DatabaseManager.get_participant pid ;;
        match participant with
        | Some _ => _update_integrity_score pid
        | None => ret tt
        end ;;
        mode <- gets ai_proctor_mode ;;
        if mode then _handle_violation_auto violation pid else ret tt
  end.
End Handlers.

End AdminApp.

(* ================================================================== *)
(** * shared/networking/client.py *)
(* ================================================================== *)

(** The client runs on one event loop: the coroutine [start] advances from
    one [await] to the next without interruption, and between two of its
    steps the scheduler may run [stop] or the [disconnect] task that [stop]
    created.  The coroutine is written as a transition function: an event
    resumes the suspended code, which runs to its next [await] and reports
    the transport and timer calls it made on the way. *)
Module ProctoringClient.
Import Protocol.

Record Client : Type := mkClient {
  server_url : string;
  participant_id : string;
  websocket : option WebSocket;
  is_connected : bool;
  reconnect_interval : Z;
  running : bool
}.

(** [ProctoringClient.__init__]. *)
Definition init (server_url participant_id : string) : Client :=
  mkClient server_url participant_id None false 5 false.

(** The calls the client makes on its collaborators. *)
Inductive Action : Type :=
| Connect (uri : string)
| Send (ws : WebSocket) (msg_type : MessageType) (data : json) (pid : json)
| Sleep (seconds : Z)
| Close (ws : WebSocket).

(** The [await] at which [start] is suspended.  [Spinning] is the loop of
    [listen] turning without an [await] (connected flag set, no transport);
    [Finished] is [start] returned. *)
Inductive Point : Type :=
| Connecting | Registering | Receiving | Sleeping | Spinning | Finished.

(** What resumes suspended code: the outcome of the awaited call of
    [start], a call of [stop], or the scheduler running a [disconnect] task
    up to its [await] and, later, past it. *)
Inductive Event : Type :=
| ConnectResult (r : option WebSocket)
| SendResult (ok : bool)
| RecvMessage (handled : bool)
| RecvClosed
| TimerFired
| Stop
| DisconnectBegin
| CloseDone.

(** The arguments of [start], the client object, the point [start] has
    reached, and the [disconnect] tasks created and not yet begun
    ([scheduled]) or waiting for [close] to return ([closing]). *)
Record State : Type := mkState {
  name : json;
  computer_ip : json;
  computer_name : json;
  client : Client;
  point : Point;
  scheduled : nat;
  closing : nat
}.

Definition set_client (c : Client) (st : State) : State :=
  mkState (name st) (computer_ip st) (computer_name st) c (point st)
          (scheduled st) (closing st).

Definition set_point (p : Point) (st : State) : State :=
  mkState (name st) (computer_ip st) (computer_name st) (client st) p
          (scheduled st) (closing st).

Definition set_tasks (s c : nat) (st : State) : State :=
  mkState (name st) (computer_ip st) (computer_name st) (client st)
          (point st) s c.

Definition set_websocket (ws : option WebSocket) (c : Client) : Client :=
  mkClient (server_url c) (participant_id c) ws (is_connected c)
           (reconnect_interval c) (running c).

Definition set_is_connected (b : bool) (c : Client) : Client :=
  mkClient (server_url c) (participant_id c) (websocket c) b
           (reconnect_interval c) (running c).

Definition set_running (b : bool) (c : Client) : Client :=
  mkClient (server_url c) (participant_id c) (websocket c) (is_connected c)
           (reconnect_interval c) b.

Definition uri (c : Client) : string :=
  server_url c ++ "/ws/" ++ participant_id c.

(** The payload of [register]. *)
Definition register_data (st : State) : json :=
  JDict [("name", name st);
         ("computer_ip", computer_ip st);
         ("computer_name", computer_name st)].

(** The head of [while self.running:] in [start]: a connection attempt, or
    the end of [start]. *)
Definition loop_head (st : State) : State * list Action :=
  if running (client st)
  then (set_point Connecting st, [Connect (uri (client st))])
  else (set_point Finished st, []).

(** After the [if await self.connect():] block: the pause before the next
    turn of the loop, when the client is still wanted. *)
Definition after_session (st : State) : State * list Action :=
  if running (client st)
  then (set_point Sleeping st, [Sleep (reconnect_interval (client st))])
  else loop_head st.

(** The head of the loop of [listen]. *)
Definition listen_head (st : State) : State * list Action :=
  if running (client st) && is_connected (client st)
  then match websocket (client st) with
       | Some _ => (set_point Receiving st, [])
       | None => (set_point Spinning st, [])
       end
  else after_session st.

(** [register] after a successful [connect]: [send_message] sends when the
    client is connected and has a transport, else [register] returns at
    once and [listen] starts. *)
Definition register (st : State) : State * list Action :=
  match is_connected (client st), websocket (client st) with
  | true, Some ws =>
      (set_point Registering st,
       [Send ws REGISTER (register_data st)
             (JStr (participant_id (client st)))])
  | _, _ => listen_head st
  end.

(** [start(name, computer_ip, computer_name)] up to its first [await]. *)
Definition start (c : Client) (name computer_ip computer_name : json)
  : State * list Action :=
  loop_head (mkState name computer_ip computer_name (set_running true c)
                     Finished 0 0).

Definition step (st : State) (e : Event) : State * list Action :=
  match e, point st with
  | ConnectResult (Some ws), Connecting =>
      register
        (set_client
           (set_is_connected true (set_websocket (Some ws) (client st)))
                    st)
  | ConnectResult None, Connecting =>
      after_session (set_client (set_is_connected false (client st)) st)
  | SendResult true, Registering => listen_head st
  | SendResult false, Registering =>
      listen_head (set_client (set_is_connected false (client st)) st)
  | RecvMessage true, Receiving => listen_head st
  | RecvMessage false, Receiving =>
      after_session (set_client (set_is_connected false (client st)) st)
  | RecvClosed, Receiving =>
      after_session (set_client (set_is_connected false (client st)) st)
  | TimerFired, Sleeping => loop_head st
  | Stop, _ =>
      (set_tasks (S (scheduled st)) (closing st)
                 (set_client (set_running false (client st)) st), [])
  | DisconnectBegin, _ =>
      match scheduled st with
      | O => (st, [])
      | S n =>
          let st' := set_client (set_is_connected false (client st)) st in
          match websocket (client st) with
          | Some ws => (set_tasks n (S (closing st)) st', [Close ws])
          | None => (set_tasks n (closing st) st', [])
          end
      end
  | CloseDone, _ =>
      match closing st with
      | O => (st, [])
      | S n =>
          (set_tasks (scheduled st) n
                     (set_client (set_websocket None (client st)) st), [])
      end
  | _, _ => (st, [])
  end.

(** The calls made while the events [es] are processed from [st]. *)
Fixpoint run (st : State) (es : list Event) : State * list Action :=
  match es with
  | [] => (st, [])
  | e :: es' =>
      let (st1, acts1) := step st e in
      let (st2, acts2) := run st1 es' in
      (st2, (acts1 ++ acts2)%list)
  end.

(** The calls of a whole session: those of [start] followed by those made
    under the events [es]. *)
Definition session (c : Client) (name computer_ip computer_name : json)
    (es : list Event) : State * list Action :=
  let (st, acts) := start c name computer_ip computer_name in
  let (st', acts') := run st es in
  (st', (acts ++ acts')%list).

Definition is_connect (a : Action) : bool :=
  match a with Connect _ => true | _ => false end.

(** Every connection attempt of the list is the call right after a pause of
    [interval] seconds; [prev] is the call before the list. *)
Fixpoint paced (interval : Z) (prev : option Action) (acts : list Action)
  : bool :=
  match acts with
  | [] => true
  | a :: rest =>
      (if is_connect a
       then match prev with
            | Some (Sleep s) => s =? interval
            | _ => false
            end
       else true)
      && paced interval (Some a) rest
  end.

(** The call made last, after the calls [acts] that follow [prev]. *)
Definition last_call (prev : option Action) (acts : list Action)
  : option Action :=
  last (map Some acts) prev.

Definition no_connect (acts : list Action) : bool :=
  forallb (fun a => negb (is_connect a)) acts.

(** What holds of a client started with [init url pid] and the arguments
    [nm], [ip], [cn], after the call [prev]: its identity, its arguments and
    its pause length are the initial ones, and while it is wanted no
    [disconnect] task exists and a pause it waits in was the last call. *)
Definition session_invariant (url pid : string) (nm ip cn : json)
    (st : State) (prev : option Action) : Prop :=
  name st = nm /\ computer_ip st = ip /\ computer_name st = cn
  /\ server_url (client st) = url
  /\ participant_id (client st) = pid
  /\ reconnect_interval (client st) = 5
  /\ (running (client st) = true ->
      scheduled st = O /\ closing st = O
      /\ (point st = Sleeping -> prev = Some (Sleep 5))).

End ProctoringClient.

(* ================================================================== *)
(** * Instances used to run the model *)
(* ================================================================== *)

(** A library in which a value tree is its own text and a [datetime] is
    printed in decimal. *)
Definition model_lib : PyLib :=
  {| wire := json;
     dumps := fun v => v;
     loads := fun v => Return v;
     isoformat := Str.of_Z;
     fromisoformat := fun s =>
       match NilZero.int_of_string s with
       | Some d => Return (Z.of_int d)
       | None => Raise (ValueError "Invalid isoformat string")
       end;
     repr := fun _ => "..." |}.

(** A clock that advances by one microsecond at each reading, and a
    transport on which every write completes. *)
Definition steady_env : Env := mkEnv (fun n => Z.of_nat n) (fun _ => true).

(** A clock that starts at [t0] and advances by one microsecond at each
    reading, on a transport on which every write completes. *)
Definition clock_from (t0 : Z) : Env :=
  mkEnv (fun n => t0 + Z.of_nat n) (fun _ => true).

(** A participant as entered in the roster, with the column defaults. *)
Definition roster_entry (key : Z) (pid name : string) (session_id : Z)
  : Models.Participant :=
  Models.mkParticipant key pid name session_id JNull JNull 0 0 true
                       100 0 0 false.

(** Participant P1 is in the roster of exam session 7, which is the current
    one, and is connected through handle 1; automatic escalation is on with
    the thresholds 3 and 5. *)
Definition exam_world : World :=
  mkWorld (Models.mkDatabase [roster_entry 1 "P1" "Budi" 7] [] [])
          [("P1", 1%nat)] [] (Some 7) true (mkConfig (Some 3) (Some 5))
          0 [].

(** The same with one request of P1 for ten minutes, stored with the
    member [PENDING], as the column default stores it. *)
Definition pending_world : World :=
  set_db (Models.mkDatabase [roster_entry 1 "P1" "Budi" 7] []
            [Models.mkPermissionRequest 1 1 (JStr "leave_seat")
               "PENDING" 0 None None 10 JNull])
         exam_world.

(** The same with two requests of P1 stored with the member [APPROVED],
    the first expiring at time 10 and the second at time 20. *)
Definition two_permissions_world : World :=
  set_db (Models.mkDatabase [roster_entry 1 "P1" "Budi" 7] []
            [Models.mkPermissionRequest 1 1 (JStr "leave_seat")
               "APPROVED" 0 (Some 1) (Some 10) 10 JNull;
             Models.mkPermissionRequest 2 1 (JStr "leave_seat")
               "APPROVED" 0 (Some 2) (Some 20) 10 JNull])
         exam_world.

(** Three connected participants, and an environment in which the first
    transport write fails and the later ones complete. *)
Definition three_clients_world : World :=
  set_connected_clients [("P1", 1%nat); ("P2", 2%nat); ("P3", 3%nat)]
                        exam_world.

Definition first_write_fails : Env :=
  mkEnv (fun n => Z.of_nat n) (fun n => negb (n =? 0)%nat).

Definition ping : Protocol.Message :=
  Protocol.Message_init Protocol.PING JNull JNull None 0.

(** A REGISTER message of P1 giving [supplied] as the name. *)
Definition register_request (supplied : string) : Protocol.Message :=
  Protocol.Message_init Protocol.REGISTER
    (JDict [("name", JStr supplied);
            ("computer_ip", JStr "10.0.0.5");
            ("computer_name", JStr "LAB-05")])
    (JStr "P1") None 0.

(** A report of a blocked application, and the world after [n] such reports
    of P1 have been handled one after the other. *)
Definition blocked_report : Protocol.Message :=
  Protocol.Message_init Protocol.VIOLATION_REPORT
    (JDict [("violation_type", JStr "application_blocked");
            ("severity", JStr "medium");
            ("description", JStr "game.exe")])
    (JStr "P1") None 0.

Fixpoint after_reports (n : nat) (w : World) : World :=
  match n with
  | O => w
  | S k =>
      snd (AdminApp._handle_violation_report model_lib steady_env "P1"
             blocked_report (after_reports k w))
  end.

From Stdlib Require Import Sorted.

(* ================================================================== *)
(** * shared/networking/server.py: handlers and bookkeeping *)
(* ================================================================== *)

Module ServerHandlers.
Import Protocol.

(** A message handler, and the table [message_handlers]. *)
Definition handler : Type := string -> Message -> M unit.
Definition handlers : Type := MessageType -> option handler.

(** [self.message_handlers[msg_type] = handler]; two members of the
    enumeration are the same key when they have the same value. *)
Definition register_handler (msg_type : MessageType) (h : handler)
    (table : handlers) : handlers :=
  fun t => if (value t =? value msg_type)%string then Some h else table t.

Section Defaults.
Variable lib : PyLib.
Variable env : Env.

(** The registration handler the server installs itself: it records the
    participant in [client_info] and acknowledges. *)
Definition _handle_register (pid : string) (message : Message) : M unit :=
  let data := Protocol.data message in
  name <- lift (AdminApp.payload_get data "name" (JStr "")) ;;
  ip <- lift (AdminApp.payload_get data "computer_ip" (JStr "")) ;;
  cname <- lift (AdminApp.payload_get data "computer_name" (JStr "")) ;;
  now <- utcnow env ;;
  modify (fun w =>
    set_client_info
      (PyDict.set pid
         [("name", name); ("computer_ip", ip); ("computer_name", cname);
          ("registered_at", JStr (isoformat lib now));
          ("connected", JBool true)]
         (client_info w)) w) ;;
  ack_message <-
    new_message env REGISTER_ACK
      (JDict [("status", JStr "registered"); ("participant_id", JStr pid)])
      (JStr pid) ;;
  _ <- ProctoringServer.send_message lib env pid ack_message ;;
  ret tt.

Definition _handle_heartbeat (pid : string) (message : Message) : M unit :=
  info <- gets (fun w => PyDict.get pid (client_info w)) ;;
  match info with
  | Some i =>
      now <- utcnow env ;;
      modify (fun w =>
        set_client_info
          (PyDict.set pid
             (PyDict.set "connected" (JBool true)
                (PyDict.set "last_heartbeat" (JStr (isoformat lib now)) i))
             (client_info w)) w)
  | None => ret tt
  end.

(** The two handlers the server leaves to the admin application. *)
Definition _handle_violation_report (pid : string) (message : Message)
  : M unit := ret tt.

Definition _handle_permission_request (pid : string) (message : Message)
  : M unit := ret tt.

(** The table built by [ProctoringServer.__init__].  [status_update] stands
    for [_handle_status_update], which is not modelled. *)
Definition default_handlers (status_update : handler) : handlers :=
  register_handler STATUS_UPDATE status_update
    (register_handler PERMISSION_REQUEST _handle_permission_request
       (register_handler VIOLATION_REPORT _handle_violation_report
          (register_handler HEARTBEAT _handle_heartbeat
             (register_handler REGISTER _handle_register
                (fun _ => None))))).

Definition get_connected_participants : M (list string) :=
  gets (fun w => PyDict.keys (connected_clients w)).

Definition get_participant_info (pid : string) : M (PyDict.t json) :=
  gets (fun w => PyDict.get_default pid [] (client_info w)).


End Defaults.

End ServerHandlers.

(* ================================================================== *)
(** * admin_app/app.py: operator actions and the installed handlers *)
(* ================================================================== *)

Module AdminActions.
Import Models.
Import Protocol.

Definition set_ai_proctor_mode (b : bool) (w : World) : World :=
  mkWorld (db w) (connected_clients w) (client_info w) (current_session_id w)
          b (config w) (clock_reads w) (transport_log w).

(** [_toggle_ai_proctor], without the change of the button. *)
Definition _toggle_ai_proctor : M unit :=
  modify (fun w => set_ai_proctor_mode (negb (ai_proctor_mode w)) w).

(** [loop.run_until_complete(coro)] on a loop made for the call.
    [running] tells whether the calling thread is running an event loop
    already: the thread of the server is, in every handler it awaits, and
    the thread of the window is not.  In a thread that is, the call raises
    a [RuntimeError] and the coroutine is never started. *)
Definition run_until_complete {A} (running : bool) (coro : M A) : M A :=
  if running then raise RuntimeError else coro.

Section Actions.
Variable lib : PyLib.
Variable env : Env.

(** [_emergency_lock]; [confirmed] is the operator's answer to the
    question box. *)
Definition _emergency_lock (confirmed : bool) : M unit :=
  if confirmed then
    message <-
      new_message env EMERGENCY_LOCK (JDict [("reason", JStr "emergency")])
                  JNull ;;
    ProctoringServer.broadcast_message lib env message []
  else ret tt.

(** [_lock_selected_participant]; [selected] is the participant id in the
    current row of the table, [None] when no row is selected. *)
Definition _lock_selected_participant (selected : option string) : M unit :=
  match selected with
  | Some pid =>
      DatabaseManager.lock_participant pid true ;;
      message <-
        new_message env LOCK (JDict [("reason", JStr "manual")]) (JStr pid) ;;
      _ <- ProctoringServer.send_message lib env pid message ;;
      ret tt
  | None => ret tt
  end.

Definition _unlock_selected_participant (selected : option string)
  : M unit :=
  match selected with
  | Some pid =>
      DatabaseManager.lock_participant pid false ;;
      message <- new_message env UNLOCK (JDict []) (JStr pid) ;;
      _ <- ProctoringServer.send_message lib env pid message ;;
      ret tt
  | None => ret tt
  end.

(** [_handle_violation_auto] called in a thread that is running an event
    loop or not ([running]); the messages are sent with
    [run_until_complete]. *)
Definition _handle_violation_auto (running : bool) (violation : Violation)
    (pid : string) : M unit :=
  participant <- DatabaseManager.get_participant pid ;;
  match participant with
  | None => ret tt
  | Some p =>
      DatabaseManager.increment_warning_count pid ;;
      warning_message <-
        new_message env WARNING (AdminApp.warning_body lib violation p)
                    (JStr pid) ;;
      _ <- run_until_complete running
             (ProctoringServer.send_message lib env pid warning_message) ;;
      escalation <- gets config ;;
      let before_flag :=
        AdminApp.default (warnings_before_flag escalation) 3 in
      let before_lock :=
        AdminApp.default (warnings_before_lock escalation) 5 in
      if before_lock <=? warning_count p then
        DatabaseManager.lock_participant pid true ;;
        lock_message <-
          new_message env LOCK AdminApp.lock_body (JStr pid) ;;
        _ <- run_until_complete running
               (ProctoringServer.send_message lib env pid lock_message) ;;
        ret tt
      else if before_flag <=? warning_count p then
        flag_message <-
          new_message env WARNING AdminApp.flag_body (JStr pid) ;;
        _ <- run_until_complete running
               (ProctoringServer.send_message lib env pid flag_message) ;;
        ret tt
      else ret tt
  end.

(** [_handle_violation_report] called in such a thread. *)
Definition _handle_violation_report (running : bool) (pid : string)
    (message : Message) : M unit :=
  let data := Protocol.data message in
  type_value <-
    lift (AdminApp.payload_get data "violation_type"
            (JStr "application_blocked")) ;;
  violation_type <- lift (ViolationType_call type_value) ;;
  severity_value <-
    lift (AdminApp.payload_get data "severity" (JStr "medium")) ;;
  severity <- lift (ViolationSeverity_call severity_value) ;;
  current <- gets current_session_id ;;
  match current with
  | None => ret tt
  | Some session_id =>
      if session_id =? 0 then ret tt
      else
        text <- lift (AdminApp.payload_get data "description" (JStr "")) ;;
        violation <-
          DatabaseManager.create_violation env pid session_id
            violation_type severity text ;;
        participant <- DatabaseManager.get_participant pid ;;
        match participant with
        | Some _ => AdminApp._update_integrity_score pid
        | None => ret tt
        end ;;
        mode <- gets ai_proctor_mode ;;
        if mode then _handle_violation_auto running violation pid
        else ret tt
  end.

(** [_handle_violation_report_async] is the handler the server awaits, in
    its thread, whose loop is running.  It awaits the value of
    [_handle_violation_report], which is a plain function: the report is
    handled, and awaiting its [None] raises a [TypeError]. *)
Definition _handle_violation_report_async (pid : string) (message : Message)
  : M unit :=
  _handle_violation_report true pid message ;;
  raise TypeError.

(** [_handle_status_update_async] calls [_handle_status_update], which does
    nothing. *)
Definition _handle_status_update_async (pid : string) (message : Message)
  : M unit := ret tt.

(** [request.expires_at.isoformat()] on the object a call returned. *)
Definition expires_at_isoformat (request : PermissionRequest) : result json :=
  match expires_at request with
  | Some e => Return (JStr (isoformat lib e))
  | None => Raise AttributeError
  end.

(** [_handle_permission_request], on the three values it reads from the
    payload with [data.get]: the request type, the duration (an integer, as
    the client sends it) and the reason.  [approves] is the operator's
    answer to the question box.  The coroutine is awaited by the server,
    in its thread, whose loop is running. *)
Definition _handle_permission_request (approves : bool) (pid : string)
    (request_type : json) (duration : Z) (reason : json) : M unit :=
  current <- gets current_session_id ;;
  match current with
  | None => ret tt
  | Some session_id =>
      if session_id =? 0 then ret tt
      else
        request <-
          DatabaseManager.create_permission_request env pid request_type
            duration reason ;;
        response <-
          (if approves then
             _ <- DatabaseManager.approve_permission_request env
                    (r_id request) ;;
             expiry <- lift (expires_at_isoformat request) ;;
             new_message env PERMISSION_RESPONSE
               (JDict [("approved", JBool true);
                       ("expires_at", expiry);
                       ("duration_minutes", JInt duration)])
               (JStr pid)
           else
             new_message env PERMISSION_RESPONSE
               (JDict [("approved", JBool false)]) (JStr pid)) ;;
        _ <- run_until_complete true
               (ProctoringServer.send_message lib env pid response) ;;
        ret tt
  end.

(** The table after [_init_server] has registered the handlers of the
    admin application over the table [base] of the server.  [permission]
    stands for [_handle_permission_request_async]. *)
Definition install_handlers (permission : ServerHandlers.handler)
    (base : ServerHandlers.handlers) : ServerHandlers.handlers :=
  ServerHandlers.register_handler STATUS_UPDATE _handle_status_update_async
    (ServerHandlers.register_handler PERMISSION_REQUEST permission
       (ServerHandlers.register_handler VIOLATION_REPORT
          _handle_violation_report_async
          (ServerHandlers.register_handler HEARTBEAT
             (AdminApp._handle_heartbeat_async env)
             (ServerHandlers.register_handler REGISTER
                (AdminApp._handle_register_async lib env) base)))).
End Actions.

End AdminActions.

(* ================================================================== *)
(** * shared/database/database_manager.py: queries and exam sessions *)
(* ================================================================== *)

Module DatabaseQueries.
Import Models.

(** [get_all_participants(exam_session_id=None)]: the filter is applied
    when the argument is truthy. *)
Definition get_all_participants (session_id : option Z)
  : M (list Participant) :=
  gets (fun w =>
    match session_id with
    | Some s =>
        if s =? 0 then participants (db w)
        else filter (fun p => exam_session_id p =? s) (participants (db w))
    | None => participants (db w)
    end).

(** [ORDER BY timestamp DESC]; rows with equal timestamps stay in row
    order. *)
Fixpoint insert_desc (v : Violation) (l : list Violation) : list Violation :=
  match l with
  | [] => [v]
  | x :: l' =>
      if v_timestamp x <=? v_timestamp v then v :: l
      else x :: insert_desc v l'
  end.

Definition order_by_timestamp_desc (l : list Violation) : list Violation :=
  fold_right insert_desc [] l.

(** The descriptions the column [description], a [Text], stores and gives
    back as they are: a string or [None]. *)
Definition text_or_none (description : json) : bool :=
  match description with
  | JStr _ | JNull => true
  | _ => false
  end.

(** The integers an [Integer] column stores: those of 64 bits. *)
Definition sqlite_integer (n : Z) : bool :=
  (- 2 ^ 63 <=? n) && (n <? 2 ^ 63).

(** [LIMIT n]; a negative [n] is no limit. *)
Definition limit_rows {A} (n : Z) (l : list A) : list A :=
  if n <? 0 then l else firstn (Z.to_nat n) l.

(** The rows [get_violations] selects before ordering: the filter on the
    participant is applied when an id is given and a row carries it, the
    filter on the session when the argument is truthy. *)
Definition violations_query (participant_id : option string)
    (session_id : option Z) (d : Database) : list Violation :=
  let by_participant :=
    match participant_id with
    | Some pid =>
        if (pid =? "")%string then violations d
        else match DatabaseManager.query_participant pid d with
             | Some p =>
                 filter (fun v => v_participant_id v =? id p) (violations d)
             | None => violations d
             end
    | None => violations d
    end in
  match session_id with
  | Some s =>
      if s =? 0 then by_participant
      else filter (fun v => v_exam_session_id v =? s) by_participant
  | None => by_participant
  end.

Definition get_violations (participant_id : option string)
    (session_id : option Z) (limit : Z) : M (list Violation) :=
  gets (fun w =>
    limit_rows limit
      (order_by_timestamp_desc
         (violations_query participant_id session_id (db w)))).

End DatabaseQueries.

(** The table [exam_sessions] and the code that creates, reads and ends
    sessions.  The table is kept beside the world. *)
Module ExamSessions.

Definition set_current_session_id (s : option Z) (w : World) : World :=
  mkWorld (db w) (connected_clients w) (client_info w) s
          (ai_proctor_mode w) (config w) (clock_reads w) (transport_log w).

Record ExamSession : Type := mkExamSession {
  id : Z;
  name : string;
  start_time : datetime;
  end_time : option datetime;
  status : string;
  config : json
}.

(** [create_exam_session(name, config)] at the time [now]. *)
Definition create_exam_session (now : datetime) (name : string)
    (config : json) (table : list ExamSession)
  : ExamSession * list ExamSession :=
  let exam_session :=
    mkExamSession (DatabaseManager.next_id (map id table)) name now None
                  "active" config in
  (exam_session, (table ++ [exam_session])%list).

Definition get_exam_session (session_id : Z) (table : list ExamSession)
  : option ExamSession :=
  find (fun s => id s =? session_id) table.

Definition get_active_exam_session (table : list ExamSession)
  : option ExamSession :=
  find (fun s => (status s =? "active")%string) table.

Definition completed (now : datetime) (s : ExamSession) : ExamSession :=
  mkExamSession (id s) (name s) (start_time s) (Some now) "completed"
                (config s).

(** [AdminApp._toggle_session].  [entered] is the text the operator
    confirmed in the name dialog ([None] when the dialog was cancelled) and
    [confirmed] the answer to the question whether to end the session.  The
    attribute [current_session] is set and cleared together with
    [current_session_id], which stands for both. *)
Definition _toggle_session (env : Env) (entered : option string)
    (confirmed : bool) (st : World * list ExamSession)
  : World * list ExamSession :=
  let (w, table) := st in
  match current_session_id w with
  | None =>
      match entered with
      | Some name =>
          if (name =? "")%string then st
          else
            let now := utcnow_at env (clock_reads w) in
            let (exam_session, table') :=
              create_exam_session now name JNull table in
            (set_current_session_id (Some (id exam_session))
               (set_clock_reads (S (clock_reads w)) w),
             table')
      | None => st
      end
  | Some current =>
      if confirmed then
        if current =? 0 then (set_current_session_id None w, table)
        else
          match get_exam_session current table with
          | Some _ =>
              let now := utcnow_at env (clock_reads w) in
              (set_current_session_id None
                 (set_clock_reads (S (clock_reads w)) w),
               DatabaseManager.update_first (fun s => id s =? current)
                 (completed now) table)
          | None => (set_current_session_id None w, table)
          end
      else st
  end.

(** The table and the application agree: the keys of the table are
    positive and distinct, a session the table lists as active is the
    current one, and the current session is in the table and active. *)
Definition consistent (st : World * list ExamSession) : Prop :=
  NoDup (map id (snd st))
  /\ (forall s, In s (snd st) -> 0 < id s)
  /\ (forall s, In s (snd st) -> status s = "active" ->
                current_session_id (fst st) = Some (id s))
  /\ (forall c, current_session_id (fst st) = Some c ->
                exists s, In s (snd st) /\ id s = c /\ status s = "active").

End ExamSessions.

(* ================================================================== *)
(** * shared/utils/process_monitor.py *)
(* ================================================================== *)

Module ProcessMonitor.

(** [needle in hay] for two strings. *)
Fixpoint contains (needle hay : string) : bool :=
  if prefix needle hay then true
  else match hay with
       | EmptyString => false
       | String _ hay' => contains needle hay'
       end.

(** [_is_blocked(proc_name)].  The two sets are given by their elements. *)
Definition _is_blocked (allowed_apps blocked_apps : list string)
    (proc_name : string) : bool :=
  if existsb (fun blocked => contains (Str.lower blocked) proc_name)
             blocked_apps
  then true
  else match allowed_apps with
       | [] => false
       | _ =>
           negb (existsb (fun allowed => contains (Str.lower allowed) proc_name)
                         allowed_apps)
       end.

(** A process as [psutil.process_iter] yields it: its pid, the name in its
    [info] (a string or [None]), and whether [kill] on it raises. *)
Record Process : Type := mkProcess {
  pid : Z;
  name : json;
  kill_raises : bool
}.

(** [violation_callback] is [None] or a callable, given by what a call of it
    on a violation does: it returns ([None]) or raises an exception. *)
Record Monitor : Type := mkMonitor {
  allowed_apps : list string;
  blocked_apps : list string;
  violation_callback : option (json -> option exc);
  tracked_processes : PyDict.t Process
}.

(** What a scan does outside the monitor: the violations the callback was
    called on and the processes on which [kill] was called, oldest
    first. *)
Record Effects : Type := mkEffects {
  reported : list json;
  killed : list Z
}.

Definition violation_of (proc_name : string) (p : Process) : json :=
  JDict [("type", JStr "application_blocked");
         ("process_name", JStr proc_name);
         ("pid", JInt (pid p));
         ("description",
          JStr ("Aplikasi terlarang terdeteksi: " ++ proc_name))].

(** The loop of [_check_processes] over the processes still to visit;
    [current] is the dictionary built so far.  The callback is called
    before [kill], outside the inner [try]: an exception it raises, of
    another class than the two of [psutil] the loop catches, leaves the
    loop, as does the [AttributeError] of a name that is [None]. *)
Fixpoint scan (m : Monitor) (procs : list Process)
    (current : PyDict.t Process) (fx : Effects)
  : result (PyDict.t Process) * Effects :=
  match procs with
  | [] => (Return current, fx)
  | p :: rest =>
      match name p with
      | JStr s =>
          let proc_name := Str.lower s in
          if _is_blocked (allowed_apps m) (blocked_apps m) proc_name then
            match violation_callback m with
            | Some callback =>
                let violation := violation_of proc_name p in
                let fx1 :=
                  mkEffects (reported fx ++ [violation])%list (killed fx) in
                match callback violation with
                | Some e => (Raise e, fx1)
                | None =>
                    scan m rest (PyDict.set proc_name p current)
                      (mkEffects (reported fx1) (killed fx1 ++ [pid p])%list)
                end
            | None =>
                scan m rest (PyDict.set proc_name p current)
                  (mkEffects (reported fx) (killed fx ++ [pid p])%list)
            end
          else scan m rest (PyDict.set proc_name p current) fx
      | _ => (Raise AttributeError, fx)
      end
  end.

(** [_check_processes()] on the processes [procs] of the system: the new
    dictionary replaces [tracked_processes] when the loop ends normally. *)
Definition _check_processes (m : Monitor) (procs : list Process)
  : result unit * Monitor * Effects :=
  match scan m procs [] (mkEffects [] []) with
  | (Return current, fx) =>
      (Return tt,
       mkMonitor (allowed_apps m) (blocked_apps m) (violation_callback m)
                 current,
       fx)
  | (Raise e, fx) => (Raise e, m, fx)
  end.

(** What the loop does on one process, for the statements about a scan:
    whether the process has a name, whether its name is blocked, the
    violation the callback is called on, the exception that call raises, if
    any, and whether the loop goes on to the next process. *)
Definition is_named (p : Process) : bool :=
  match name p with JStr _ => true | _ => false end.

Definition blocked (m : Monitor) (p : Process) : bool :=
  match name p with
  | JStr s => _is_blocked (allowed_apps m) (blocked_apps m) (Str.lower s)
  | _ => false
  end.

Definition report (p : Process) : json :=
  match name p with
  | JStr s => violation_of (Str.lower s) p
  | _ => JNull
  end.

Definition callback_raises (m : Monitor) (p : Process) : option exc :=
  if blocked m p then
    match violation_callback m with
    | Some callback => callback (report p)
    | None => None
    end
  else None.

Definition passes (m : Monitor) (p : Process) : bool :=
  is_named p
  && match callback_raises m p with Some _ => false | None => true end.

(** [kill_process_by_name(name)]: the result, and the pids on which [kill]
    was called. *)
Definition kill_process_by_name (m : Monitor) (wanted : string)
  : bool * list Z :=
  let hits :=
    filter (fun kv => contains (Str.lower wanted) (Str.lower (fst kv)))
           (tracked_processes m) in
  (existsb (fun kv => negb (kill_raises (snd kv))) hits,
   map (fun kv => pid (snd kv)) hits).

End ProcessMonitor.

(* ================================================================== *)
(** * participant_app/app.py: the callback of the process monitor *)
(* ================================================================== *)

Module ParticipantApp.

(** [_on_process_violation(violation)] as the monitoring thread calls it.
    When the client is connected it asks for the event loop of the thread,
    which has none: [asyncio.get_event_loop()] raises a [RuntimeError] and
    nothing is sent.  When the client is not connected it does nothing. *)
Definition _on_process_violation (is_connected : bool) (violation : json)
  : option exc :=
  if is_connected then Some RuntimeError else None.

End ParticipantApp.

(* ================================================================== *)
(** * shared/ai_detection/detection_manager.py *)
(* ================================================================== *)

(** The detectors hand over dictionaries of results whose values (flags,
    counts, durations) are of a type [value] the manager only tests for
    truth and formats into text. *)
Module DetectionManager.

Record Violation : Type := mkViolation {
  type : string;
  severity : string;
  description : string
}.

Record State : Type := mkState {
  permission_active : bool;
  permission_expires_at : option datetime
}.

(** [set_permission_active(active, expires_at=None)]. *)
Definition set_permission_active (active : bool)
    (expires_at : option datetime) (st : State) : State :=
  mkState active expires_at.

(** [check_permission_expired()]; [now] is the clock, which is read only
    when a permission with an expiry is active. *)
Definition check_permission_expired (now : datetime) (st : State)
  : bool * State :=
  if permission_active st then
    match permission_expires_at st with
    | Some e =>
        if e <? now then (true, mkState false (permission_expires_at st))
        else (false, st)
    | None => (false, st)
    end
  else (false, st).

Section Detections.
Variable value : Type.
(** Truth of a value, and [f"{v:.1f}"], [f"{v:.2f}"] and [f"{v}"]. *)
Variable truth : value -> bool.
Variable format_1f : value -> string.
Variable format_2f : value -> string.
Variable format : value -> string.
(** The integer [0], the default of the counts and durations. *)
Variable zero : value.

(** [results.get(key)] tested for truth. *)
Definition flag (results : PyDict.t value) (key : string) : bool :=
  match PyDict.get key results with
  | Some v => truth v
  | None => false
  end.

Definition camera_violations (skip_face_absence : bool)
    (results : PyDict.t value) : list Violation :=
  ((if negb skip_face_absence && flag results "face_absent"
    then [mkViolation "face_absence" "medium"
            ("Face tidak terdeteksi selama "
             ++ format_1f (PyDict.get_default "face_absence_duration" zero
                             results)
             ++ " detik")]
    else [])
   ++ (if flag results "multiple_faces"
       then [mkViolation "multiple_faces" "high"
               ("Terdeteksi "
                ++ format (PyDict.get_default "face_count" zero results)
                ++ " wajah dalam frame")]
       else [])
   ++ (if flag results "suspicious_movement"
       then [mkViolation "suspicious_movement" "medium"
               "Terdeteksi gerakan kepala yang mencurigakan"]
       else []))%list.

Definition audio_violations (results : PyDict.t value) : list Violation :=
  ((if flag results "voice_activity"
    then [mkViolation "voice_activity" "medium"
            ("Terdeteksi aktivitas suara (level: "
             ++ format_2f (PyDict.get_default "voice_activity_level" zero
                             results)
             ++ ")")]
    else [])
   ++ (if flag results "multiple_speakers"
       then [mkViolation "multiple_speakers" "high"
               "Terdeteksi kemungkinan multiple speakers"]
       else []))%list.

(** The dictionary [get_all_detections] returns ([timestamp] is the time
    whose ISO text it holds), and the violations it handed to the callback
    on the way. *)
Record Detections : Type := mkDetections {
  timestamp : datetime;
  camera : PyDict.t value;
  audio : PyDict.t value;
  violations : list Violation;
  called_back : list Violation
}.

(** [get_all_detections()].  [camera_results] and [audio_results] are what
    the detectors return, [None] for a detector that is switched off;
    [stamp] is the reading of the clock for the time stamp and [now] the
    one for the expiry test. *)
Definition get_all_detections (has_callback : bool)
    (camera_results audio_results : option (PyDict.t value))
    (stamp now : datetime) (st : State) : Detections * State :=
  let (expired, st1) := check_permission_expired now st in
  let st2 := if expired then mkState false (permission_expires_at st1)
             else st1 in
  let skip_face_absence := permission_active st2 in
  let from_camera :=
    match camera_results with
    | Some results => camera_violations skip_face_absence results
    | None => []
    end in
  let from_audio :=
    match audio_results with
    | Some results => audio_violations results
    | None => []
    end in
  let found := (from_camera ++ from_audio)%list in
  (mkDetections stamp
     (match camera_results with Some r => r | None => [] end)
     (match audio_results with Some r => r | None => [] end)
     found
     (if has_callback then found else []),
   st2).
End Detections.

End DetectionManager.

(* ================================================================== *)
(** * shared/networking/client.py: connecting and sending *)
(* ================================================================== *)

Module ClientMessages.
Import Protocol.
Import ProctoringClient.

(** [connect()] with the outcome [r] of [websockets.connect]. *)
Definition connect (c : Client) (r : option WebSocket) : bool * Client :=
  match r with
  | Some ws => (true, set_is_connected true (set_websocket (Some ws) c))
  | None => (false, set_is_connected false c)
  end.

(** [send_message(message)]; [write_ok] tells whether [websocket.send]
    completes.  The result, the client afterwards, and the call made. *)
Definition send_message (c : Client) (m : Message) (write_ok : bool)
  : bool * Client * list Action :=
  match is_connected c, websocket c with
  | true, Some ws =>
      let call := Send ws (type m) (data m) (JStr (participant_id c)) in
      if write_ok then (true, c, [call])
      else (false, set_is_connected false c, [call])
  | _, _ => (false, c, [])
  end.

Definition violation_report_data (violation_type severity description : string)
  : json :=
  JDict [("violation_type", JStr violation_type);
         ("severity", JStr severity);
         ("description", JStr description)].

(** [send_violation_report(violation_type, severity, description)]; [now]
    is the clock read by the constructor of the message. *)
Definition send_violation_report (c : Client)
    (violation_type severity description : string) (now : datetime)
    (write_ok : bool) : bool * Client * list Action :=
  send_message c
    (Message_init VIOLATION_REPORT
       (violation_report_data violation_type severity description)
       (JStr (participant_id c)) None now)
    write_ok.

(** [send_heartbeat()]. *)
Definition send_heartbeat (c : Client) (now : datetime) (write_ok : bool)
  : bool * Client * list Action :=
  send_message c
    (Message_init HEARTBEAT JNull (JStr (participant_id c)) None now)
    write_ok.

(** [send_permission_request(request_type, duration_minutes, reason)]. *)
Definition send_permission_request (c : Client) (request_type : string)
    (duration_minutes : Z) (reason : json) (now : datetime)
    (write_ok : bool) : bool * Client * list Action :=
  send_message c
    (Message_init PERMISSION_REQUEST
       (JDict [("request_type", JStr request_type);
               ("duration_minutes", JInt duration_minutes);
               ("reason", reason)])
       (JStr (participant_id c)) None now)
    write_ok.

(** The message the server decodes from a call [Send]: the envelope with
    the time [ts] it was built at. *)
Definition received (a : Action) (ts : datetime) : option Message :=
  match a with
  | Send _ msg_type data pid => Some (mkMessage msg_type data pid ts)
  | _ => None
  end.

End ClientMessages.

(* ================================================================== *)
(** * Relations between worlds *)
(* ================================================================== *)

Module Roster.
Import Models.

(** A row and its later state: identity, name, session and joining time
    are kept, no counter has gone down, and an active row is active. *)
Definition grows (p p' : Participant) : Prop :=
  id p' = id p
  /\ participant_id p' = participant_id p
  /\ name p' = name p
  /\ exam_session_id p' = exam_session_id p
  /\ joined_at p' = joined_at p
  /\ warning_count p <= warning_count p'
  /\ violation_count p <= violation_count p'
  /\ (is_active p = true -> is_active p' = true).

(** The roster of [w'] has the rows of the roster of [w], in the same
    order, each grown. *)
Definition roster_grows (w w' : World) : Prop :=
  Forall2 grows (participants (db w)) (participants (db w')).

(** The computation [c] relates every world to the world it leaves. *)
Definition keeps {A} (R : World -> World -> Prop) (c : M A) : Prop :=
  forall w, R w (snd (c w)).

(** Nothing has been written to a connection. *)
Definition same_transport (w w' : World) : Prop :=
  transport_log w' = transport_log w.

(** The locks are as they were. *)
Definition same_locks (w w' : World) : Prop :=
  map (fun p => (participant_id p, is_locked p)) (participants (db w'))
  = map (fun p => (participant_id p, is_locked p)) (participants (db w)).

(** The number of stored violations of the row [p]. *)
Definition violations_of (d : Database) (p : Participant) : Z :=
  Z.of_nat (List.length
              (filter (fun v => v_participant_id v =? id p) (violations d))).

(** Every row counts the violations stored for it, and the keys of the
    rows are distinct. *)
Definition counted (d : Database) : Prop :=
  NoDup (map id (participants d))
  /\ Forall (fun p => violation_count p = violations_of d p)
            (participants d).

End Roster.

(* ================================================================== *)
(** * More instances used to run the model *)
(* ================================================================== *)

(** The world of [exam_world] with P1 at five warnings and four
    violations, locked. *)
Definition warned_world : World :=
  set_db (Models.mkDatabase
            [Models.mkParticipant 1 "P1" "Budi" 7 JNull JNull 0 0 true
               70 5 4 true] [] [])
         exam_world.

(** A report whose payload is not a dictionary. *)
Definition malformed_report : Protocol.Message :=
  Protocol.mkMessage Protocol.VIOLATION_REPORT (JInt 5) (JStr "P1") 0.

(* ================================================================== *)
(** * Equations of the monad *)
(* ================================================================== *)

Module MonadFacts.

Lemma bind_ret {A B} (a : A) (k : A -> M B) (w : World) :
  bind (ret a) k w = k a w.
Proof. reflexivity. Qed.

Lemma bind_raise {A B} (e : exc) (k : A -> M B) (w : World) :
  bind (raise e) k w = (Raise e, w).
Proof. reflexivity. Qed.

Lemma bind_lift_return {A B} (a : A) (k : A -> M B) (w : World) :
  bind (lift (Return a)) k w = k a w.
Proof. reflexivity. Qed.

Lemma bind_lift_raise {A B} (e : exc) (k : A -> M B) (w : World) :
  bind (lift (Raise e)) k w = (Raise e, w).
Proof. reflexivity. Qed.

Lemma bind_gets {A B} (f : World -> A) (k : A -> M B) (w : World) :
  bind (gets f) k w = k (f w) w.
Proof. reflexivity. Qed.

Lemma bind_modify {B} (f : World -> World) (k : unit -> M B) (w : World) :
  bind (modify f) k w = k tt (f w).
Proof. reflexivity. Qed.

Lemma bind_utcnow {B} (env : Env) (k : datetime -> M B) (w : World) :
  bind (utcnow env) k w
  = k (utcnow_at env (clock_reads w)) (set_clock_reads (S (clock_reads w)) w).
Proof. reflexivity. Qed.

Lemma bind_bind {A B C} (c : M A) (k1 : A -> M B) (k2 : B -> M C)
    (w : World) :
  bind (bind c k1) k2 w = bind c (fun a => bind (k1 a) k2) w.
Proof. unfold bind. destruct (c w) as [[a|e] w']; reflexivity. Qed.

End MonadFacts.

(** Reduces the projections of a world built by the setters. *)
Ltac world_simpl :=
  cbn [db connected_clients client_info current_session_id ai_proctor_mode
       config clock_reads transport_log set_db set_connected_clients
       set_client_info set_clock_reads set_transport_log fst snd].

(** Runs the leading effects of a computation applied to a world. *)
Ltac run_effects :=
  repeat first
    [ rewrite MonadFacts.bind_bind
    | rewrite MonadFacts.bind_gets
    | rewrite MonadFacts.bind_ret
    | rewrite MonadFacts.bind_modify
    | rewrite MonadFacts.bind_utcnow
    | rewrite MonadFacts.bind_lift_return
    | rewrite MonadFacts.bind_lift_raise
    | rewrite MonadFacts.bind_raise ];
  cbv beta; world_simpl.

Module StrFacts.

Example lower_mixed : Str.lower "Budi SANTOSO" = "budi santoso".
Proof. reflexivity. Qed.

Example strip_padded : Str.strip "  Budi Santoso  " = "Budi Santoso".
Proof. reflexivity. Qed.

Example strip_blank : Str.strip "   " = "".
Proof. reflexivity. Qed.

Lemma lower_idempotent (s : string) : Str.lower (Str.lower s) = Str.lower s.
Proof.
  induction s as [|c s IH]; [reflexivity|].
  cbn [Str.lower]. rewrite IH. f_equal.
  clear. destruct c as [[] [] [] [] [] [] [] []]; reflexivity.
Qed.

End StrFacts.

(* ================================================================== *)
(** * Properties of the codec *)
(* ================================================================== *)

Module ProtocolFacts.
Import Protocol.

Lemma by_value_value (t : MessageType) : by_value (value t) = Some t.
Proof. destruct t; reflexivity. Qed.

Lemma by_value_sound (s : string) (t : MessageType) :
  by_value s = Some t -> value t = s.
Proof.
  unfold by_value. intros H.
  apply find_some in H. destruct H as [_ H].
  now apply String.eqb_eq in H.
Qed.

Lemma MessageType_call_value (t : MessageType) :
  MessageType_call (JStr (value t)) = Return t.
Proof. unfold MessageType_call. now rewrite by_value_value. Qed.

Lemma MessageType_call_unknown (v : json) :
  (forall t, v <> JStr (value t)) ->
  MessageType_call v = Raise (InvalidEnumValue "MessageType" v).
Proof.
  intros Hv. destruct v as [ | b | n | s | l | d]; try reflexivity.
  unfold MessageType_call.
  destruct (by_value s) as [t|] eqn:E; [|reflexivity].
  apply by_value_sound in E. exfalso. apply (Hv t). now rewrite E.
Qed.

Lemma py_or_dict (payload : PyDict.t json) :
  py_or (JDict payload) (JDict []) = JDict payload.
Proof. destruct payload; reflexivity. Qed.

Lemma model_lib_laws : PyLibLaws model_lib.
Proof.
  split; [reflexivity|].
  intros t. cbn. unfold Str.of_Z.
  rewrite NilZero.isi.
  - now rewrite DecimalZ.of_to.
  - destruct t; cbn; try discriminate.
    intros [= H]. now apply DecimalPos.Unsigned.to_uint_nonnil in H.
  - destruct t; cbn; try discriminate.
    intros [= H]. now apply DecimalPos.Unsigned.to_uint_nonnil in H.
Qed.

Lemma decode_missing_type_raises (lib : PyLib) (now : datetime)
    (d : PyDict.t json) :
  PyDict.get "type" d = None ->
  from_dict lib now (JDict d) = Raise (KeyError "type").
Proof. intros H. unfold from_dict, getitem. now rewrite H. Qed.

(** C2.  Decoding a dictionary whose [type] entry is not the value of a
    member of [MessageType] raises: [from_dict], and [from_json] on any text
    that parses to such a dictionary, end in the [ValueError] of the
    enumeration's constructor, and so return no message. *)
Theorem decode_unknown_type_raises :
  forall (lib : PyLib) (now : datetime) (d : PyDict.t json) (v : json),
    PyDict.get "type" d = Some v ->
    (forall t, v <> JStr (value t)) ->
    from_dict lib now (JDict d) = Raise (InvalidEnumValue "MessageType" v)
    /\ (forall text,
           loads lib text = Return (JDict d) ->
           from_json lib now text
           = Raise (InvalidEnumValue "MessageType" v))
    /\ exc_class (InvalidEnumValue "MessageType" v) = "ValueError"
    /\ (forall m, from_dict lib now (JDict d) <> Return m).
Proof.
  intros lib now d v Hget Hv.
  assert (E : from_dict lib now (JDict d)
              = Raise (InvalidEnumValue "MessageType" v)).
  { unfold from_dict, getitem. rewrite Hget. cbn.
    now rewrite (MessageType_call_unknown v Hv). }
  repeat split.
  - exact E.
  - intros text Ht. unfold from_json. rewrite Ht. exact E.
  - intros m. rewrite E. discriminate.
Qed.

Lemma decode_unknown_type_raises_witness :
  from_dict model_lib 0
    (JDict [("type", JStr "shutdown"); ("data", JDict [])])
  = Raise (InvalidEnumValue "MessageType" (JStr "shutdown")).
Proof.
  refine (proj1 (decode_unknown_type_raises model_lib 0
                   [("type", JStr "shutdown"); ("data", JDict [])]
                   (JStr "shutdown") _ _)).
  - reflexivity.
  - intros t; destruct t; discriminate.
Defined.

(** C5.  A message built by the constructor with any enumerated type, any
    dictionary payload (the empty one included) and an optional string
    participant id is the result of decoding its own encoding; its type,
    data and participant id are the ones it was built with. *)
Theorem decode_encode_roundtrip :
  forall (lib : PyLib), PyLibLaws lib ->
  forall (t : MessageType) (payload : PyDict.t json) (pid : option string)
         (ts : option datetime) (now now' : datetime),
    let m := Message_init t (JDict payload) (of_option pid) ts now in
    from_json lib now' (to_json lib m) = Return m
    /\ type m = t
    /\ data m = JDict payload
    /\ participant_id m = of_option pid.
Proof.
  intros lib [Hjson Hiso] t payload pid ts now now' m.
  assert (Hdata : data m = JDict payload) by apply py_or_dict.
  repeat split; try assumption.
  unfold from_json, to_json. rewrite Hjson. cbn [rbind].
  unfold from_dict.
  change (getitem (to_dict lib m) "type") with (Return (JStr (value (type m)))).
  cbn [rbind]. rewrite MessageType_call_value. cbn [rbind].
  change (get (to_dict lib m) "timestamp" (JStr (isoformat lib now')))
    with (JStr (isoformat lib (timestamp m))).
  cbn [fromisoformat_value]. rewrite Hiso. cbn [rbind].
  change (get (to_dict lib m) "data" (JDict [])) with (data m).
  change (get (to_dict lib m) "participant_id" JNull) with (participant_id m).
  rewrite Hdata. unfold Message_init. rewrite py_or_dict.
  subst m. unfold Message_init. cbn. now rewrite py_or_dict.
Qed.

Lemma decode_encode_roundtrip_witness :
  from_json model_lib 9
    (to_json model_lib
       (Message_init HEARTBEAT (JDict []) (of_option (Some "P1")) None 5))
  = Return (Message_init HEARTBEAT (JDict []) (of_option (Some "P1")) None 5).
Proof.
  exact (proj1 (decode_encode_roundtrip model_lib model_lib_laws
                  HEARTBEAT [] (Some "P1") None 5 9)).
Defined.

End ProtocolFacts.

(* ================================================================== *)
(** * Properties of the persistence operations *)
(* ================================================================== *)

Module DatabaseFacts.
Import Models.
Import DatabaseManager.

Lemma find_update_first_hit {A} (test : A -> bool) (f : A -> A)
    (l : list A) (x : A) :
  find test l = Some x ->
  test (f x) = true ->
  find test (update_first test f l) = Some (f x).
Proof.
  induction l as [|y l IH]; cbn; [discriminate|].
  destruct (test y) eqn:Ey.
  - intros [= ->] Hf. cbn. now rewrite Hf.
  - intros Hx Hf. cbn. rewrite Ey. now apply IH.
Qed.

Lemma find_update_first_other {A} (test g : A -> bool) (f : A -> A)
    (l : list A) (x : A) :
  find test l = Some x ->
  (forall y, In y l -> g y = false) ->
  find g (update_first test f l) = if g (f x) then Some (f x) else None.
Proof.
  induction l as [|y l IH]; cbn; [discriminate|].
  intros Hx Hg.
  destruct (test y) eqn:Ey.
  - injection Hx as ->. cbn.
    destruct (g (f x)); [reflexivity|].
    destruct (find g l) as [z|] eqn:Ez; [|reflexivity].
    apply find_some in Ez. destruct Ez as [Hin Hz].
    rewrite (Hg z) in Hz by (now right). discriminate.
  - cbn. rewrite (Hg y) by (now left).
    apply IH; [assumption|]. intros z Hz. apply Hg. now right.
Qed.

Lemma find_update_first_miss {A} (test : A -> bool) (f : A -> A) (l : list A) :
  find test l = None -> update_first test f l = l.
Proof.
  induction l as [|y l IH]; cbn; [reflexivity|].
  destruct (test y); [discriminate|]. intros H. now rewrite IH.
Qed.

Lemma query_update_participant (pid : string) (f : Participant -> Participant)
    (d : Database) (p : Participant) :
  query_participant pid d = Some p ->
  participant_id (f p) = participant_id p ->
  query_participant pid (update_participant pid f d) = Some (f p).
Proof.
  unfold query_participant, update_participant. cbn. intros Hq Hf.
  apply find_update_first_hit; [assumption|].
  rewrite Hf. apply find_some in Hq. tauto.
Qed.

(** C10.  For a participant id that no row carries, the heartbeat, score,
    warning and lock operations return normally and leave the world as it
    was, while [create_violation] and [create_permission_request] raise
    [ValueError("Participant <id> not found")] and leave the world as it
    was. *)
Theorem unknown_participant_operations :
  forall (env : Env) (w : World) (pid : string),
    query_participant pid (db w) = None ->
    update_participant_heartbeat env pid w = (Return tt, w)
    /\ (forall score, update_integrity_score pid score w = (Return tt, w))
    /\ increment_warning_count pid w = (Return tt, w)
    /\ (forall locked, lock_participant pid locked w = (Return tt, w))
    /\ (forall session_id vt sev text,
          create_violation env pid session_id vt sev text w
          = (Raise (ValueError ("Participant " ++ pid ++ " not found")), w))
    /\ (forall kind duration reason,
          create_permission_request env pid kind duration reason w
          = (Raise (ValueError ("Participant " ++ pid ++ " not found")), w)).
Proof.
  intros env w pid Hq.
  repeat split; intros;
    unfold update_participant_heartbeat, update_integrity_score,
      increment_warning_count, lock_participant, create_violation,
      create_permission_request, bind, gets;
    rewrite Hq; reflexivity.
Qed.

Lemma unknown_participant_operations_witness :
  increment_warning_count "P9" exam_world = (Return tt, exam_world).
Proof.
  refine (proj1 (proj2 (proj2
            (unknown_participant_operations steady_env exam_world "P9" _)))).
  reflexivity.
Defined.

Lemma approve_pending (env : Env) (w : World) (rid : Z)
    (r : PermissionRequest) :
  query_request rid (db w) = Some r ->
  status r = "PENDING" ->
  approve_permission_request env rid w
  = (Return true,
     set_db (set_permission_requests
               (update_first (fun r => r_id r =? rid)
                  (approved (utcnow_at env (clock_reads w))
                            (utcnow_at env (S (clock_reads w))))
                  (permission_requests (db w)))
               (db w))
            (set_clock_reads (S (S (clock_reads w))) w)).
Proof.
  intros Hq Hs.
  unfold approve_permission_request, bind, gets, lift. rewrite Hq, Hs.
  reflexivity.
Qed.

Lemma approve_not_pending (env : Env) (w : World) (rid : Z) :
  (forall r, query_request rid (db w) = Some r ->
             exists member, load_status (status r) = Return member
                            /\ member <> PENDING) ->
  approve_permission_request env rid w = (Return false, w).
Proof.
  intros H.
  unfold approve_permission_request, bind, gets, lift.
  destruct (query_request rid (db w)) as [r|] eqn:Hq; [|reflexivity].
  destruct (H r eq_refl) as [member [-> Hm]].
  destruct member; try reflexivity. now elim Hm.
Qed.

Lemma load_status_text (text : string) (member : PermissionStatus) :
  load_status text = Return member <-> text = PermissionStatus_name member.
Proof.
  unfold load_status. split.
  - destruct (find _ _) as [s|] eqn:E; [|discriminate].
    intros [= <-]. apply find_some in E. destruct E as [_ E].
    apply String.eqb_eq in E. now rewrite E.
  - intros ->. now destruct member.
Qed.

Lemma approved_text_is_unreadable :
  load_status "approved" = Raise (LookupError "permissionstatus" "approved")
  /\ load_status "pending" = Raise (LookupError "permissionstatus" "pending").
Proof. split; reflexivity. Qed.

(** A row that passes the filter of [get_active_permission] holds the text
    ['approved'], which cannot be read: the call returns no request. *)
Lemma get_active_permission_outcome (env : Env) (w : World) (pid : string) :
  get_active_permission env pid w
  = match query_participant pid (db w) with
    | None => (Return None, w)
    | Some p =>
        (if existsb (is_active_for p (utcnow_at env (clock_reads w)))
                    (permission_requests (db w))
         then Raise (LookupError "permissionstatus" "approved")
         else Return None,
         set_clock_reads (S (clock_reads w)) w)
    end.
Proof.
  unfold get_active_permission, bind, gets, utcnow, lift.
  destruct (query_participant pid (db w)) as [p|]; [|reflexivity].
  cbn [db clock_reads set_clock_reads].
  destruct (find _ (permission_requests (db w))) as [r|] eqn:E.
  - pose proof (find_some _ _ E) as [Hin Ha].
    assert (existsb (is_active_for p (utcnow_at env (clock_reads w)))
              (permission_requests (db w)) = true) as ->.
    { apply existsb_exists. now exists r. }
    unfold is_active_for in Ha.
    apply andb_prop in Ha. destruct Ha as [Ha _].
    apply andb_prop in Ha. destruct Ha as [_ Ha].
    apply String.eqb_eq in Ha. now rewrite Ha.
  - assert (existsb (is_active_for p (utcnow_at env (clock_reads w)))
              (permission_requests (db w)) = false) as ->; [|reflexivity].
    destruct (existsb _ _) eqn:Ex; [|reflexivity].
    apply existsb_exists in Ex. destruct Ex as [r [Hin Ha]].
    pose proof (find_none _ _ E r Hin). congruence.
Qed.

Lemma get_active_permission_never_returns (env : Env) (w : World)
    (pid : string) (r : PermissionRequest) :
  fst (get_active_permission env pid w) <> Return (Some r).
Proof.
  rewrite get_active_permission_outcome.
  destruct (query_participant pid (db w)); cbn [fst]; [|discriminate].
  destruct (existsb _ _); discriminate.
Qed.

(** C6, evaluated on its scenario.  P1 has one request of ten minutes,
    stored as pending, and the clock stands at 100.  The approval returns
    [True] and sets [approved_at] to the first reading of the clock and
    [expires_at] to the second reading plus the duration, but it writes the
    string ['approved'] into the status, which is not the name of a member
    of the enumeration.  From then on the row cannot be read: asked for the
    active permission of P1 before the expiry, [get_active_permission]
    raises a [LookupError] where the claim has it return the request, and
    approving the request again raises the same error where the claim has
    it refused as not pending.  A request stored with the member [APPROVED]
    and not yet expired is not found either, as the query looks for the
    string ['approved']: the call returns [None].  For no world at all does
    [get_active_permission] return a request. *)
Theorem approved_request_is_never_active :
  let env := clock_from 100 in
  let unreadable := LookupError "permissionstatus" "approved" in
  exists w1,
    approve_permission_request env 1 pending_world = (Return true, w1)
    /\ permission_requests (db w1)
       = [mkPermissionRequest 1 1 (JStr "leave_seat") "approved" 0
            (Some 100) (Some (101 + minutes 10)) 10 JNull]
    /\ utcnow_at env (clock_reads w1) < 101 + minutes 10
    /\ fst (get_active_permission env "P1" w1) = Raise unreadable
    /\ approve_permission_request env 1 w1 = (Raise unreadable, w1)
    /\ utcnow_at steady_env (clock_reads two_permissions_world) < 10
    /\ fst (get_active_permission steady_env "P1" two_permissions_world)
       = Return None
    /\ (forall env' w pid r,
          fst (get_active_permission env' pid w) <> Return (Some r)).
Proof.
  intros env unreadable.
  eexists. split; [eapply approve_pending; reflexivity|].
  split; [reflexivity|]. split; [reflexivity|].
  split; [reflexivity|]. split; [reflexivity|].
  split; [reflexivity|]. split; [reflexivity|].
  intros env' w pid r. apply get_active_permission_never_returns.
Qed.

End DatabaseFacts.

(* ================================================================== *)
(** * Properties of the connection registry *)
(* ================================================================== *)

Module ServerFacts.
Import ProctoringServer.

Lemma get_del_same {V} (k : string) (d : PyDict.t V) :
  PyDict.get k (PyDict.del k d) = None.
Proof.
  unfold PyDict.del.
  induction d as [|[k' v] d IH]; cbn; [reflexivity|].
  destruct (k' =? k)%string eqn:E; cbn; [exact IH|].
  now rewrite E.
Qed.

Lemma get_del_other {V} (k k' : string) (d : PyDict.t V) :
  k' <> k -> PyDict.get k' (PyDict.del k d) = PyDict.get k' d.
Proof.
  intros Hk. unfold PyDict.del.
  induction d as [|[k0 v] d IH]; cbn; [reflexivity|].
  destruct (k0 =? k)%string eqn:E; cbn.
  - apply String.eqb_eq in E. subst k0.
    destruct (k =? k')%string eqn:E'; [|exact IH].
    apply String.eqb_eq in E'. congruence.
  - now rewrite IH.
Qed.

Lemma del_absent {V} (k : string) (d : PyDict.t V) :
  PyDict.get k d = None -> PyDict.del k d = d.
Proof.
  unfold PyDict.del.
  induction d as [|[k' v] d IH]; cbn; [reflexivity|].
  destruct (k' =? k)%string; [discriminate|]. cbn. intros H. now rewrite IH.
Qed.

Section Registry.
Variable lib : PyLib.
Variable env : Env.

(** What [_disconnect_client] leaves of the world: the handle of the
    participant is gone, the other handles, the database and the record of
    writes are as before. *)
Lemma disconnect_effect (pid : string) (w : World) :
  exists w',
    _disconnect_client lib env pid w = (Return tt, w')
    /\ connected_clients w' = PyDict.del pid (connected_clients w)
    /\ transport_log w' = transport_log w
    /\ db w' = db w.
Proof.
  unfold _disconnect_client, bind, modify, gets, ret.
  assert (Hc : connected_clients
                 (if PyDict.mem pid (connected_clients w)
                  then set_connected_clients
                         (PyDict.del pid (connected_clients w)) w
                  else w)
               = PyDict.del pid (connected_clients w)).
  { unfold PyDict.mem.
    destruct (PyDict.get pid (connected_clients w)) eqn:E; [reflexivity|].
    now rewrite del_absent. }
  destruct (PyDict.mem pid (connected_clients w));
    cbn in *; destruct (PyDict.get pid (client_info w));
    eexists; (split; [reflexivity|]); cbn; auto.
Qed.

Lemma disconnect_idempotent_handles (pid : string) (w : World) :
  connected_clients (snd (_disconnect_client lib env pid
                            (snd (_disconnect_client lib env pid w))))
  = connected_clients (snd (_disconnect_client lib env pid w)).
Proof.
  destruct (disconnect_effect pid w) as [w1 [E1 [C1 _]]].
  destruct (disconnect_effect pid w1) as [w2 [E2 [C2 _]]].
  rewrite E1. cbn [snd]. rewrite E2. cbn [snd]. rewrite C2, C1.
  apply del_absent, get_del_same.
Qed.

Lemma send_without_handle (pid : string) (m : Protocol.Message) (w : World) :
  PyDict.get pid (connected_clients w) = None ->
  send_message lib env pid m w = (Return false, w).
Proof. intros H. unfold send_message, bind, gets. now rewrite H. Qed.

Lemma send_write_completes (pid : string) (m : Protocol.Message)
    (ws : WebSocket) (w : World) :
  PyDict.get pid (connected_clients w) = Some ws ->
  send_text_ok env (List.length (transport_log w)) = true ->
  send_message lib env pid m w
  = (Return true,
     set_transport_log (transport_log w ++ [mkDelivery ws m true])%list w).
Proof.
  intros H Hok. unfold send_message, bind, gets, send_text.
  rewrite H. now rewrite Hok.
Qed.

Lemma send_write_fails (pid : string) (m : Protocol.Message)
    (ws : WebSocket) (w : World) :
  PyDict.get pid (connected_clients w) = Some ws ->
  send_text_ok env (List.length (transport_log w)) = false ->
  exists w',
    send_message lib env pid m w = (Return false, w')
    /\ w' = snd (_disconnect_client lib env pid
                   (set_transport_log
                      (transport_log w ++ [mkDelivery ws m false])%list w))
    /\ transport_log w' = (transport_log w ++ [mkDelivery ws m false])%list
    /\ PyDict.get pid (connected_clients w') = None
    /\ (forall other, other <> pid ->
          PyDict.get other (connected_clients w')
          = PyDict.get other (connected_clients w))
    /\ db w' = db w.
Proof.
  intros H Hok.
  destruct (disconnect_effect pid
              (set_transport_log
                 (transport_log w ++ [mkDelivery ws m false])%list w))
    as [w' [E [Hc [Hl Hd]]]].
  exists w'. unfold send_message, bind, gets, send_text.
  rewrite H. rewrite Hok. rewrite E. cbn.
  repeat split; try assumption.
  - rewrite Hc. apply get_del_same.
  - intros other Ho. rewrite Hc. now apply get_del_other.
Qed.

(** C7.  [send_message] makes at most one write and keeps nothing for
    later.  Without a handle for the participant it returns [False] and the
    world is untouched; when the write completes it returns [True] and only
    the record of writes grows; when the write fails it returns [False],
    the write is the only one made, and the participant's handle is removed
    by [_disconnect_client] before the call returns. *)
Theorem send_message_outcomes :
  forall (pid : string) (m : Protocol.Message) (w : World),
    let n := List.length (transport_log w) in
    (PyDict.get pid (connected_clients w) = None ->
     send_message lib env pid m w = (Return false, w))
    /\ (forall ws,
          PyDict.get pid (connected_clients w) = Some ws ->
          send_text_ok env n = true ->
          send_message lib env pid m w
          = (Return true,
             set_transport_log
               (transport_log w ++ [mkDelivery ws m true])%list w))
    /\ (forall ws,
          PyDict.get pid (connected_clients w) = Some ws ->
          send_text_ok env n = false ->
          exists w',
            send_message lib env pid m w = (Return false, w')
            /\ w' = snd (_disconnect_client lib env pid
                           (set_transport_log
                              (transport_log w
                               ++ [mkDelivery ws m false])%list w))
            /\ transport_log w'
               = (transport_log w ++ [mkDelivery ws m false])%list
            /\ PyDict.get pid (connected_clients w') = None
            /\ (forall other, other <> pid ->
                  PyDict.get other (connected_clients w')
                  = PyDict.get other (connected_clients w))
            /\ db w' = db w).
Proof.
  intros pid m w n. split; [|split].
  - apply send_without_handle.
  - intros ws. apply send_write_completes.
  - intros ws. apply send_write_fails.
Qed.

End Registry.

Lemma send_message_outcomes_witness :
  send_message model_lib steady_env "P1"
    (Protocol.Message_init Protocol.PING JNull (JStr "P1") None 0) exam_world
  = (Return true,
     set_transport_log
       [mkDelivery 1%nat
          (Protocol.Message_init Protocol.PING JNull (JStr "P1") None 0) true]
       exam_world).
Proof.
  refine (proj1 (proj2
            (send_message_outcomes model_lib steady_env "P1" _ exam_world))
            1%nat _ _); reflexivity.
Defined.

(** A text whose type is not enumerated ends the connection it came on: no
    handler runs, and the participant is disconnected. *)
Lemma unknown_type_faults_connection (lib : PyLib) (env : Env)
    (handlers : Protocol.MessageType
                -> option (string -> Protocol.Message -> M unit))
    (pid : string) (text : wire lib) (d : PyDict.t json) (v : json)
    (w : World) :
  loads lib text = Return (JDict d) ->
  PyDict.get "type" d = Some v ->
  (forall t, v <> JStr (Protocol.value t)) ->
  receive lib env handlers pid text w
  = (_disconnect_client lib env pid ;; ret false)%monad w.
Proof.
  intros Hl Hg Hv.
  unfold receive, decode, bind at 1, Protocol.from_json.
  rewrite Hl. cbn [rbind]. unfold Protocol.from_dict, Protocol.getitem.
  rewrite Hg. cbn [rbind].
  rewrite (ProtocolFacts.MessageType_call_unknown v Hv). reflexivity.
Qed.

Section Broadcast.
Variable lib : PyLib.
Variable env : Env.
Variable m : Protocol.Message.
Variable exclude : list string.

Lemma flat_map_agree {A B} (f g : A -> list B) (l : list A) :
  (forall a, In a l -> f a = g a) -> flat_map f l = flat_map g l.
Proof.
  induction l as [|a l IH]; cbn; [reflexivity|].
  intros H. rewrite (H a) by (now left).
  rewrite IH; [reflexivity|]. intros b Hb. apply H. now right.
Qed.

(** One call of [send_message] inside the loop: at most one write, to the
    handle of [pid]; the handles of all other participants stay. *)
Lemma send_message_step (pid : string) (w : World) :
  exists b w' ds,
    send_message lib env pid m w = (Return b, w')
    /\ transport_log w' = (transport_log w ++ ds)%list
    /\ map handle ds
       = match PyDict.get pid (connected_clients w) with
         | Some ws => [ws]
         | None => []
         end
    /\ Forall (fun d => message d = m) ds
    /\ (forall k, k <> pid ->
          PyDict.get k (connected_clients w')
          = PyDict.get k (connected_clients w))
    /\ db w' = db w.
Proof.
  destruct (PyDict.get pid (connected_clients w)) as [ws|] eqn:E.
  - destruct (send_text_ok env (List.length (transport_log w))) eqn:Eok.
    + exists true. eexists. exists [mkDelivery ws m true].
      split; [apply (send_write_completes lib env pid m ws w E Eok)|].
      cbn. repeat split; auto.
    + destruct (send_write_fails lib env pid m ws w E Eok)
        as [w' [E1 [_ [Hl [_ [Ho Hd]]]]]].
      exists false, w', [mkDelivery ws m false].
      cbn. repeat split; auto.
  - exists false, w, []. rewrite (send_without_handle lib env pid m w E).
    rewrite app_nil_r. cbn. repeat split; auto.
Qed.

Lemma broadcast_loop_log (ids : list string) :
  NoDup ids ->
  forall w,
  exists w' ds,
    broadcast_loop lib env ids m exclude w = (Return tt, w')
    /\ transport_log w' = (transport_log w ++ ds)%list
    /\ map handle ds = flat_map (turn_target exclude (connected_clients w)) ids
    /\ Forall (fun d => message d = m) ds
    /\ db w' = db w.
Proof.
  induction ids as [|pid ids IH]; intros Hnd w.
  - exists w, []. cbn. rewrite app_nil_r. repeat split; auto.
  - inversion Hnd as [|? ? Hnotin Hnd']; subst.
    cbn [broadcast_loop flat_map]. unfold turn_target at 1.
    destruct (existsb (String.eqb pid) exclude) eqn:Ex.
    + destruct (IH Hnd' w) as [w' [ds [E [Hl [Hh [Hm Hd]]]]]].
      exists w', ds. unfold bind, ret in *. cbn. rewrite E.
      repeat split; auto.
    + destruct (send_message_step pid w)
        as [b [w1 [ds1 [E1 [Hl1 [Hh1 [Hm1 [Ho1 Hd1]]]]]]]].
      destruct (IH Hnd' w1) as [w' [ds [E [Hl [Hh [Hm Hd]]]]]].
      exists w', (ds1 ++ ds)%list.
      unfold bind, ret in *. rewrite E1. cbn. rewrite E.
      split; [reflexivity|].
      split; [rewrite Hl, Hl1; now rewrite app_assoc|].
      split.
      { rewrite map_app, Hh1, Hh. f_equal.
        apply flat_map_agree. intros k Hk. unfold turn_target.
        rewrite Ho1; [reflexivity|]. intros ->. contradiction. }
      split; [now apply Forall_app|congruence].
Qed.

Lemma targets_of_keys (cc : PyDict.t WebSocket) :
  PyDict.wf cc ->
  flat_map (turn_target exclude cc) (PyDict.keys cc)
  = map snd (filter (fun kv => negb (existsb (String.eqb (fst kv)) exclude))
                    cc).
Proof.
  unfold PyDict.wf, PyDict.keys.
  induction cc as [|[k ws] cc IH]; cbn; [reflexivity|].
  intros Hnd. inversion Hnd as [|? ? Hnotin Hnd']; subst.
  unfold turn_target at 1. cbn [PyDict.get]. rewrite String.eqb_refl.
  rewrite (flat_map_agree _ (turn_target exclude cc)).
  - rewrite (IH Hnd').
    destruct (existsb (String.eqb k) exclude); reflexivity.
  - intros k' Hk'. unfold turn_target. cbn [PyDict.get].
    destruct (k =? k')%string eqn:E; [|reflexivity].
    apply String.eqb_eq in E. subst k'. contradiction.
Qed.

(** C8.  [broadcast_message] takes the registered ids as they are when it
    starts and makes exactly one write of the message for each of them that
    is not excluded, to that participant's handle and in the order of the
    registry, whatever the outcome of the single writes; it writes to no
    other handle. *)
Theorem broadcast_reaches_snapshot :
  forall (w : World),
    PyDict.wf (connected_clients w) ->
    exists w' ds,
      broadcast_message lib env m exclude w = (Return tt, w')
      /\ transport_log w' = (transport_log w ++ ds)%list
      /\ map handle ds
         = map snd
             (filter (fun kv => negb (existsb (String.eqb (fst kv)) exclude))
                     (connected_clients w))
      /\ Forall (fun d => message d = m) ds
      /\ db w' = db w.
Proof.
  intros w Hwf.
  destruct (broadcast_loop_log (PyDict.keys (connected_clients w)) Hwf w)
    as [w' [ds [E [Hl [Hh [Hm Hd]]]]]].
  exists w', ds. unfold broadcast_message, bind, gets.
  rewrite E. repeat split; auto.
  rewrite Hh. now apply targets_of_keys.
Qed.

End Broadcast.

Lemma broadcast_reaches_snapshot_witness :
  exists w' ds,
    broadcast_message model_lib first_write_fails ping ["P2"]
      three_clients_world = (Return tt, w')
    /\ transport_log w' = ds
    /\ map handle ds = [1%nat; 3%nat].
Proof.
  destruct (broadcast_reaches_snapshot model_lib first_write_fails ping
              ["P2"] three_clients_world)
    as [w' [ds [E [Hl [Hh _]]]]].
  - unfold PyDict.wf. cbn.
    repeat constructor; cbn; intuition discriminate.
  - exists w', ds. repeat split; assumption.
Defined.

(** With the first write failing, the participant it was for loses its
    handle and the broadcast goes on to the next one. *)
Example broadcast_after_failure :
  let w' := snd (broadcast_message model_lib first_write_fails ping ["P2"]
                   three_clients_world) in
  map (fun d => (handle d, completed d)) (transport_log w')
  = [(1%nat, false); (3%nat, true)]
  /\ connected_clients w' = [("P2", 2%nat); ("P3", 3%nat)].
Proof. split; reflexivity. Qed.

End ServerFacts.

(* ================================================================== *)
(** * Properties of the handlers of the admin application *)
(* ================================================================== *)

Module AdminFacts.
Import Models.
Import Protocol.
Import DatabaseManager.
Import AdminApp.

Lemma integrity_score_of_range (v n : Z) :
  0 <= v -> 0 <= n -> 0 <= integrity_score_of v n <= 100.
Proof. unfold integrity_score_of. lia. Qed.

Lemma integrity_score_of_monotone (v v' n n' : Z) :
  v <= v' -> n <= n' -> integrity_score_of v' n' <= integrity_score_of v n.
Proof. unfold integrity_score_of. lia. Qed.

(** C4.  For a participant with [v] violations and [n] warnings, both
    non-negative, [_update_integrity_score] stores the score
    [max 0 (100 - 5 v - 2 n)]; the stored score lies between 0 and 100, and
    the score never grows when either counter grows. *)
Theorem integrity_score_recomputed :
  forall (w : World) (pid : string) (p : Participant),
    query_participant pid (db w) = Some p ->
    0 <= violation_count p ->
    0 <= warning_count p ->
    exists w' p',
      _update_integrity_score pid w = (Return tt, w')
      /\ query_participant pid (db w') = Some p'
      /\ integrity_score p'
         = Z.max 0 (100 - 5 * violation_count p - 2 * warning_count p)
      /\ violation_count p' = violation_count p
      /\ warning_count p' = warning_count p
      /\ 0 <= integrity_score p' <= 100
      /\ (forall v' n',
            violation_count p <= v' -> warning_count p <= n' ->
            integrity_score_of v' n' <= integrity_score p').
Proof.
  intros w pid p Hq Hv Hn.
  eexists. eexists (with_integrity_score _ p).
  split.
  { unfold _update_integrity_score, bind, gets, modify. rewrite Hq.
    reflexivity. }
  split.
  { cbn. apply DatabaseFacts.query_update_participant; auto. }
  unfold with_integrity_score.
  cbn [integrity_score violation_count warning_count].
  unfold integrity_score_of. repeat split; try lia.
Qed.

Lemma integrity_score_recomputed_witness :
  exists w' p',
    _update_integrity_score "P1" exam_world = (Return tt, w')
    /\ query_participant "P1" (db w') = Some p'
    /\ integrity_score p' = 100.
Proof.
  destruct (integrity_score_recomputed exam_world "P1"
              (roster_entry 1 "P1" "Budi" 7))
    as [w' [p' [E [Hq [Hs _]]]]].
  - reflexivity.
  - cbn. lia.
  - cbn. lia.
  - exists w', p'. repeat split; assumption.
Defined.

(** The score after a report, when automatic escalation is off: the report
    adds one violation and the score stored is the one of the new count. *)
Lemma violation_report_rescores (lib : PyLib) (env : Env) (w : World)
    (pid : string) (m : Message) (payload : PyDict.t json)
    (vt : ViolationType) (sev : ViolationSeverity) (session_id : Z)
    (p : Participant) :
  Protocol.data m = JDict payload ->
  ViolationType_call
    (PyDict.get_default "violation_type" (JStr "application_blocked") payload)
  = Return vt ->
  ViolationSeverity_call
    (PyDict.get_default "severity" (JStr "medium") payload) = Return sev ->
  current_session_id w = Some session_id ->
  session_id <> 0 ->
  ai_proctor_mode w = false ->
  query_participant pid (db w) = Some p ->
  exists w' p',
    _handle_violation_report lib env pid m w = (Return tt, w')
    /\ query_participant pid (db w') = Some p'
    /\ violation_count p' = violation_count p + 1
    /\ warning_count p' = warning_count p
    /\ integrity_score p'
       = Z.max 0 (100 - 5 * (violation_count p + 1) - 2 * warning_count p).
Proof.
  intros Hdata Hvt Hsev Hcur Hnz Hmode Hq.
  set (d1 := update_participant pid
               (fun q => with_violation_count (violation_count q + 1) q)
               (set_violations
                  (violations (db w)
                   ++ [mkViolation (next_id (map v_id (violations (db w))))
                         (id p) session_id vt sev
                         (PyDict.get_default "description" (JStr "") payload)
                         (utcnow_at env (clock_reads w)) false None None])
                  (db w))).
  assert (Hq1 : query_participant pid d1
                = Some (with_violation_count (violation_count p + 1) p)).
  { exact (DatabaseFacts.query_update_participant pid
             (fun q => with_violation_count (violation_count q + 1) q)
             (set_violations _ (db w)) p Hq eq_refl). }
  pose proof (DatabaseFacts.query_update_participant pid
                (with_integrity_score
                   (integrity_score_of (violation_count p + 1)
                                       (warning_count p)))
                d1 _ Hq1 eq_refl) as Hq2.
  unfold _handle_violation_report, payload_get. rewrite Hdata.
  run_effects. rewrite Hvt. run_effects. rewrite Hsev. run_effects.
  rewrite Hcur. destruct (Z.eqb_spec session_id 0); [contradiction|].
  unfold create_violation, get_participant. run_effects.
  rewrite Hq. run_effects. fold d1. rewrite Hq1.
  unfold _update_integrity_score. run_effects. rewrite Hq1. run_effects.
  rewrite Hmode. unfold ret.
  eexists. eexists. split; [reflexivity|]. world_simpl.
  split; [exact Hq2|].
  unfold with_integrity_score, with_violation_count.
  cbn [violation_count warning_count integrity_score].
  unfold integrity_score_of. repeat split; lia.
Qed.

Section Registration.
Variable lib : PyLib.
Variable env : Env.



End Registration.

(** With unique primary keys, the row found by participant id is the one
    the registration writes to. *)
Lemma update_by_key_is_update_by_pid (pid : string) (p : Participant)
    (f : Participant -> Participant) (l : list Participant) :
  NoDup (map id l) ->
  find (fun q => (Models.participant_id q =? pid)%string) l = Some p ->
  update_first (fun q => id q =? id p) f l
  = update_first (fun q => (Models.participant_id q =? pid)%string) f l.
Proof.
  induction l as [|y l IH]; [reflexivity|].
  cbn [map find update_first]. intros Hnd Hq.
  inversion Hnd as [|? ? Hnotin Hnd']; subst.
  destruct (Models.participant_id y =? pid)%string eqn:Ey.
  - injection Hq as ->. now rewrite Z.eqb_refl.
  - destruct (Z.eqb_spec (id y) (id p)) as [Heq|Hne].
    + exfalso. apply Hnotin. rewrite Heq. apply in_map.
      apply find_some in Hq. tauto.
    + now rewrite IH.
Qed.

Lemma registration_row (pid : string) (p : Participant) (ip cname : json)
    (now : datetime) (d : Database) :
  NoDup (map id (participants d)) ->
  query_participant pid d = Some p ->
  query_participant pid
    (set_participants
       (update_first (fun q => id q =? id p)
                     (with_registration ip cname now) (participants d)) d)
  = Some (with_registration ip cname now p).
Proof.
  intros Hnd Hq. unfold query_participant in *.
  cbn [participants set_participants].
  rewrite (update_by_key_is_update_by_pid pid p _ _ Hnd Hq).
  apply DatabaseFacts.find_update_first_hit; [assumption|].
  apply find_some in Hq. cbn. tauto.
Qed.



(** The same input, evaluated: the reply is the acknowledgement of a
    successful registration. *)
Example padded_name_is_registered :
  map (fun d => Protocol.data (message d))
      (transport_log
         (snd (_handle_register_async model_lib steady_env "P1"
                 (register_request " BUDI ") exam_world)))
  = [registered "P1" (Some 7)].
Proof. reflexivity. Qed.

Section Escalation.
Variable lib : PyLib.
Variable env : Env.

Lemma send_completes (pid : string) (m : Message) (ws : WebSocket)
    (w : World) :
  (forall n, send_text_ok env n = true) ->
  PyDict.get pid (connected_clients w) = Some ws ->
  ProctoringServer.send_message lib env pid m w
  = (Return true,
     set_transport_log (transport_log w ++ [mkDelivery ws m true])%list w).
Proof.
  intros Hok Hc.
  now apply ServerFacts.send_write_completes.
Qed.

(** What [_handle_violation_auto] does for a connected participant whose
    row holds [n] warnings, when the writes complete: the row ends with
    [n + 1] warnings, the warning sent carries [n], and the lock and flag
    thresholds are compared with [n]. *)
Lemma auto_escalation_compares_old_count (v : Violation) (pid : string)
    (p : Participant) (ws : WebSocket) (w : World) :
  query_participant pid (db w) = Some p ->
  PyDict.get pid (connected_clients w) = Some ws ->
  (forall n, send_text_ok env n = true) ->
  let n := warning_count p in
  let before_flag := default (warnings_before_flag (config w)) 3 in
  let before_lock := default (warnings_before_lock (config w)) 5 in
  exists w' ds,
    _handle_violation_auto lib env v pid w = (Return tt, w')
    /\ query_participant pid (db w')
       = Some (with_is_locked
                 (if before_lock <=? n then true else is_locked p)
                 (with_warning_count (n + 1) p))
    /\ transport_log w' = (transport_log w ++ ds)%list
    /\ map (fun d => (type (message d), data (message d))) ds
       = (WARNING, warning_body lib v p)
         :: (if before_lock <=? n then [(LOCK, lock_body)]
             else if before_flag <=? n then [(WARNING, flag_body)]
             else []).
Proof.
  intros Hq Hc Hok n before_flag before_lock.
  assert (Hq1 : query_participant pid
                  (update_participant pid
                     (fun q => with_warning_count (warning_count q + 1) q)
                     (db w))
                = Some (with_warning_count (n + 1) p)).
  { exact (DatabaseFacts.query_update_participant pid
             (fun q => with_warning_count (warning_count q + 1) q)
             (db w) p Hq eq_refl). }
  unfold _handle_violation_auto, get_participant, increment_warning_count,
    new_message, utcnow.
  unfold bind at 1. unfold gets at 1. rewrite Hq.
  unfold bind at 1. unfold bind at 1. unfold gets at 1. rewrite Hq.
  unfold modify at 1.
  unfold bind at 1. unfold bind at 1. unfold ret at 1.
  unfold bind at 1.
  rewrite (send_completes pid _ ws) by assumption.
  unfold bind at 1. unfold gets at 1.
  world_simpl.
  fold before_flag before_lock n.
  destruct (before_lock <=? n) eqn:Elock.
  - unfold lock_participant.
    unfold bind at 1. unfold bind at 1. unfold gets at 1.
    world_simpl. rewrite Hq1. unfold modify at 1.
    unfold bind at 1. unfold bind at 1. unfold ret at 1.
    unfold bind at 1.
    rewrite (send_completes pid _ ws) by assumption.
    unfold ret. world_simpl. eexists. eexists [_; _].
    split; [reflexivity|].
    split.
    { world_simpl.
      exact (DatabaseFacts.query_update_participant pid (with_is_locked true)
               _ _ Hq1 eq_refl). }
    split.
    { world_simpl. now rewrite <- app_assoc. }
    reflexivity.
  - destruct (before_flag <=? n) eqn:Eflag.
    + unfold bind at 1. unfold bind at 1. unfold ret at 1.
      unfold bind at 1.
      rewrite (send_completes pid _ ws) by assumption.
      unfold ret. world_simpl. eexists. eexists [_; _].
      split; [reflexivity|].
      split.
      { world_simpl. rewrite Hq1. reflexivity. }
      split.
      { world_simpl. now rewrite <- app_assoc. }
      reflexivity.
    + unfold ret. eexists. eexists [_].
      split; [reflexivity|].
      split.
      { world_simpl. rewrite Hq1. reflexivity. }
      split; reflexivity.
Qed.

End Escalation.


(** The flag comes with the fourth report and the lock with the sixth. *)
Example fourth_violation_flags :
  map (fun d => data (message d))
      (skipn 3 (transport_log (after_reports 4 exam_world)))
  = [JDict [("message", JStr "Peringatan: game.exe");
            ("warning_count", JInt 3)];
     flag_body].
Proof. vm_compute. reflexivity. Qed.

Example sixth_violation_locks :
  map (fun d => type (message d))
      (skipn 7 (transport_log (after_reports 6 exam_world)))
  = [WARNING; LOCK]
  /\ option_map is_locked
       (query_participant "P1" (db (after_reports 5 exam_world))) = Some false
  /\ option_map is_locked
       (query_participant "P1" (db (after_reports 6 exam_world))) = Some true.
Proof. repeat split; vm_compute; reflexivity. Qed.

End AdminFacts.

(* ================================================================== *)
(** * Properties of the reconnecting client *)
(* ================================================================== *)

Module ClientFacts.
Import Protocol.
Import ProctoringClient.

Lemma last_cons_default {A} (x d : A) (l : list A) :
  last (x :: l) d = last l x.
Proof.
  revert x d. induction l as [|y l IH]; intros x d; [reflexivity|].
  change (last (x :: y :: l) d) with (last (y :: l) d).
  now rewrite (IH y d), (IH y x).
Qed.

Lemma last_call_cons (prev : option Action) (a : Action)
    (acts : list Action) :
  last_call prev (a :: acts) = last_call (Some a) acts.
Proof. unfold last_call. cbn [map]. apply last_cons_default. Qed.

Lemma paced_app (i : Z) (prev : option Action) (a1 a2 : list Action) :
  paced i prev (a1 ++ a2)
  = paced i prev a1 && paced i (last_call prev a1) a2.
Proof.
  revert prev. induction a1 as [|a a1 IH]; intros prev; [reflexivity|].
  cbn [app paced]. rewrite IH, andb_assoc. now rewrite last_call_cons.
Qed.

Lemma last_call_app (prev : option Action) (a1 a2 : list Action) :
  last_call prev (a1 ++ a2) = last_call (last_call prev a1) a2.
Proof.
  revert prev. induction a1 as [|a a1 IH]; intros prev; [reflexivity|].
  cbn [app]. now rewrite !last_call_cons.
Qed.

Lemma no_connect_paced (i : Z) (prev : option Action) (acts : list Action) :
  no_connect acts = true -> paced i prev acts = true.
Proof.
  revert prev. induction acts as [|a acts IH]; intros prev; [reflexivity|].
  cbn. intros H. apply andb_true_iff in H. destruct H as [Ha H].
  destruct (is_connect a); [discriminate|]. now apply IH.
Qed.

(** [stop] clears the flag, and no step of the client sets it again. *)
Lemma stop_clears_running (st : State) :
  running (client (fst (step st Stop))) = false.
Proof. destruct (point st); reflexivity. Qed.

Ltac step_cases st e :=
  destruct e as [[ws|] | [|] | [|] | | | | | ];
  destruct (point st) eqn:Epoint;
  cbn [step]; unfold register, listen_head, after_session, loop_head;
  cbn [client set_client set_point set_tasks running is_connected websocket
       set_running set_is_connected set_websocket reconnect_interval
       server_url participant_id name computer_ip computer_name point
       scheduled closing andb fst snd].

Lemma step_stopped (st : State) (e : Event) :
  running (client st) = false ->
  running (client (fst (step st e))) = false
  /\ no_connect (snd (step st e)) = true.
Proof.
  intros Hr.
  step_cases st e; rewrite ?Hr; cbn [andb fst snd];
    repeat match goal with
    | |- context [match ?x with _ => _ end] => destruct x
    end;
    cbn; auto.
Qed.

Lemma run_stopped (es : list Event) (st : State) :
  running (client st) = false ->
  no_connect (snd (run st es)) = true.
Proof.
  revert st. induction es as [|e es IH]; intros st Hr; [reflexivity|].
  cbn [run].
  destruct (step_stopped st e Hr) as [Hr' Hn].
  destruct (step st e) as [st1 acts1]. cbn [fst snd] in *.
  specialize (IH st1 Hr').
  destruct (run st1 es) as [st2 acts2]. cbn [fst snd] in *.
  unfold no_connect in *. rewrite forallb_app. now rewrite Hn, IH.
Qed.

Lemma step_invariant (url pid : string) (nm ip cn : json) (st : State)
    (prev : option Action) (e : Event) :
  session_invariant url pid nm ip cn st prev ->
  session_invariant url pid nm ip cn (fst (step st e))
                    (last_call prev (snd (step st e)))
  /\ paced 5 prev (snd (step st e)) = true.
Proof.
  intros (Hn & Hi & Hc & Hu & Hp & Hr & Hrun).
  unfold session_invariant.
  destruct (running (client st)) eqn:Erun.
  - destruct (Hrun eq_refl) as (Hs & Hcl & Hsleep).
    step_cases st e; rewrite ?Erun, ?Hs, ?Hcl; cbn [andb fst snd];
      repeat match goal with
      | |- context [match ?x with _ => _ end] => destruct x eqn:?
      end;
      cbn [client set_client set_point set_tasks running is_connected
           websocket set_running set_is_connected set_websocket
           reconnect_interval server_url participant_id name computer_ip
           computer_name point scheduled closing fst snd last_call map last
           paced is_connect andb];
      rewrite ?Hr, ?Z.eqb_refl;
      try (rewrite (Hsleep eq_refl));
      rewrite ?Z.eqb_refl;
      repeat split; auto; try congruence; try discriminate.
  - destruct (step_stopped st e Erun) as [Hr' Hnc].
    split; [|now apply no_connect_paced].
    rewrite Hr'.
    step_cases st e; rewrite ?Erun; cbn [andb fst snd];
      repeat match goal with
      | |- context [match ?x with _ => _ end] => destruct x eqn:?
      end;
      cbn [client set_client set_point set_tasks running is_connected
           websocket set_running set_is_connected set_websocket
           reconnect_interval server_url participant_id name computer_ip
           computer_name point scheduled closing fst snd];
      repeat split; auto; try congruence; try discriminate.
Qed.

Lemma run_invariant (url pid : string) (nm ip cn : json) (es : list Event) :
  forall (st : State) (prev : option Action),
    session_invariant url pid nm ip cn st prev ->
    session_invariant url pid nm ip cn (fst (run st es))
                      (last_call prev (snd (run st es)))
    /\ paced 5 prev (snd (run st es)) = true.
Proof.
  induction es as [|e es IH]; intros st prev Hinv.
  - cbn. auto.
  - cbn [run].
    destruct (step_invariant url pid nm ip cn st prev e Hinv) as [H1 P1].
    destruct (step st e) as [st1 acts1]. cbn [fst snd] in *.
    destruct (IH st1 _ H1) as [H2 P2].
    destruct (run st1 es) as [st2 acts2]. cbn [fst snd] in *.
    rewrite last_call_app, paced_app, P1, P2. auto.
Qed.

Lemma start_invariant (url pid : string) (nm ip cn : json) :
  start (init url pid) nm ip cn
  = (mkState nm ip cn (mkClient url pid None false 5 true) Connecting 0 0,
     [Connect (url ++ "/ws/" ++ pid)])
  /\ session_invariant url pid nm ip cn
       (fst (start (init url pid) nm ip cn))
       (Some (Connect (url ++ "/ws/" ++ pid))).
Proof.
  split; [reflexivity|].
  unfold session_invariant. cbn. repeat split; auto. discriminate.
Qed.

Lemma session_unfold (url pid : string) (nm ip cn : json) (es : list Event) :
  session (init url pid) nm ip cn es
  = (fst (run (fst (start (init url pid) nm ip cn)) es),
     Connect (url ++ "/ws/" ++ pid)
     :: snd (run (fst (start (init url pid) nm ip cn)) es)).
Proof.
  unfold session. destruct (start_invariant url pid nm ip cn) as [E _].
  rewrite E. cbn [fst snd].
  destruct (run _ es) as [st' acts']. reflexivity.
Qed.

(** C9, as the code has it.  For a client created by the constructor and
    started once, under any sequence of events:
    - the first call is a connection attempt, made at once; every later
      attempt comes right after a pause of 5 seconds;
    - a connection that succeeds is followed at once by a REGISTER message
      on the new transport with the name, address and host name given to
      [start] and the client's participant id;
    - while the flag is set, a failed attempt, a closed connection and a
      failed read each start the pause, and the end of the pause starts the
      next attempt;
    - [stop] clears the flag, the [disconnect] task it creates closes the
      transport, and no connection attempt is made from then on. *)
Theorem reconnect_discipline :
  forall (url pid : string) (nm ip cn : json) (es : list Event),
    let uri := url ++ "/ws/" ++ pid in
    let st := fst (session (init url pid) nm ip cn es) in
    (exists rest,
        snd (session (init url pid) nm ip cn es) = Connect uri :: rest
        /\ paced 5 (Some (Connect uri)) rest = true)
    /\ (point st = Connecting ->
        forall ws,
          snd (step st (ConnectResult (Some ws)))
          = [Send ws REGISTER
                  (JDict [("name", nm); ("computer_ip", ip);
                          ("computer_name", cn)])
                  (JStr pid)])
    /\ (running (client st) = true ->
        (point st = Connecting ->
         snd (step st (ConnectResult None)) = [Sleep 5]
         /\ point (fst (step st (ConnectResult None))) = Sleeping)
        /\ (point st = Receiving ->
            snd (step st RecvClosed) = [Sleep 5]
            /\ point (fst (step st RecvClosed)) = Sleeping
            /\ snd (step st (RecvMessage false)) = [Sleep 5]
            /\ point (fst (step st (RecvMessage false))) = Sleeping)
        /\ (point st = Sleeping ->
            snd (step st TimerFired) = [Connect uri]))
    /\ running (client (fst (step st Stop))) = false
    /\ (forall ws,
          websocket (client st) = Some ws ->
          snd (step (fst (step st Stop)) DisconnectBegin) = [Close ws])
    /\ (forall es', no_connect (snd (run st (Stop :: es'))) = true).
Proof.
  intros url pid nm ip cn es uri st.
  destruct (start_invariant url pid nm ip cn) as [Estart Hinv0].
  destruct (run_invariant url pid nm ip cn es _ _ Hinv0) as [Hinv Hpaced].
  assert (Est : st = fst (run (fst (start (init url pid) nm ip cn)) es)).
  { unfold st. now rewrite session_unfold. }
  rewrite <- Est in Hinv.
  destruct Hinv as (Hn & Hi & Hc & Hu & Hp & Hr & Hrun).
  split.
  { rewrite session_unfold. cbn [snd]. eexists. split; [reflexivity|].
    exact Hpaced. }
  split.
  { intros Hpt ws. cbn [step]. rewrite Hpt. unfold register.
    cbn. unfold register_data. cbn. now rewrite Hn, Hi, Hc, Hp. }
  split.
  { intros Erun. split; [|split]; intros Hpt; cbn [step]; rewrite Hpt;
      unfold after_session, loop_head;
      cbn [client set_client set_point running is_connected websocket
           set_is_connected reconnect_interval];
      rewrite ?Erun; cbn [fst snd point set_point]; rewrite ?Hr;
      repeat split.
    unfold ProctoringClient.uri. now rewrite Hu, Hp. }
  split; [apply stop_clears_running|].
  split.
  { intros ws Hws. destruct (point st); cbn; rewrite Hws; reflexivity. }
  intros es'. cbn [run].
  pose proof (stop_clears_running st) as Hstop.
  assert (Hnil : snd (step st Stop) = []) by (destruct (point st); reflexivity).
  destruct (step st Stop) as [st1 acts1]. cbn [fst snd] in *. subst acts1.
  pose proof (run_stopped es' st1 Hstop) as Hno.
  destruct (run st1 es') as [st2 acts2]. exact Hno.
Qed.

Lemma reconnect_discipline_witness :
  snd (step (fst (session (init "ws://10.0.0.1:8765" "P1")
                    (JStr "Budi") (JStr "10.0.0.5") (JStr "LAB-05")
                    [ConnectResult None]))
            TimerFired)
  = [Connect "ws://10.0.0.1:8765/ws/P1"].
Proof.
  refine (proj2 (proj2 (proj1 (proj2 (proj2
            (reconnect_discipline "ws://10.0.0.1:8765" "P1"
               (JStr "Budi") (JStr "10.0.0.5") (JStr "LAB-05")
               [ConnectResult None]))) _)) _); reflexivity.
Defined.

(** C9 as stated fails at the start: the first connection attempt is made
    at once, with no pause before it. *)
Lemma reconnect_discipline_counterexample :
  ~ (forall url pid nm ip cn es,
        paced 5 None (snd (session (init url pid) nm ip cn es)) = true).
Proof.
  intros H.
  specialize (H "ws://10.0.0.1:8765" "P1" (JStr "Budi") JNull JNull []).
  discriminate.
Qed.

(** A session: the first attempt fails, the second succeeds and registers,
    the connection closes, and [stop] arrives during the pause. *)
Example session_trace :
  snd (session (init "ws://10.0.0.1:8765" "P1")
         (JStr "Budi") (JStr "10.0.0.5") (JStr "LAB-05")
         [ConnectResult None; TimerFired; ConnectResult (Some 4%nat);
          SendResult true; RecvClosed; Stop; DisconnectBegin; CloseDone;
          TimerFired; TimerFired])
  = [Connect "ws://10.0.0.1:8765/ws/P1";
     Sleep 5;
     Connect "ws://10.0.0.1:8765/ws/P1";
     Send 4%nat REGISTER
          (JDict [("name", JStr "Budi"); ("computer_ip", JStr "10.0.0.5");
                  ("computer_name", JStr "LAB-05")])
          (JStr "P1");
     Sleep 5;
     Close 4%nat].
Proof. reflexivity. Qed.

End ClientFacts.

(* ================================================================== *)
(** * More on the codec *)
(* ================================================================== *)

Module ProtocolMore.
Import Protocol.

Lemma value_injective (t t' : MessageType) : value t = value t' -> t = t'.
Proof.
  intros H. pose proof (ProtocolFacts.by_value_value t) as E.
  rewrite H, ProtocolFacts.by_value_value in E. congruence.
Qed.

(** X1.  The constructor of the enumeration returns the member [t] exactly
    on the string that is the value of [t]: on any other value, of any
    type, it raises; and no two members share a value. *)
Theorem MessageType_call_exact :
  forall (v : json) (t : MessageType),
    (MessageType_call v = Return t <-> v = JStr (value t))
    /\ (forall t', value t = value t' -> t = t')
    /\ ((forall t', v <> JStr (value t')) ->
        MessageType_call v = Raise (InvalidEnumValue "MessageType" v)).
Proof.
  intros v t. split; [split|split].
  - intros H. destruct v as [ | b | n | s | l | d]; try discriminate.
    unfold MessageType_call in H.
    destruct (by_value s) as [t0|] eqn:E; [|discriminate].
    injection H as ->. apply ProtocolFacts.by_value_sound in E.
    now rewrite E.
  - intros ->. apply ProtocolFacts.MessageType_call_value.
  - apply value_injective.
  - apply ProtocolFacts.MessageType_call_unknown.
Qed.

Lemma py_or_idempotent (x : json) :
  py_or (py_or x (JDict [])) (JDict []) = py_or x (JDict []).
Proof.
  unfold py_or. destruct (truthy x) eqn:E; [now rewrite E|reflexivity].
Qed.

Lemma from_dict_to_dict (lib : PyLib) (m : Message) (now : datetime) :
  PyLibLaws lib ->
  from_dict lib now (to_dict lib m)
  = Return (mkMessage (type m) (py_or (data m) (JDict []))
                      (participant_id m) (timestamp m)).
Proof.
  intros [_ Hiso]. unfold from_dict.
  change (getitem (to_dict lib m) "type") with (Return (JStr (value (type m)))).
  cbn [rbind]. rewrite ProtocolFacts.MessageType_call_value. cbn [rbind].
  change (get (to_dict lib m) "timestamp" (JStr (isoformat lib now)))
    with (JStr (isoformat lib (timestamp m))).
  cbn [fromisoformat_value]. rewrite Hiso. cbn [rbind].
  reflexivity.
Qed.

(** X2.  Decoding the encoding of any envelope gives the envelope back with
    its data normalised: data that is falsy ([None], [0], the empty string
    or list) comes back as the empty dictionary, anything else, and the
    other three fields whatever they hold, comes back unchanged.  Encoding
    and decoding once more changes nothing. *)
Theorem roundtrip_normalises_data :
  forall (lib : PyLib), PyLibLaws lib ->
  forall (m : Message) (now now' : datetime),
    let m' := mkMessage (type m) (py_or (data m) (JDict []))
                        (participant_id m) (timestamp m) in
    from_json lib now (to_json lib m) = Return m'
    /\ from_json lib now' (to_json lib m') = Return m'
    /\ (truthy (data m) = true -> m' = m)
    /\ (truthy (data m) = false -> data m' = JDict []).
Proof.
  intros lib Hlaws m now now' m'.
  assert (E : forall x t, from_json lib t (to_json lib x)
                          = from_dict lib t (to_dict lib x)).
  { intros x t. unfold from_json, to_json.
    now rewrite (loads_dumps lib Hlaws). }
  split; [|split; [|split]].
  - rewrite E. now apply from_dict_to_dict.
  - rewrite E, from_dict_to_dict by assumption.
    unfold m'. cbn [type data participant_id timestamp].
    now rewrite py_or_idempotent.
  - intros Ht. unfold m', py_or. rewrite Ht. now destruct m.
  - intros Ht. unfold m', py_or. cbn [data]. now rewrite Ht.
Qed.

Lemma roundtrip_normalises_data_witness :
  from_json model_lib 3
    (to_json model_lib (mkMessage PING (JInt 0) (JInt 7) 5))
  = Return (mkMessage PING (JDict []) (JInt 7) 5).
Proof.
  exact (proj1 (roundtrip_normalises_data model_lib
                  ProtocolFacts.model_lib_laws
                  (mkMessage PING (JInt 0) (JInt 7) 5) 3 3)).
Defined.

(** X3.  The errors of [from_dict].  A value that is not a dictionary
    raises [TypeError]; a dictionary without [type] raises [KeyError]; the
    type is converted before the time stamp is looked at, so an unknown
    type wins over a bad time stamp; with a known type, a time stamp that
    is present and not a string raises [TypeError]. *)
Theorem from_dict_errors :
  forall (lib : PyLib) (now : datetime),
    (forall d, (forall kv, d <> JDict kv) ->
               from_dict lib now d = Raise TypeError)
    /\ (forall kv, PyDict.get "type" kv = None ->
                   from_dict lib now (JDict kv) = Raise (KeyError "type"))
    /\ (forall kv v, PyDict.get "type" kv = Some v ->
                     (forall t, v <> JStr (value t)) ->
                     from_dict lib now (JDict kv)
                     = Raise (InvalidEnumValue "MessageType" v))
    /\ (forall kv t ts,
          PyDict.get "type" kv = Some (JStr (value t)) ->
          PyDict.get "timestamp" kv = Some ts ->
          (forall s, ts <> JStr s) ->
          from_dict lib now (JDict kv) = Raise TypeError).
Proof.
  intros lib now. split; [|split; [|split]].
  - intros d Hd. destruct d; try reflexivity. now elim (Hd d).
  - intros kv H. now apply ProtocolFacts.decode_missing_type_raises.
  - intros kv v Hg Hv. unfold from_dict, getitem. rewrite Hg. cbn [rbind].
    now rewrite (ProtocolFacts.MessageType_call_unknown v Hv).
  - intros kv t ts Hg Hts Hns. unfold from_dict, getitem. rewrite Hg.
    cbn [rbind]. rewrite ProtocolFacts.MessageType_call_value. cbn [rbind].
    unfold get, PyDict.get_default. rewrite Hts.
    destruct ts; try reflexivity. now elim (Hns s).
Qed.

Lemma from_dict_errors_witness :
  from_dict model_lib 0
    (JDict [("type", JStr "ping"); ("timestamp", JInt 1700000000)])
  = Raise TypeError.
Proof.
  refine (proj2 (proj2 (proj2 (from_dict_errors model_lib 0)))
            [("type", JStr "ping"); ("timestamp", JInt 1700000000)]
            PING (JInt 1700000000) _ _ _); try reflexivity.
  intros s. discriminate.
Defined.

Lemma get_absent (k : string) (kv : PyDict.t json) (d : json) :
  PyDict.get k kv = None -> get (JDict kv) k d = d.
Proof.
  intros H. unfold get, PyDict.get_default. now rewrite H.
Qed.

(** X4.  The defaults of [from_dict].  A dictionary with a known type and
    no time stamp decodes to a message stamped with the current time; data
    that is absent or falsy becomes the empty dictionary and an absent
    participant id becomes [None]. *)
Theorem from_dict_defaults :
  forall (lib : PyLib), PyLibLaws lib ->
  forall (now : datetime) (kv : PyDict.t json) (t : MessageType),
    PyDict.get "type" kv = Some (JStr (value t)) ->
    PyDict.get "timestamp" kv = None ->
    exists m,
      from_dict lib now (JDict kv) = Return m
      /\ type m = t
      /\ timestamp m = now
      /\ participant_id m = PyDict.get_default "participant_id" JNull kv
      /\ data m = py_or (PyDict.get_default "data" (JDict []) kv) (JDict [])
      /\ (PyDict.get "data" kv = None -> data m = JDict [])
      /\ (truthy (data m) = true \/ data m = JDict []).
Proof.
  intros lib [_ Hiso] now kv t Hg Hts.
  eexists. split.
  { unfold from_dict, getitem. rewrite Hg. cbn [rbind].
    rewrite ProtocolFacts.MessageType_call_value. cbn [rbind].
    rewrite (get_absent "timestamp" kv _ Hts).
    cbn [fromisoformat_value]. rewrite Hiso. cbn [rbind]. reflexivity. }
  cbn [type timestamp participant_id data Message_init get].
  repeat split.
  - intros Hd. unfold PyDict.get_default. now rewrite Hd.
  - unfold py_or.
    destruct (truthy (PyDict.get_default "data" (JDict []) kv)) eqn:E;
      [left; exact E|right; reflexivity].
Qed.

Lemma from_dict_defaults_witness :
  exists m,
    from_dict model_lib 42 (JDict [("type", JStr "heartbeat")]) = Return m
    /\ type m = HEARTBEAT /\ timestamp m = 42.
Proof.
  destruct (from_dict_defaults model_lib ProtocolFacts.model_lib_laws 42
              [("type", JStr "heartbeat")] HEARTBEAT eq_refl eq_refl)
    as [m [E [Ht [Hs _]]]].
  exists m. repeat split; assumption.
Defined.

Lemma MessageType_call_exact_witness :
  MessageType_call (JStr "ping") = Return PING.
Proof.
  exact (proj2 (proj1 (MessageType_call_exact (JStr "ping") PING)) eq_refl).
Defined.

End ProtocolMore.

(* ================================================================== *)
(** * Dictionaries *)
(* ================================================================== *)

Module DictFacts.
Section Facts.
Context {V : Type}.
Implicit Types (d : PyDict.t V) (k : string) (v : V).

Lemma get_set_same k v d : PyDict.get k (PyDict.set k v d) = Some v.
Proof.
  induction d as [|[k' v'] d IH]; cbn.
  - now rewrite String.eqb_refl.
  - destruct (k' =? k)%string eqn:E; cbn; now rewrite E.
Qed.

Lemma get_set_other k k' v d :
  k' <> k -> PyDict.get k' (PyDict.set k v d) = PyDict.get k' d.
Proof.
  intros Hne. induction d as [|[k0 v0] d IH]; cbn.
  - destruct (k =? k')%string eqn:E; [|reflexivity].
    apply String.eqb_eq in E. congruence.
  - destruct (k0 =? k)%string eqn:E; cbn.
    + apply String.eqb_eq in E. subst k0.
      destruct (k =? k')%string eqn:E'; [|reflexivity].
      apply String.eqb_eq in E'. congruence.
    + now rewrite IH.
Qed.

Lemma get_none_keys k d : PyDict.get k d = None <-> ~ In k (PyDict.keys d).
Proof.
  induction d as [|[k' v'] d IH]; cbn.
  - tauto.
  - destruct (k' =? k)%string eqn:E.
    + apply String.eqb_eq in E. split; [discriminate|]. intros H. elim H.
      now left.
    + apply String.eqb_neq in E. rewrite IH. tauto.
Qed.

Lemma get_some_keys k v d : PyDict.get k d = Some v -> In k (PyDict.keys d).
Proof.
  intros H. destruct (in_dec string_dec k (PyDict.keys d)) as [Hin|Hout];
    [assumption|].
  apply get_none_keys in Hout. congruence.
Qed.

Lemma keys_set k v d :
  PyDict.keys (PyDict.set k v d)
  = if PyDict.mem k d then PyDict.keys d else (PyDict.keys d ++ [k])%list.
Proof.
  unfold PyDict.mem. induction d as [|[k' v'] d IH]; cbn.
  - reflexivity.
  - destruct (k' =? k)%string eqn:E; cbn; [reflexivity|].
    unfold PyDict.keys in IH. rewrite IH.
    now destruct (PyDict.get k d).
Qed.

Lemma wf_set k v d : PyDict.wf d -> PyDict.wf (PyDict.set k v d).
Proof.
  unfold PyDict.wf. intros H. rewrite keys_set. unfold PyDict.mem.
  destruct (PyDict.get k d) eqn:E; [assumption|].
  apply get_none_keys in E.
  apply NoDup_app; [assumption|repeat constructor; intros []|].
  intros x Hx [<-|[]]. contradiction.
Qed.

Lemma keys_del k d :
  PyDict.keys (PyDict.del k d)
  = filter (fun k' => negb (k' =? k)%string) (PyDict.keys d).
Proof.
  unfold PyDict.keys, PyDict.del.
  induction d as [|[k' v'] d IH]; cbn; [reflexivity|].
  destruct (k' =? k)%string; cbn; now rewrite IH.
Qed.

Lemma wf_del k d : PyDict.wf d -> PyDict.wf (PyDict.del k d).
Proof.
  unfold PyDict.wf. rewrite keys_del. apply NoDup_filter.
Qed.
End Facts.
End DictFacts.

(* ================================================================== *)
(** * More on the connection registry *)
(* ================================================================== *)

Module ServerMore.
Import ProctoringServer.

Section Registry.
Variable lib : PyLib.
Variable env : Env.

Lemma disconnect_world (pid : string) (w : World) :
  let w1 := if PyDict.mem pid (connected_clients w)
            then set_connected_clients
                   (PyDict.del pid (connected_clients w)) w
            else w in
  _disconnect_client lib env pid w
  = (Return tt,
     match PyDict.get pid (client_info w) with
     | Some i =>
         set_client_info
           (PyDict.set pid
              (PyDict.set "connected" (JBool false)
                 (PyDict.set "last_seen"
                    (JStr (isoformat lib (utcnow_at env (clock_reads w)))) i))
              (client_info w))
           (set_clock_reads (S (clock_reads w)) w1)
     | None => w1
     end).
Proof.
  unfold _disconnect_client. run_effects.
  destruct (PyDict.mem pid (connected_clients w));
    world_simpl; destruct (PyDict.get pid (client_info w));
    run_effects; reflexivity.
Qed.

Lemma send_discarded (pid : string) (m : Protocol.Message)
    (ws : WebSocket) (w : World) :
  PyDict.get pid (connected_clients w) = Some ws ->
  let ok := send_text_ok env (List.length (transport_log w)) in
  let written :=
    set_transport_log (transport_log w ++ [mkDelivery ws m ok])%list w in
  exists w',
    (_ <- send_message lib env pid m ;; ret tt)%monad w = (Return tt, w')
    /\ w' = (if ok then written
             else snd (_disconnect_client lib env pid written))
    /\ db w' = db w
    /\ transport_log w' = (transport_log w ++ [mkDelivery ws m ok])%list
    /\ current_session_id w' = current_session_id w
    /\ ai_proctor_mode w' = ai_proctor_mode w
    /\ config w' = config w.
Proof.
  intros Hg ok written. unfold bind. subst written.
  destruct ok eqn:Eok; subst ok.
  - rewrite (ServerFacts.send_write_completes lib env pid m ws w Hg Eok).
    eexists. split; [reflexivity|]. repeat split.
  - destruct (ServerFacts.send_write_fails lib env pid m ws w Hg Eok)
      as [w' [E [Ew [Hl [_ [_ Hdb]]]]]].
    rewrite E. exists w'. split; [reflexivity|]. split; [exact Ew|].
    split; [exact Hdb|]. split; [exact Hl|].
    rewrite Ew, disconnect_world. cbn [snd].
    destruct (PyDict.get pid (client_info _));
      destruct (PyDict.mem pid (connected_clients _)); repeat split.
Qed.

(** X5.  Closing a connection.  [_disconnect_client] always returns;
    afterwards the participant has no handle, whichever connection
    registered it, the handles of the others, the database and the
    transport are as before, and a message sent to the participant is
    refused without a write.  A participant with an entry in [client_info]
    is marked as not connected and stamped with the time of the call; for
    one without an entry nothing is recorded and the clock is not read, so
    for an id the server has never seen the call changes nothing. *)
Theorem disconnect_forgets_participant :
  forall (pid : string) (w : World),
  exists w',
    _disconnect_client lib env pid w = (Return tt, w')
    /\ PyDict.get pid (connected_clients w') = None
    /\ (forall other, other <> pid ->
          PyDict.get other (connected_clients w')
          = PyDict.get other (connected_clients w))
    /\ (PyDict.wf (connected_clients w) -> PyDict.wf (connected_clients w'))
    /\ db w' = db w
    /\ transport_log w' = transport_log w
    /\ (forall m, send_message lib env pid m w' = (Return false, w'))
    /\ match PyDict.get pid (client_info w) with
       | Some i =>
           PyDict.get pid (client_info w')
           = Some (PyDict.set "connected" (JBool false)
                     (PyDict.set "last_seen"
                        (JStr (isoformat lib
                                 (utcnow_at env (clock_reads w)))) i))
           /\ clock_reads w' = S (clock_reads w)
       | None =>
           client_info w' = client_info w
           /\ clock_reads w' = clock_reads w
           /\ (PyDict.get pid (connected_clients w) = None -> w' = w)
       end.
Proof.
  intros pid w.
  destruct (ServerFacts.disconnect_effect lib env pid w)
    as [w' [E [Hc [Hl Hd]]]].
  exists w'.
  assert (Hg : PyDict.get pid (connected_clients w') = None).
  { rewrite Hc. apply ServerFacts.get_del_same. }
  split; [exact E|]. split; [exact Hg|].
  split; [intros other Ho; rewrite Hc; now apply ServerFacts.get_del_other|].
  split; [intros Hwf; rewrite Hc; now apply DictFacts.wf_del|].
  split; [exact Hd|]. split; [exact Hl|].
  split; [intros m; now apply ServerFacts.send_without_handle|].
  rewrite disconnect_world in E. injection E as E.
  destruct (PyDict.get pid (client_info w)) as [i|] eqn:Ei.
  - subst w'. world_simpl. split; [apply DictFacts.get_set_same|].
    destruct (PyDict.mem pid (connected_clients w)); reflexivity.
  - unfold PyDict.mem in E.
    destruct (PyDict.get pid (connected_clients w)) eqn:Ec; subst w';
      world_simpl; repeat split; try reflexivity.
    discriminate.
Qed.

(** X6.  Accepting a connection.  The accepted handle becomes the
    participant's only handle, in place of an earlier one and at its
    position; the other participants keep theirs, and the unique-key
    invariant of the registry is kept.  The next message to the participant
    is written to the new handle.  The clean-up of a connection removes the
    participant by id: when the task of the replaced connection ends, the
    participant loses the new handle as well. *)
Theorem accept_replaces_handle :
  forall (pid : string) (ws : WebSocket) (m : Protocol.Message) (w : World),
    PyDict.wf (connected_clients w) ->
    exists w1,
      accept pid ws w = (Return tt, w1)
      /\ PyDict.wf (connected_clients w1)
      /\ PyDict.get pid (connected_clients w1) = Some ws
      /\ (forall other, other <> pid ->
            PyDict.get other (connected_clients w1)
            = PyDict.get other (connected_clients w))
      /\ PyDict.keys (connected_clients w1)
         = (if PyDict.mem pid (connected_clients w)
            then PyDict.keys (connected_clients w)
            else PyDict.keys (connected_clients w) ++ [pid])%list
      /\ db w1 = db w
      /\ transport_log w1 = transport_log w
      /\ (exists w2,
            send_message lib env pid m w1
            = (Return (send_text_ok env (List.length (transport_log w))), w2)
            /\ transport_log w2
               = (transport_log w
                  ++ [mkDelivery ws m
                        (send_text_ok env (List.length (transport_log w)))])
                 %list)
      /\ PyDict.get pid
           (connected_clients (snd (_disconnect_client lib env pid w1)))
         = None.
Proof.
  intros pid ws m w Hwf. eexists. split; [reflexivity|]. world_simpl.
  assert (Hg : PyDict.get pid
                 (PyDict.set pid ws (connected_clients w)) = Some ws)
    by apply DictFacts.get_set_same.
  split; [now apply DictFacts.wf_set|]. split; [exact Hg|].
  split; [intros other Ho; now apply DictFacts.get_set_other|].
  split; [apply DictFacts.keys_set|].
  split; [reflexivity|]. split; [reflexivity|]. split.
  - set (w1 := set_connected_clients _ w).
    destruct (send_text_ok env (List.length (transport_log w))) eqn:Eok.
    + eexists. split.
      * apply (ServerFacts.send_write_completes lib env pid m ws w1 Hg Eok).
      * reflexivity.
    + destruct (ServerFacts.send_write_fails lib env pid m ws w1 Hg Eok)
        as [w2 [E [_ [Hl _]]]].
      exists w2. split; [exact E|exact Hl].
  - match goal with
    | |- context [_disconnect_client lib env pid ?w1] =>
        destruct (ServerFacts.disconnect_effect lib env pid w1)
          as [w' [E [Hc _]]]
    end.
    rewrite E. cbn [snd]. rewrite Hc. apply ServerFacts.get_del_same.
Qed.

End Registry.

Lemma disconnect_forgets_participant_witness :
  exists w',
    _disconnect_client model_lib steady_env "P1" exam_world = (Return tt, w')
    /\ PyDict.get "P1" (connected_clients w') = None
    /\ w' = set_connected_clients [] exam_world.
Proof.
  destruct (disconnect_forgets_participant model_lib steady_env "P1"
              exam_world) as [w' [E [Hg _]]].
  exists w'. split; [exact E|]. split; [exact Hg|].
  cbv in E. now injection E as <-.
Defined.

Lemma accept_replaces_handle_witness :
  exists w1,
    accept "P1" 9%nat exam_world = (Return tt, w1)
    /\ PyDict.get "P1" (connected_clients w1) = Some 9%nat.
Proof.
  assert (Hwf : PyDict.wf (connected_clients exam_world)).
  { unfold PyDict.wf. cbn. repeat constructor; cbn; intuition discriminate. }
  destruct (accept_replaces_handle model_lib steady_env "P1" 9%nat ping
              exam_world Hwf) as [w1 [E [_ [Hg _]]]].
  exists w1. split; assumption.
Defined.

Section Broadcast.
Variable lib : PyLib.
Variable env : Env.
Variable m : Protocol.Message.
Variable exclude : list string.

Lemma send_message_registry (pid : string) (w : World) :
  exists b w' ds,
    send_message lib env pid m w = (Return b, w')
    /\ transport_log w' = (transport_log w ++ ds)%list
    /\ (forall k, k <> pid ->
          PyDict.get k (connected_clients w')
          = PyDict.get k (connected_clients w))
    /\ match PyDict.get pid (connected_clients w) with
       | Some ws =>
           exists ok, In (mkDelivery ws m ok) ds
                      /\ PyDict.get pid (connected_clients w')
                         = if ok then Some ws else None
       | None => PyDict.get pid (connected_clients w') = None
       end.
Proof.
  destruct (PyDict.get pid (connected_clients w)) as [ws|] eqn:Eg.
  - destruct (send_text_ok env (List.length (transport_log w))) eqn:Eok.
    + exists true. eexists. exists [mkDelivery ws m true].
      split; [apply (ServerFacts.send_write_completes lib env pid m ws w
                       Eg Eok)|].
      world_simpl. split; [reflexivity|]. split; [reflexivity|].
      exists true. split; [now left|exact Eg].
    + destruct (ServerFacts.send_write_fails lib env pid m ws w Eg Eok)
        as [w' [E [_ [Hl [Hn [Ho _]]]]]].
      exists false, w', [mkDelivery ws m false].
      split; [exact E|]. split; [exact Hl|]. split; [exact Ho|].
      exists false. split; [now left|exact Hn].
  - exists false, w, []. split; [now apply ServerFacts.send_without_handle|].
    rewrite app_nil_r. repeat split. exact Eg.
Qed.

Lemma broadcast_loop_registry (ids : list string) :
  NoDup ids ->
  forall w,
  exists w' ds,
    broadcast_loop lib env ids m exclude w = (Return tt, w')
    /\ transport_log w' = (transport_log w ++ ds)%list
    /\ (forall k, ~ In k ids \/ existsb (String.eqb k) exclude = true ->
          PyDict.get k (connected_clients w')
          = PyDict.get k (connected_clients w))
    /\ (forall k, In k ids -> existsb (String.eqb k) exclude = false ->
          match PyDict.get k (connected_clients w) with
          | Some ws =>
              exists ok, In (mkDelivery ws m ok) ds
                         /\ PyDict.get k (connected_clients w')
                            = if ok then Some ws else None
          | None => PyDict.get k (connected_clients w') = None
          end).
Proof.
  induction ids as [|pid ids IH]; intros Hnd w.
  - exists w, []. cbn. rewrite app_nil_r. repeat split. intros k [].
  - inversion Hnd as [|? ? Hout Hnd']; subst.
    cbn [broadcast_loop].
    destruct (existsb (String.eqb pid) exclude) eqn:Ex; cbv iota.
    + rewrite MonadFacts.bind_ret.
      destruct (IH Hnd' w) as [w' [ds [E [Hl [Hkeep Hserved]]]]].
      exists w', ds. split; [exact E|]. split; [exact Hl|]. split.
      * intros k [Hk|Hk]; apply Hkeep; [left|now right].
        intros Hin. apply Hk. now right.
      * intros k [<-|Hin] Hk; [congruence|now apply Hserved].
    + destruct (send_message_registry pid w)
        as [b [w1 [ds1 [E1 [Hl1 [Ho1 Hs1]]]]]].
      destruct (IH Hnd' w1) as [w' [ds2 [E [Hl [Hkeep Hserved]]]]].
      exists w', (ds1 ++ ds2)%list.
      split.
      { rewrite MonadFacts.bind_bind. unfold bind at 1. rewrite E1.
        rewrite MonadFacts.bind_ret. exact E. }
      split; [rewrite Hl, Hl1; now rewrite app_assoc|]. split.
      * intros k Hk.
        assert (Hne : k <> pid).
        { intros ->. destruct Hk as [Hk|Hk]; [apply Hk; now left|congruence]. }
        rewrite Hkeep, Ho1; [reflexivity|exact Hne|].
        destruct Hk as [Hk|Hk]; [left|now right].
        intros Hin. apply Hk. now right.
      * intros k [<-|Hin] Hk.
        -- rewrite (Hkeep pid) by now left.
           destruct (PyDict.get pid (connected_clients w)); [|exact Hs1].
           destruct Hs1 as [ok [Hin1 Ha]]. exists ok.
           split; [apply in_or_app; now left|exact Ha].
        -- assert (Hne : k <> pid) by (intros ->; contradiction).
           specialize (Hserved k Hin Hk). rewrite Ho1 in Hserved by exact Hne.
           destruct (PyDict.get k (connected_clients w)); [|exact Hserved].
           destruct Hserved as [ok [Hin2 Ha]]. exists ok.
           split; [apply in_or_app; now right|exact Ha].
Qed.

(** X7.  The registry after a broadcast.  [broadcast_message] always
    returns.  A participant that was registered and not excluded has had
    one write to its handle: it is still registered under that handle when
    the write completed, and is no longer registered when the write failed.
    An excluded participant keeps its handle, and nobody is registered that
    was not registered before. *)
Theorem broadcast_aftermath :
  forall (w : World),
    PyDict.wf (connected_clients w) ->
    exists w' ds,
      broadcast_message lib env m exclude w = (Return tt, w')
      /\ transport_log w' = (transport_log w ++ ds)%list
      /\ (forall pid ws,
            PyDict.get pid (connected_clients w) = Some ws ->
            if existsb (String.eqb pid) exclude
            then PyDict.get pid (connected_clients w') = Some ws
            else exists ok,
                   In (mkDelivery ws m ok) ds
                   /\ PyDict.get pid (connected_clients w')
                      = if ok then Some ws else None)
      /\ (forall pid,
            PyDict.get pid (connected_clients w) = None ->
            PyDict.get pid (connected_clients w') = None).
Proof.
  intros w Hwf.
  destruct (broadcast_loop_registry (PyDict.keys (connected_clients w)) Hwf w)
    as [w' [ds [E [Hl [Hkeep Hserved]]]]].
  exists w', ds. split.
  { unfold broadcast_message. now rewrite MonadFacts.bind_gets. }
  split; [exact Hl|]. split.
  - intros pid ws Hg.
    destruct (existsb (String.eqb pid) exclude) eqn:Ex.
    + rewrite Hkeep; [exact Hg|now right].
    + specialize (Hserved pid (DictFacts.get_some_keys _ _ _ Hg) Ex).
      now rewrite Hg in Hserved.
  - intros pid Hg. rewrite Hkeep; [exact Hg|].
    left. now apply DictFacts.get_none_keys.
Qed.
End Broadcast.

Lemma three_clients_wf : PyDict.wf (connected_clients three_clients_world).
Proof.
  unfold PyDict.wf. cbn.
  repeat constructor; cbn; intuition discriminate.
Qed.

Lemma broadcast_aftermath_witness :
  exists w' ds,
    broadcast_message model_lib first_write_fails ping ["P2"]
      three_clients_world = (Return tt, w')
    /\ transport_log w' = (transport_log three_clients_world ++ ds)%list.
Proof.
  destruct (broadcast_aftermath model_lib first_write_fails ping ["P2"]
              three_clients_world three_clients_wf)
    as [w' [ds [E [Hl _]]]].
  exists w', ds. split; assumption.
Defined.

Section Receive.
Variable lib : PyLib.
Variable env : Env.

Lemma decode_return (text : wire lib) (w w0 : World)
    (m : Protocol.Message) :
  decode lib env text w = (Return m, w0) ->
  w0 = set_clock_reads (S (clock_reads w)) w.
Proof.
  unfold decode, Protocol.from_json, Protocol.from_dict.
  intros H. injection H as H1 H2. subst w0.
  destruct (loads lib text) as [d|]; cbn [rbind] in *; [|discriminate].
  destruct (Protocol.getitem d "type") as [v|]; cbn [rbind] in *;
    [|discriminate].
  destruct (Protocol.MessageType_call v); cbn [rbind] in *;
    [reflexivity|discriminate].
Qed.

Lemma receive_decoded (handlers : ServerHandlers.handlers) (pid : string)
    (text : wire lib) (w w0 : World) (m : Protocol.Message) :
  decode lib env text w = (Return m, w0) ->
  receive lib env handlers pid text w
  = match _handle_message handlers pid m w0 with
    | (Return _, w') => (Return true, w')
    | (Raise _, w') => (_disconnect_client lib env pid ;; ret false)%monad w'
    end.
Proof.
  intros Hd. unfold receive, bind. rewrite Hd. reflexivity.
Qed.

(** X8.  Messages nobody handles.  A well-formed message of one of the
    seven types that travel from the admin to the participants, or of the
    types [ping] and [pong], has no handler on the server, with or without
    the handlers of the admin application: the turn of the connection loop
    reads the clock once, for the decoding, and does nothing else; nothing
    is answered, and the connection stays open. *)
Theorem unhandled_types_are_skipped :
  forall (permission status_update : ServerHandlers.handler)
         (pid : string) (text : wire lib) (w w0 : World)
         (m : Protocol.Message),
    decode lib env text w = (Return m, w0) ->
    In (Protocol.type m)
       [Protocol.REGISTER_ACK; Protocol.CONFIG_UPDATE; Protocol.WARNING;
        Protocol.LOCK; Protocol.UNLOCK; Protocol.PERMISSION_RESPONSE;
        Protocol.EMERGENCY_LOCK; Protocol.PING; Protocol.PONG] ->
    receive lib env
      (AdminActions.install_handlers lib env permission
         (ServerHandlers.default_handlers lib env status_update))
      pid text w = (Return true, w0)
    /\ receive lib env
         (ServerHandlers.default_handlers lib env status_update)
         pid text w = (Return true, w0)
    /\ w0 = set_clock_reads (S (clock_reads w)) w.
Proof.
  intros permission status_update pid text w w0 m Hd Hin.
  split; [|split; [|now apply (decode_return text w w0 m)]];
    unfold receive, bind; rewrite Hd; unfold _handle_message;
    cbn in Hin; decompose [or] Hin; try contradiction;
    match goal with H : _ = Protocol.type m |- _ => rewrite <- H end;
    reflexivity.
Qed.

(** X10.  The registration handler of the server itself consults no roster:
    for any participant id and any dictionary payload it records the
    participant in [client_info], replacing an earlier entry, leaves the
    database alone and acknowledges with the status [registered]; when the
    write of the acknowledgement fails the new entry is marked as not
    connected.  Its heartbeat handler changes nothing for a participant
    without an entry in [client_info]. *)
Theorem default_register_accepts_anyone :
  forall (pid : string) (m : Protocol.Message) (payload : PyDict.t json)
         (ws : WebSocket) (w : World),
    Protocol.data m = JDict payload ->
    PyDict.get pid (connected_clients w) = Some ws ->
    let t0 := utcnow_at env (clock_reads w) in
    let t1 := utcnow_at env (S (clock_reads w)) in
    let t2 := utcnow_at env (S (S (clock_reads w))) in
    let ok := send_text_ok env (List.length (transport_log w)) in
    let entry :=
      [("name", PyDict.get_default "name" (JStr "") payload);
       ("computer_ip", PyDict.get_default "computer_ip" (JStr "") payload);
       ("computer_name",
        PyDict.get_default "computer_name" (JStr "") payload);
       ("registered_at", JStr (isoformat lib t0));
       ("connected", JBool true)] in
    exists w',
      ServerHandlers._handle_register lib env pid m w = (Return tt, w')
      /\ db w' = db w
      /\ PyDict.get pid (client_info w')
         = Some (if ok then entry
                 else PyDict.set "connected" (JBool false)
                        (PyDict.set "last_seen" (JStr (isoformat lib t2))
                           entry))
      /\ transport_log w'
         = (transport_log w
            ++ [mkDelivery ws
                  (Protocol.Message_init Protocol.REGISTER_ACK
                     (JDict [("status", JStr "registered");
                             ("participant_id", JStr pid)])
                     (JStr pid) None t1)
                  ok])%list
      /\ (forall pid' m',
            PyDict.get pid' (client_info w) = None ->
            ServerHandlers._handle_heartbeat lib env pid' m' w
            = (Return tt, w)).
Proof.
  intros pid m payload ws w Hp Hg t0 t1 t2 ok entry.
  assert (Hheart : forall pid' m',
            PyDict.get pid' (client_info w) = None ->
            ServerHandlers._handle_heartbeat lib env pid' m' w
            = (Return tt, w)).
  { intros pid' m' Hn. unfold ServerHandlers._handle_heartbeat.
    run_effects. now rewrite Hn. }
  unfold ServerHandlers._handle_register. rewrite Hp.
  cbn [AdminApp.payload_get]. run_effects.
  unfold new_message. run_effects.
  match goal with
  | |- context [bind (send_message lib env pid ?msg) _ ?w1] =>
      destruct (send_discarded lib env pid msg ws w1 Hg)
        as [w' [E [Ew [Hdb [Hl _]]]]]
  end.
  exists w'. split; [exact E|]. split; [exact Hdb|].
  split; [|split; [exact Hl|exact Hheart]].
  rewrite Ew. world_simpl. fold ok. destruct ok.
  - world_simpl. apply DictFacts.get_set_same.
  - rewrite disconnect_world. world_simpl.
    rewrite DictFacts.get_set_same. world_simpl.
    apply DictFacts.get_set_same.
Qed.
End Receive.

Lemma default_register_accepts_anyone_witness :
  exists w',
    ServerHandlers._handle_register model_lib steady_env "P1"
      (register_request "nobody") exam_world = (Return tt, w')
    /\ db w' = db exam_world.
Proof.
  destruct (default_register_accepts_anyone model_lib steady_env "P1"
              (register_request "nobody")
              [("name", JStr "nobody"); ("computer_ip", JStr "10.0.0.5");
               ("computer_name", JStr "LAB-05")]
              1%nat exam_world eq_refl eq_refl)
    as [w' [E [Hdb _]]].
  exists w'. split; assumption.
Defined.

Lemma unhandled_types_are_skipped_witness :
  receive model_lib steady_env
    (AdminActions.install_handlers model_lib steady_env
       (fun _ _ => ret tt)
       (ServerHandlers.default_handlers model_lib steady_env
          (fun _ _ => ret tt)))
    "P1" (Protocol.to_json model_lib ping) exam_world
  = (Return true, set_clock_reads 1 exam_world).
Proof.
  refine (proj1 (unhandled_types_are_skipped model_lib steady_env
                   (fun _ _ => ret tt) (fun _ _ => ret tt) "P1"
                   (Protocol.to_json model_lib ping) exam_world
                   (set_clock_reads 1 exam_world) ping _ _)).
  - reflexivity.
  - cbn. tauto.
Defined.

End ServerMore.

(* ================================================================== *)
(** * More on the persistence operations *)
(* ================================================================== *)

Module DatabaseMore.
Import Models.
Import DatabaseManager.

Lemma update_row_local (pid : string) (f : Participant -> Participant)
    (d : Database) (p : Participant) :
  query_participant pid d = Some p ->
  (forall q, participant_id (f q) = participant_id q) ->
  let d' := update_participant pid f d in
  query_participant pid d' = Some (f p)
  /\ (forall other, other <> pid ->
        query_participant other d' = query_participant other d)
  /\ map participant_id (participants d') = map participant_id (participants d)
  /\ violations d' = violations d
  /\ permission_requests d' = permission_requests d.
Proof.
  intros Hq Hf d'. split; [|split; [|split; [|split]]]; try reflexivity.
  - apply DatabaseFacts.query_update_participant; [exact Hq|apply Hf].
  - intros other Hne. unfold d', query_participant, update_participant.
    cbn [participants set_participants].
    induction (participants d) as [|x l IH]; cbn; [reflexivity|].
    destruct (participant_id x =? pid)%string eqn:E; cbn.
    + rewrite Hf. apply String.eqb_eq in E.
      destruct (participant_id x =? other)%string eqn:E'; [|reflexivity].
      apply String.eqb_eq in E'. congruence.
    + now rewrite IH.
  - unfold d', update_participant. cbn [participants set_participants].
    induction (participants d) as [|x l IH]; cbn; [reflexivity|].
    destruct (participant_id x =? pid)%string; cbn; [now rewrite Hf|].
    now rewrite IH.
Qed.

(** X11.  The four operations that change a row change one attribute of one
    row.  On a participant of the roster each of them returns, leaves the
    row with exactly the change it is named after, and leaves every other
    participant, the order of the roster, the violations, the permission
    requests, the registry and the transport untouched.  The score that is
    stored is the given one brought into the range from 0 to 100. *)
Theorem row_operations_are_local :
  forall (env : Env) (w : World) (pid : string) (p : Participant)
         (score : Z) (locked : bool),
    query_participant pid (db w) = Some p ->
    let now := utcnow_at env (clock_reads w) in
    let clamped := Z.max 0 (Z.min 100 score) in
    (forall (op : M unit) (f : Participant -> Participant),
        In (op, f)
           [(update_participant_heartbeat env pid, with_heartbeat now);
            (update_integrity_score pid score, with_integrity_score clamped);
            (increment_warning_count pid,
             fun q => with_warning_count (warning_count q + 1) q);
            (lock_participant pid locked, with_is_locked locked)] ->
        exists w',
          op w = (Return tt, w')
          /\ query_participant pid (db w') = Some (f p)
          /\ (forall other, other <> pid ->
                query_participant other (db w')
                = query_participant other (db w))
          /\ map participant_id (participants (db w'))
             = map participant_id (participants (db w))
          /\ violations (db w') = violations (db w)
          /\ permission_requests (db w') = permission_requests (db w)
          /\ connected_clients w' = connected_clients w
          /\ transport_log w' = transport_log w)
    /\ 0 <= clamped <= 100
    /\ (0 <= score <= 100 -> clamped = score).
Proof.
  intros env w pid p score locked Hq now clamped.
  split; [|subst clamped; lia].
  intros op f Hin.
  assert (Hrow : forall g, (forall q, participant_id (g q) = participant_id q)
            -> forall w0, db w0 = db w ->
            let w' := set_db (update_participant pid g (db w0)) w0 in
            query_participant pid (db w') = Some (g p)
            /\ (forall other, other <> pid ->
                  query_participant other (db w')
                  = query_participant other (db w))
            /\ map participant_id (participants (db w'))
               = map participant_id (participants (db w))
            /\ violations (db w') = violations (db w)
            /\ permission_requests (db w') = permission_requests (db w)
            /\ connected_clients w' = connected_clients w0
            /\ transport_log w' = transport_log w0).
  { intros g Hg w0 E0 w'. unfold w'. world_simpl. rewrite E0.
    destruct (update_row_local pid g (db w) p Hq Hg) as [A [B [C [D E]]]].
    repeat split; assumption. }
  cbn [In] in Hin. decompose [or] Hin; try contradiction;
    match goal with H : (_, _) = (op, f) |- _ => injection H as <- <- end.
  - unfold update_participant_heartbeat. run_effects. rewrite Hq.
    run_effects. eexists. split; [reflexivity|].
    apply (Hrow (with_heartbeat now) (fun _ => eq_refl)
             (set_clock_reads (S (clock_reads w)) w) eq_refl).
  - unfold update_integrity_score. run_effects. rewrite Hq.
    eexists. split; [reflexivity|].
    apply (Hrow (with_integrity_score clamped) (fun _ => eq_refl) w eq_refl).
  - unfold increment_warning_count. run_effects. rewrite Hq.
    eexists. split; [reflexivity|].
    apply (Hrow (fun q => with_warning_count (warning_count q + 1) q)
             (fun _ => eq_refl) w eq_refl).
  - unfold lock_participant. run_effects. rewrite Hq.
    eexists. split; [reflexivity|].
    apply (Hrow (with_is_locked locked) (fun _ => eq_refl) w eq_refl).
Qed.

Lemma row_operations_are_local_witness :
  exists w',
    lock_participant "P1" true exam_world = (Return tt, w')
    /\ option_map is_locked (query_participant "P1" (db w')) = Some true.
Proof.
  destruct (proj1 (row_operations_are_local steady_env exam_world "P1"
                     (roster_entry 1 "P1" "Budi" 7) 100 true eq_refl)
              (lock_participant "P1" true) (with_is_locked true))
    as [w' [E [Hq _]]].
  - cbn. tauto.
  - exists w'. split; [exact E|]. now rewrite Hq.
Defined.

Lemma next_id_above (ids : list Z) (x : Z) :
  In x ids -> x < next_id ids.
Proof.
  unfold next_id. induction ids as [|y ids IH]; cbn [fold_right In];
    [intros []|].
  intros [->|H]; [lia|]. specialize (IH H). lia.
Qed.

Lemma next_id_fresh (ids : list Z) : ~ In (next_id ids) ids.
Proof. intros H. apply next_id_above in H. lia. Qed.

Lemma next_id_positive (ids : list Z) : 0 < next_id ids.
Proof.
  unfold next_id. assert (0 <= fold_right Z.max 0 ids); [|lia].
  induction ids; cbn [fold_right]; lia.
Qed.

Lemma map_id_update_first (test : Participant -> bool)
    (f : Participant -> Participant) (l : list Participant) :
  (forall q, id (f q) = id q) ->
  map id (update_first test f l) = map id l.
Proof.
  intros Hf. induction l as [|y l IH]; cbn; [reflexivity|].
  destruct (test y); cbn; [now rewrite Hf|now rewrite IH].
Qed.

Lemma counted_rows (x : Participant) (test : Participant -> bool)
    (cnt : Z -> Z) (l : list Participant) :
  NoDup (map id l) ->
  find test l = Some x ->
  Forall (fun q => violation_count q = cnt (id q)) l ->
  Forall (fun q => violation_count q
                   = cnt (id q) + (if id x =? id q then 1 else 0))
         (update_first test
            (fun q => with_violation_count (violation_count q + 1) q) l).
Proof.
  induction l as [|h l IH]; cbn; [discriminate|].
  intros Hnd Hfind Hall.
  inversion Hnd as [|? ? Hout Hnd']; subst.
  inversion Hall as [|? ? Hh Hl]; subst.
  destruct (test h) eqn:E.
  - injection Hfind as <-. constructor.
    + cbn [violation_count with_violation_count id]. rewrite Z.eqb_refl.
      lia.
    + assert (Hne : Forall (fun q => id h <> id q) l).
      { apply Forall_forall. intros q Hq Eq. apply Hout. rewrite Eq.
        now apply in_map. }
      eapply Forall_impl; [|exact (Forall_and Hl Hne)].
      intros q [Hq Hn]. cbn beta in Hq. rewrite Hq.
      destruct (id h =? id q) eqn:Eq; [|lia].
      apply Z.eqb_eq in Eq. contradiction.
  - constructor; [|now apply IH].
    destruct (id x =? id h) eqn:Eq; [|lia].
    apply Z.eqb_eq in Eq. exfalso. apply Hout. rewrite <- Eq.
    apply in_map. apply find_some in Hfind. tauto.
Qed.

Lemma create_violation_effect (env : Env) (w : World) (pid : string)
    (p : Participant) (session_id : Z) (vt : ViolationType)
    (sev : ViolationSeverity) (text : json) :
  query_participant pid (db w) = Some p ->
  let v := mkViolation (next_id (map v_id (violations (db w)))) (id p)
             session_id vt sev text (utcnow_at env (clock_reads w))
             false None None in
  create_violation env pid session_id vt sev text w
  = (Return v,
     set_db (update_participant pid
               (fun q => with_violation_count (violation_count q + 1) q)
               (set_violations (violations (db w) ++ [v])%list (db w)))
            (set_clock_reads (S (clock_reads w)) w)).
Proof.
  intros Hq v. unfold create_violation. run_effects. rewrite Hq.
  run_effects. reflexivity.
Qed.

(** X12.  Recording a violation.  For a participant of the roster, a
    session key of 64 bits and a description that is a string or [None],
    [create_violation] returns the new row: it carries a key no stored violation has, the key of the
    participant's row, the session, type, severity and description given,
    the time of the call, and is unresolved.  It is appended to the table,
    the participant's violation counter goes up by one and no other
    participant changes.  Distinct keys of the violations stay distinct,
    and when every row of the roster counted the violations stored for it
    before the call, it does so after. *)
Theorem create_violation_bookkeeping :
  forall (env : Env) (w : World) (pid : string) (p : Participant)
         (session_id : Z) (vt : ViolationType) (sev : ViolationSeverity)
         (text : json),
    query_participant pid (db w) = Some p ->
    DatabaseQueries.sqlite_integer session_id = true ->
    DatabaseQueries.text_or_none text = true ->
    let v := mkViolation (next_id (map v_id (violations (db w)))) (id p)
               session_id vt sev text (utcnow_at env (clock_reads w))
               false None None in
    exists w',
      create_violation env pid session_id vt sev text w = (Return v, w')
      /\ violations (db w') = (violations (db w) ++ [v])%list
      /\ ~ In (v_id v) (map v_id (violations (db w)))
      /\ (NoDup (map v_id (violations (db w))) ->
          NoDup (map v_id (violations (db w'))))
      /\ query_participant pid (db w')
         = Some (with_violation_count (violation_count p + 1) p)
      /\ (forall other, other <> pid ->
            query_participant other (db w') = query_participant other (db w))
      /\ permission_requests (db w') = permission_requests (db w)
      /\ (Roster.counted (db w) -> Roster.counted (db w')).
Proof.
  intros env w pid p session_id vt sev text Hq _ _ v.
  unfold create_violation. run_effects. rewrite Hq. run_effects.
  fold v. eexists. split; [reflexivity|]. world_simpl.
  set (d1 := set_violations (violations (db w) ++ [v])%list (db w)).
  assert (Hq1 : query_participant pid d1 = Some p) by exact Hq.
  destruct (update_row_local pid
              (fun q => with_violation_count (violation_count q + 1) q)
              d1 p Hq1 (fun _ => eq_refl)) as [A [B [C [D E]]]].
  split; [exact D|].
  split; [apply next_id_fresh|].
  split.
  { intros Hnd. rewrite D. unfold d1. cbn [violations set_violations].
    rewrite map_app.
    apply NoDup_app; [exact Hnd|repeat constructor; intros []|].
    intros x Hx [<-|[]]. revert Hx. apply next_id_fresh. }
  split; [exact A|]. split; [exact B|]. split; [exact E|].
  intros [Hnd Hall]. unfold Roster.counted. split.
  - unfold update_participant, d1. cbn [participants set_participants].
    now rewrite map_id_update_first.
  - pose proof (counted_rows p
                  (fun q => (participant_id q =? pid)%string)
                  (fun k => Z.of_nat
                              (List.length
                                 (filter (fun v => v_participant_id v =? k)
                                         (violations (db w)))))
                  (participants (db w)) Hnd Hq Hall) as H.
    unfold update_participant. cbn [participants set_participants d1].
    eapply Forall_impl; [|exact H].
    intros q Hc. cbn beta in Hc. rewrite Hc. unfold Roster.violations_of.
    unfold d1. cbn [violations set_violations set_participants].
    rewrite filter_app, length_app, Nat2Z.inj_add. unfold v.
    cbn [filter v_participant_id].
    destruct (id p =? id q); cbn [List.length]; lia.
Qed.

Lemma create_violation_bookkeeping_witness :
  exists w',
    create_violation steady_env "P1" 7 APPLICATION_BLOCKED MEDIUM
      (JStr "game.exe") exam_world
    = (Return (mkViolation 1 1 7 APPLICATION_BLOCKED MEDIUM
                 (JStr "game.exe") 0 false None None), w')
    /\ option_map violation_count (query_participant "P1" (db w')) = Some 1.
Proof.
  destruct (create_violation_bookkeeping steady_env exam_world "P1"
              (roster_entry 1 "P1" "Budi" 7) 7 APPLICATION_BLOCKED MEDIUM
              (JStr "game.exe") eq_refl eq_refl eq_refl)
    as [w' [E [_ [_ [_ [Hq _]]]]]].
  exists w'. split; [exact E|]. now rewrite Hq.
Defined.

(** X13.  Looking up a permission.  For an id that is not in the roster
    [get_active_permission] returns [None] without reading the clock.  For
    a participant of the roster it reads the clock once and changes nothing
    else, and it never returns a request.  The query selects the requests
    of the participant whose stored status is the string ['approved'] and
    that expire after the reading: when there is one, reading it raises a
    [LookupError], as that string is the name of no member of the
    enumeration; when there is none, the result is [None].  So the result
    is [None] whenever every stored status is the name of a member, as it
    is for a request stored with the member [APPROVED]. *)
Theorem active_permission_lookup :
  forall (env : Env) (w : World) (pid : string),
    (query_participant pid (db w) = None ->
     get_active_permission env pid w = (Return None, w))
    /\ (forall p,
          query_participant pid (db w) = Some p ->
          let now := utcnow_at env (clock_reads w) in
          let selected r :=
            In r (permission_requests (db w))
            /\ r_participant_id r = id p
            /\ status r = "approved"
            /\ exists e, expires_at r = Some e /\ now < e in
          exists outcome,
            get_active_permission env pid w
            = (outcome, set_clock_reads (S (clock_reads w)) w)
            /\ (outcome = Raise (LookupError "permissionstatus" "approved")
                <-> exists r, selected r)
            /\ (outcome = Return None <-> forall r, ~ selected r)
            /\ ((forall r, In r (permission_requests (db w)) ->
                           exists member,
                             status r = PermissionStatus_name member) ->
                outcome = Return None))
    /\ (forall r, fst (get_active_permission env pid w) <> Return (Some r)).
Proof.
  intros env w pid. split; [|split].
  - intros Hq. rewrite DatabaseFacts.get_active_permission_outcome.
    now rewrite Hq.
  - intros p Hq now selected.
    rewrite DatabaseFacts.get_active_permission_outcome, Hq. fold now.
    assert (Ha : forall r,
              In r (permission_requests (db w))
              /\ is_active_for p now r = true <-> selected r).
    { intros r. unfold selected, is_active_for. split.
      - intros [Hin H].
        apply andb_prop in H. destruct H as [H He].
        apply andb_prop in H. destruct H as [Hk Hs].
        split; [exact Hin|]. split; [now apply Z.eqb_eq|].
        split; [now apply String.eqb_eq|].
        destruct (expires_at r) as [e|]; [|discriminate].
        exists e. split; [reflexivity|now apply Z.ltb_lt].
      - intros [Hin [Hk [Hs [e [He Hlt]]]]]. split; [exact Hin|].
        rewrite Hk, Z.eqb_refl, Hs, He. cbn [andb String.eqb].
        now apply Z.ltb_lt. }
    assert (Hex : existsb (is_active_for p now) (permission_requests (db w))
                  = true <-> exists r, selected r).
    { rewrite existsb_exists.
      split; intros [r H]; exists r; now apply Ha. }
    eexists. split; [reflexivity|].
    destruct (existsb (is_active_for p now) (permission_requests (db w))).
    + destruct (proj1 Hex eq_refl) as [r Hr].
      split; [split; [intros _; now exists r|reflexivity]|].
      split.
      * split; [discriminate|]. intros H. now elim (H r).
      * intros Hm. exfalso.
        destruct Hr as [Hin [_ [Hs _]]].
        destruct (Hm r Hin) as [member E]. rewrite Hs in E.
        now destruct member.
    + assert (Hno : forall r, ~ selected r).
      { intros r Hr.
        assert (false = true) by (apply Hex; now exists r).
        discriminate. }
      split.
      * split; [discriminate|]. intros [r Hr]. now elim (Hno r).
      * split; [split; [intros _; exact Hno|reflexivity]|reflexivity].
  - intros r. apply DatabaseFacts.get_active_permission_never_returns.
Qed.

Lemma active_permission_lookup_witness :
  get_active_permission steady_env "P1" two_permissions_world
  = (Return None, set_clock_reads 1 two_permissions_world).
Proof.
  destruct (proj1 (proj2 (active_permission_lookup steady_env
                            two_permissions_world "P1"))
              (roster_entry 1 "P1" "Budi" 7) eq_refl)
    as [outcome [E [_ [_ H]]]].
  rewrite E. f_equal. apply H.
  intros r [<-|[<-|[]]]; now exists APPROVED.
Defined.

Lemma In_insert_desc (v x : Violation) (l : list Violation) :
  In x (DatabaseQueries.insert_desc v l) <-> x = v \/ In x l.
Proof.
  induction l as [|y l IH]; cbn; [intuition|].
  destruct (v_timestamp y <=? v_timestamp v); cbn; [intuition|].
  rewrite IH. intuition.
Qed.

Lemma In_order_by (x : Violation) (l : list Violation) :
  In x (DatabaseQueries.order_by_timestamp_desc l) <-> In x l.
Proof.
  unfold DatabaseQueries.order_by_timestamp_desc.
  induction l as [|y l IH]; cbn [fold_right In]; [tauto|].
  rewrite In_insert_desc, IH. intuition.
Qed.

Lemma sorted_insert_desc (v : Violation) (l : list Violation) :
  StronglySorted (fun a b => v_timestamp b <= v_timestamp a) l ->
  StronglySorted (fun a b => v_timestamp b <= v_timestamp a)
                 (DatabaseQueries.insert_desc v l).
Proof.
  induction l as [|y l IH]; cbn; intros H.
  - repeat constructor.
  - inversion H as [|? ? Hs Hf]; subst.
    destruct (v_timestamp y <=? v_timestamp v) eqn:E.
    + apply Z.leb_le in E. constructor; [exact H|].
      constructor; [exact E|].
      eapply Forall_impl; [|exact Hf]. cbn beta. intros; lia.
    + apply Z.leb_gt in E. constructor; [now apply IH|].
      apply Forall_forall. intros x Hx. apply In_insert_desc in Hx.
      destruct Hx as [->|Hx]; [lia|].
      now apply (proj1 (Forall_forall _ _) Hf).
Qed.

Lemma sorted_order_by (l : list Violation) :
  StronglySorted (fun a b => v_timestamp b <= v_timestamp a)
                 (DatabaseQueries.order_by_timestamp_desc l).
Proof.
  unfold DatabaseQueries.order_by_timestamp_desc.
  induction l; cbn [fold_right]; [constructor|now apply sorted_insert_desc].
Qed.

Lemma In_firstn {A} (n : nat) (l : list A) (x : A) :
  In x (firstn n l) -> In x l.
Proof.
  revert l. induction n as [|n IH]; intros [|y l]; cbn; try tauto.
  intros [->|H]; [now left|right; now apply IH].
Qed.

Lemma sorted_firstn {A} (R : A -> A -> Prop) (n : nat) (l : list A) :
  StronglySorted R l -> StronglySorted R (firstn n l).
Proof.
  revert l. induction n as [|n IH]; intros [|y l] H; cbn; try constructor.
  - inversion H; subst. now apply IH.
  - inversion H as [|? ? _ Hf]; subst. apply Forall_forall.
    intros x Hx. apply In_firstn in Hx.
    now apply (proj1 (Forall_forall _ _) Hf).
Qed.

(** X14.  Listing violations.  [get_violations] changes nothing and returns
    stored violations, the newest first and at most [limit] of them when
    the limit is not negative.  With the id of a participant of the roster
    every row returned is that participant's, and with a session every row
    is of that session; without a limit every stored row that passes the
    filters is returned.  With an id that is not in the roster the filter
    on the participant is dropped: the call returns what it returns without
    an id, the violations of everybody. *)
Theorem get_violations_result :
  forall (w : World) (participant : option string) (session_id : option Z)
         (limit : Z),
    exists rows,
      DatabaseQueries.get_violations participant session_id limit w
      = (Return rows, w)
      /\ (forall v, In v rows -> In v (violations (db w)))
      /\ StronglySorted (fun a b => v_timestamp b <= v_timestamp a) rows
      /\ (0 <= limit -> Z.of_nat (List.length rows) <= limit)
      /\ (forall pid p,
            participant = Some pid -> pid <> "" ->
            query_participant pid (db w) = Some p ->
            forall v, In v rows -> v_participant_id v = id p)
      /\ (forall s,
            session_id = Some s -> s <> 0 ->
            forall v, In v rows -> v_exam_session_id v = s)
      /\ (limit < 0 ->
          forall v, In v rows
                    <-> In v (DatabaseQueries.violations_query participant
                                session_id (db w)))
      /\ (forall pid,
            participant = Some pid ->
            query_participant pid (db w) = None ->
            DatabaseQueries.get_violations participant session_id limit w
            = DatabaseQueries.get_violations None session_id limit w).
Proof.
  intros w participant session_id limit.
  eexists. split; [reflexivity|].
  set (q := DatabaseQueries.violations_query participant session_id (db w)).
  assert (Hrows : forall v,
            In v (DatabaseQueries.limit_rows limit
                    (DatabaseQueries.order_by_timestamp_desc q)) ->
            In v q).
  { intros v. unfold DatabaseQueries.limit_rows.
    destruct (limit <? 0); intros H; [|apply In_firstn in H];
      now apply In_order_by. }
  assert (Hq : forall v, In v q ->
            In v (violations (db w))
            /\ (forall pid p, participant = Some pid -> pid <> "" ->
                  query_participant pid (db w) = Some p ->
                  v_participant_id v = id p)
            /\ (forall s, session_id = Some s -> s <> 0 ->
                  v_exam_session_id v = s)).
  { intros v. unfold q, DatabaseQueries.violations_query.
    set (by_participant := match participant with
                           | Some _ => _ | None => _ end).
    assert (Hb : In v by_participant ->
              In v (violations (db w))
              /\ (forall pid p, participant = Some pid -> pid <> "" ->
                    query_participant pid (db w) = Some p ->
                    v_participant_id v = id p)).
    { unfold by_participant. destruct participant as [pid|].
      - destruct (pid =? "")%string eqn:Ee.
        + apply String.eqb_eq in Ee. intros H. split; [exact H|].
          intros pid' p [= <-] Hne. contradiction.
        + destruct (query_participant pid (db w)) as [p|] eqn:Ep.
          * intros H. apply filter_In in H. destruct H as [H1 H2].
            split; [exact H1|]. intros pid' p' [= <-] _ E.
            rewrite Ep in E. injection E as <-. now apply Z.eqb_eq.
          * intros H. split; [exact H|]. intros pid' p' [= <-] _ E.
            rewrite Ep in E. discriminate.
      - intros H. split; [exact H|]. discriminate. }
    destruct session_id as [s|].
    - destruct (s =? 0) eqn:Es.
      + apply Z.eqb_eq in Es. intros H. destruct (Hb H) as [A B].
        split; [exact A|]. split; [exact B|]. intros s' [= <-] Hne.
        contradiction.
      + intros H. apply filter_In in H. destruct H as [H1 H2].
        destruct (Hb H1) as [A B]. split; [exact A|]. split; [exact B|].
        intros s' [= <-] _. now apply Z.eqb_eq.
    - intros H. destruct (Hb H) as [A B]. split; [exact A|].
      split; [exact B|]. discriminate. }
  split; [intros v Hv; now apply Hq, Hrows|].
  split.
  { unfold DatabaseQueries.limit_rows. destruct (limit <? 0).
    - apply sorted_order_by.
    - apply sorted_firstn, sorted_order_by. }
  split.
  { intros Hl. unfold DatabaseQueries.limit_rows.
    destruct (limit <? 0) eqn:E; [apply Z.ltb_lt in E; lia|].
    pose proof (firstn_le_length (Z.to_nat limit)
                  (DatabaseQueries.order_by_timestamp_desc q)). lia. }
  split; [intros pid p Hp Hne Hqp v Hv;
          now apply (proj1 (proj2 (Hq v (Hrows v Hv))) pid p)|].
  split; [intros s Hs Hne v Hv;
          now apply (proj2 (proj2 (Hq v (Hrows v Hv))) s)|].
  split.
  { intros Hl v. unfold DatabaseQueries.limit_rows.
    apply Z.ltb_lt in Hl. rewrite Hl. apply In_order_by. }
  intros pid -> Hn. unfold DatabaseQueries.get_violations, gets.
  unfold DatabaseQueries.violations_query. rewrite Hn.
  now destruct (pid =? "")%string.
Qed.

Lemma get_violations_result_witness :
  DatabaseQueries.get_violations (Some "P9") None 100
    (after_reports 2 exam_world)
  = DatabaseQueries.get_violations None None 100 (after_reports 2 exam_world).
Proof.
  destruct (get_violations_result (after_reports 2 exam_world) (Some "P9")
              None 100) as [rows [_ [_ [_ [_ [_ [_ [_ H]]]]]]]].
  apply (H "P9"); reflexivity.
Defined.

End DatabaseMore.

(* ================================================================== *)
(** * What the handlers keep of the roster *)
(* ================================================================== *)

Module RosterFacts.
Import Models.
Import Roster.

Lemma grows_refl (p : Participant) : grows p p.
Proof.
  unfold grows.
  split; [|split; [|split; [|split; [|split; [|split; [|split]]]]]];
    try reflexivity; try lia. auto.
Qed.

Lemma grows_trans (p q r : Participant) :
  grows p q -> grows q r -> grows p r.
Proof.
  unfold grows.
  intros (A1 & A2 & A3 & A4 & A5 & A6 & A7 & A8)
         (B1 & B2 & B3 & B4 & B5 & B6 & B7 & B8).
  split; [|split; [|split; [|split; [|split; [|split; [|split]]]]]];
    try congruence; try lia. auto.
Qed.

Lemma Forall2_grows_refl (l : list Participant) : Forall2 grows l l.
Proof. induction l; constructor; auto using grows_refl. Qed.

Lemma Forall2_grows_trans (l1 l2 l3 : list Participant) :
  Forall2 grows l1 l2 -> Forall2 grows l2 l3 -> Forall2 grows l1 l3.
Proof.
  intros H. revert l3. induction H; intros l3 H3; inversion H3; subst;
    constructor; eauto using grows_trans.
Qed.

Lemma Forall2_update_first (test : Participant -> bool)
    (f : Participant -> Participant) (l : list Participant) :
  (forall p, grows p (f p)) ->
  Forall2 grows l (DatabaseManager.update_first test f l).
Proof.
  intros Hf. induction l as [|x l IH]; cbn; [constructor|].
  destruct (test x); constructor; auto using grows_refl, Forall2_grows_refl.
Qed.

Lemma roster_grows_same_db (w w' : World) :
  db w' = db w -> roster_grows w w'.
Proof.
  intros E. unfold roster_grows. rewrite E. apply Forall2_grows_refl.
Qed.

Lemma roster_grows_trans (w1 w2 w3 : World) :
  roster_grows w1 w2 -> roster_grows w2 w3 -> roster_grows w1 w3.
Proof. apply Forall2_grows_trans. Qed.

Lemma keeps_bind {A B} (c : M A) (k : A -> M B) :
  keeps roster_grows c -> (forall a, keeps roster_grows (k a)) ->
  keeps roster_grows (bind c k).
Proof.
  intros Hc Hk w. unfold bind. specialize (Hc w).
  destruct (c w) as [[a|e] w1]; cbn [snd] in *; [|exact Hc].
  eapply roster_grows_trans; [exact Hc|apply Hk].
Qed.

Lemma keeps_same_participants {A} (c : M A) :
  (forall w, participants (db (snd (c w))) = participants (db w)) ->
  keeps roster_grows c.
Proof.
  intros H w. unfold roster_grows. rewrite H. apply Forall2_grows_refl.
Qed.

Lemma keeps_same_db {A} (c : M A) :
  (forall w, db (snd (c w)) = db w) -> keeps roster_grows c.
Proof. intros H w. apply roster_grows_same_db, H. Qed.

Lemma keeps_ret {A} (a : A) : keeps roster_grows (ret a).
Proof. now apply keeps_same_db. Qed.

Lemma keeps_raise {A} (e : exc) : keeps roster_grows (@raise A e).
Proof. now apply keeps_same_db. Qed.

Lemma keeps_lift {A} (r : result A) : keeps roster_grows (lift r).
Proof. now apply keeps_same_db. Qed.

Lemma keeps_gets {A} (f : World -> A) : keeps roster_grows (gets f).
Proof. now apply keeps_same_db. Qed.

Lemma keeps_utcnow (env : Env) : keeps roster_grows (utcnow env).
Proof. now apply keeps_same_db. Qed.

Lemma keeps_new_message (env : Env) (t : Protocol.MessageType)
    (body pid : json) :
  keeps roster_grows (new_message env t body pid).
Proof. now apply keeps_same_db. Qed.

Lemma keeps_update_participant (pid : string)
    (f : Participant -> Participant) :
  (forall p, grows p (f p)) ->
  keeps roster_grows
    (modify (fun w =>
       set_db (DatabaseManager.update_participant pid f (db w)) w)).
Proof.
  intros Hf w. unfold roster_grows. cbn. now apply Forall2_update_first.
Qed.

Ltac grows_row :=
  intros ?; unfold grows; cbn;
  split; [|split; [|split; [|split; [|split; [|split; [|split]]]]]];
  try reflexivity; try lia; auto.

Section Handlers.
Variable lib : PyLib.
Variable env : Env.

Lemma keeps_disconnect (pid : string) :
  keeps roster_grows (ProctoringServer._disconnect_client lib env pid).
Proof.
  apply keeps_same_db. intros w.
  destruct (ServerFacts.disconnect_effect lib env pid w) as [w' [E [_ [_ H]]]].
  now rewrite E.
Qed.

Lemma keeps_send_message (pid : string) (m : Protocol.Message) :
  keeps roster_grows (ProctoringServer.send_message lib env pid m).
Proof.
  unfold ProctoringServer.send_message.
  apply keeps_bind; [apply keeps_gets|intros clients].
  destruct (PyDict.get pid clients); [|apply keeps_ret].
  apply keeps_bind; [now apply keeps_same_db|intros []].
  - apply keeps_ret.
  - apply keeps_bind; [apply keeps_disconnect|intros _; apply keeps_ret].
Qed.

Ltac keeps_step :=
  first
    [ apply keeps_ret | apply keeps_raise | apply keeps_lift
    | apply keeps_gets | apply keeps_utcnow | apply keeps_new_message
    | apply keeps_send_message | apply keeps_disconnect
    | apply keeps_update_participant; grows_row
    | apply keeps_bind; [|intros ?]
    | match goal with
      | |- keeps _ (match ?x with _ => _ end) => destruct x
      end ].

Lemma keeps_row_operations (pid : string) (score : Z) (locked : bool) :
  keeps roster_grows (DatabaseManager.update_participant_heartbeat env pid)
  /\ keeps roster_grows (DatabaseManager.update_integrity_score pid score)
  /\ keeps roster_grows (DatabaseManager.increment_warning_count pid)
  /\ keeps roster_grows (DatabaseManager.lock_participant pid locked).
Proof.
  unfold DatabaseManager.update_participant_heartbeat,
    DatabaseManager.update_integrity_score,
    DatabaseManager.increment_warning_count,
    DatabaseManager.lock_participant.
  split; [|split; [|split]]; repeat keeps_step.
Qed.

Lemma keeps_create_violation (pid : string) (session_id : Z)
    (vt : ViolationType) (sev : ViolationSeverity) (text : json) :
  keeps roster_grows
    (DatabaseManager.create_violation env pid session_id vt sev text).
Proof.
  intros w. unfold DatabaseManager.create_violation. run_effects.
  destruct (DatabaseManager.query_participant pid (db w)).
  - run_effects. unfold roster_grows. cbn.
    apply Forall2_update_first. grows_row.
  - apply roster_grows_same_db. reflexivity.
Qed.

Lemma keeps_create_permission_request (pid : string) (kind : json)
    (duration : Z) (reason : json) :
  keeps roster_grows
    (DatabaseManager.create_permission_request env pid kind duration reason).
Proof.
  intros w. unfold DatabaseManager.create_permission_request. run_effects.
  destruct (DatabaseManager.query_participant pid (db w));
    apply roster_grows_same_db; reflexivity.
Qed.

Lemma keeps_approve (rid : Z) :
  keeps roster_grows (DatabaseManager.approve_permission_request env rid).
Proof.
  unfold DatabaseManager.approve_permission_request.
  repeat keeps_step; now apply keeps_same_participants.
Qed.

Lemma keeps_register (pid : string) (m : Protocol.Message) :
  keeps roster_grows (AdminApp._handle_register_async lib env pid m).
Proof.
  unfold AdminApp._handle_register_async, AdminApp.reply_ack,
    DatabaseManager.get_participant.
  repeat keeps_step.
  intros w. unfold roster_grows. cbn.
  apply Forall2_update_first. grows_row.
Qed.

Lemma keeps_violation_report (pid : string) (m : Protocol.Message) :
  keeps roster_grows (AdminApp._handle_violation_report lib env pid m).
Proof.
  destruct (keeps_row_operations pid 0 true) as [_ [_ [Hw Hl]]].
  unfold AdminApp._handle_violation_report, AdminApp._handle_violation_auto,
    AdminApp._update_integrity_score, DatabaseManager.get_participant.
  repeat first [ apply keeps_create_violation | exact Hw | exact Hl
               | keeps_step ].
Qed.

Lemma keeps_violation_report_in (running : bool) (pid : string)
    (m : Protocol.Message) :
  keeps roster_grows
    (AdminActions._handle_violation_report lib env running pid m).
Proof.
  destruct (keeps_row_operations pid 0 true) as [_ [_ [Hw Hl]]].
  unfold AdminActions._handle_violation_report,
    AdminActions._handle_violation_auto, AdminActions.run_until_complete,
    AdminApp._update_integrity_score, DatabaseManager.get_participant.
  repeat first [ apply keeps_create_violation | exact Hw | exact Hl
               | keeps_step ].
Qed.

Lemma keeps_permission_request (approves : bool) (pid : string)
    (kind : json) (duration : Z) (reason : json) :
  keeps roster_grows
    (AdminActions._handle_permission_request lib env approves pid kind
       duration reason).
Proof.
  unfold AdminActions._handle_permission_request,
    AdminActions.run_until_complete.
  repeat first [ apply keeps_create_permission_request | apply keeps_approve
               | keeps_step ].
Qed.

(** In the thread of the server the handling of a report writes to no
    connection. *)
Lemma quiet_bind {A B} (c : M A) (k : A -> M B) :
  keeps same_transport c -> (forall a, keeps same_transport (k a)) ->
  keeps same_transport (bind c k).
Proof.
  intros Hc Hk w. unfold bind. specialize (Hc w).
  destruct (c w) as [[a|e] w1]; cbn [snd] in *; [|exact Hc].
  unfold same_transport in *. rewrite <- Hc. apply Hk.
Qed.

Lemma quiet_report_in_loop (pid : string) (m : Protocol.Message) :
  keeps same_transport
    (AdminActions._handle_violation_report lib env true pid m).
Proof.
  unfold AdminActions._handle_violation_report,
    AdminActions._handle_violation_auto, AdminActions.run_until_complete,
    AdminApp._update_integrity_score, DatabaseManager.get_participant,
    DatabaseManager.create_violation,
    DatabaseManager.increment_warning_count.
  repeat first
    [ apply quiet_bind; [|intros ?]
    | match goal with
      | |- keeps _ (match ?x with _ => _ end) => destruct x
      end
    | intros ?; reflexivity ].
Qed.

Lemma keeps_receive (table : ServerHandlers.handlers) (pid : string)
    (text : wire lib) :
  (forall t h, table t = Some h ->
               forall pid m, keeps roster_grows (h pid m)) ->
  keeps roster_grows (ProctoringServer.receive lib env table pid text).
Proof.
  intros Htable w. unfold ProctoringServer.receive.
  assert (H : keeps roster_grows
                (m <- ProctoringServer.decode lib env text ;;
                 ProctoringServer._handle_message table pid m)%monad).
  { apply keeps_bind.
    - apply keeps_same_db. intros w0. unfold ProctoringServer.decode. cbn.
      now destruct (match _ with Return _ => true | Raise _ => false end).
    - intros m. unfold ProctoringServer._handle_message.
      destruct (table (Protocol.type m)) eqn:E; [|apply keeps_ret].
      now apply (Htable _ _ E). }
  specialize (H w).
  destruct ((m <- ProctoringServer.decode lib env text ;;
             ProctoringServer._handle_message table pid m)%monad w)
    as [[a|e] w1]; cbn [snd] in *; [exact H|].
  eapply roster_grows_trans; [exact H|].
  apply (keeps_bind (ProctoringServer._disconnect_client lib env pid)
           (fun _ => ret false)); [apply keeps_disconnect|].
  intros _. apply keeps_ret.
Qed.

(** X15.  No message can take anything from the roster.  Whatever a
    participant sends, the handlers of the admin application leave every
    row of the roster in its place with the same key, participant id, name,
    session and joining time; no warning or violation counter goes down and
    no active row becomes inactive.  The same holds of a whole turn of the
    connection loop over any table of handlers that keep it, whether the
    turn ends normally or with the connection closed. *)
Theorem handlers_keep_roster :
  (forall pid m,
      keeps roster_grows (AdminApp._handle_register_async lib env pid m)
      /\ keeps roster_grows (AdminApp._handle_heartbeat_async env pid m)
      /\ keeps roster_grows (AdminApp._handle_violation_report lib env pid m)
      /\ keeps roster_grows
           (AdminActions._handle_violation_report_async lib env pid m))
  /\ (forall approves pid kind duration reason,
         keeps roster_grows
           (AdminActions._handle_permission_request lib env approves pid
              kind duration reason))
  /\ (forall table pid text,
         (forall t h, table t = Some h ->
                      forall pid m, keeps roster_grows (h pid m)) ->
         keeps roster_grows (ProctoringServer.receive lib env table pid text))
  /\ (forall w w',
         roster_grows w w' ->
         map participant_id (participants (db w'))
         = map participant_id (participants (db w))
         /\ forall pid p,
              DatabaseManager.query_participant pid (db w) = Some p ->
              exists p',
                DatabaseManager.query_participant pid (db w') = Some p'
                /\ grows p p').
Proof.
  split; [|split; [|split]].
  - intros pid m. split; [apply keeps_register|].
    split; [apply (keeps_row_operations pid 0 true)|].
    split; [apply keeps_violation_report|].
    unfold AdminActions._handle_violation_report_async.
    apply keeps_bind; [apply keeps_violation_report_in|intros _].
    apply keeps_raise.
  - apply keeps_permission_request.
  - intros table pid text H. now apply keeps_receive.
  - intros w w' H. unfold roster_grows in H. split.
    + induction H as [|p p' l l' Hp _ IH]; cbn; [reflexivity|].
      f_equal; [apply Hp|exact IH].
    + intros pid p. unfold DatabaseManager.query_participant.
      induction H as [|q q' l l' Hq _ IH]; cbn; [discriminate|].
      assert (E : participant_id q' = participant_id q) by apply Hq.
      rewrite E. destruct (participant_id q =? pid)%string.
      * intros [= <-]. now exists q'.
      * exact IH.
Qed.
End Handlers.

Lemma handlers_keep_roster_witness :
  Roster.keeps Roster.roster_grows
    (ProctoringServer.receive model_lib steady_env
       (fun t => Some (AdminApp._handle_register_async model_lib steady_env))
       "P1" (Protocol.to_json model_lib (register_request "budi"))).
Proof.
  apply (proj1 (proj2 (proj2 (handlers_keep_roster model_lib steady_env)))).
  intros t h [= <-] pid m.
  apply (proj1 (handlers_keep_roster model_lib steady_env) pid m).
Defined.

End RosterFacts.

(* ================================================================== *)
(** * Exam sessions *)
(* ================================================================== *)

Module ExamSessionFacts.
Import ExamSessions.

Lemma find_app {A} (f : A -> bool) (l l' : list A) :
  find f (l ++ l')
  = match find f l with Some x => Some x | None => find f l' end.
Proof.
  induction l as [|x l IH]; cbn; [reflexivity|]. now destruct (f x).
Qed.

Lemma map_update_first {A B} (g : A -> B) (test : A -> bool) (f : A -> A)
    (l : list A) :
  (forall x, g (f x) = g x) ->
  map g (DatabaseManager.update_first test f l) = map g l.
Proof.
  intros Hf. induction l as [|y l IH]; cbn; [reflexivity|].
  destruct (test y); cbn; [now rewrite Hf|now rewrite IH].
Qed.

Lemma NoDup_map_inj {A B} (g : A -> B) (l : list A) (a b : A) :
  NoDup (map g l) -> In a l -> In b l -> g a = g b -> a = b.
Proof.
  induction l as [|x l IH]; cbn; [intros _ []|].
  intros Hnd Ha Hb E. inversion Hnd as [|? ? Hout Hnd']; subst.
  destruct Ha as [->|Ha], Hb as [->|Hb]; try reflexivity.
  - exfalso. apply Hout. rewrite E. now apply in_map.
  - exfalso. apply Hout. rewrite <- E. now apply in_map.
  - now apply IH.
Qed.

Lemma In_completed (now : datetime) (c : Z) (l : list ExamSession)
    (y : ExamSession) :
  NoDup (map id l) ->
  In y (DatabaseManager.update_first (fun s => id s =? c) (completed now) l)
  -> (id y <> c /\ In y l)
     \/ (exists x, In x l /\ id x = c /\ y = completed now x).
Proof.
  induction l as [|h l IH]; cbn; [intros _ []|].
  intros Hnd. inversion Hnd as [|? ? Hout Hnd']; subst.
  destruct (id h =? c) eqn:E.
  - apply Z.eqb_eq in E. intros [<-|Hy].
    + right. exists h. auto.
    + left. split; [|now right]. intros Ey. apply Hout. rewrite E, <- Ey.
      now apply in_map.
  - apply Z.eqb_neq in E. intros [<-|Hy].
    + left. split; [exact E|now left].
    + destruct (IH Hnd' Hy) as [[A B]|[x [A [B C]]]].
      * left. split; [exact A|now right].
      * right. exists x. split; [now right|]. now split.
Qed.

Lemma create_exam_session_keys (now : datetime) (given : string)
    (config : json) (table : list ExamSession) :
  let s := fst (create_exam_session now given config table) in
  snd (create_exam_session now given config table) = (table ++ [s])%list
  /\ ~ In (id s) (map id table)
  /\ 0 < id s
  /\ status s = "active"
  /\ (NoDup (map id table) -> NoDup (map id (table ++ [s]))).
Proof.
  intros s.
  assert (Hfresh : ~ In (id s) (map id table))
    by apply DatabaseMore.next_id_fresh.
  split; [reflexivity|]. split; [exact Hfresh|].
  split; [apply DatabaseMore.next_id_positive|]. split; [reflexivity|].
  intros Hnd. rewrite map_app.
  apply NoDup_app; [exact Hnd|repeat constructor; intros []|].
  intros x Hx [<-|[]]. contradiction.
Qed.

(** X16.  Creating a session.  The new session is appended to the table
    with a positive key that no session has, is active, has no end time and
    starts at the time of the call; it can be read back by its key, and the
    sessions that were there are read back as before.  A session that was
    already active stays the one [get_active_exam_session] returns: the new
    session is returned only when no other session is active. *)
Theorem create_exam_session_fresh :
  forall (now : datetime) (name : string) (config : json)
         (table : list ExamSession),
    let s := fst (create_exam_session now name config table) in
    let table' := snd (create_exam_session now name config table) in
    table' = (table ++ [s])%list
    /\ ~ In (id s) (map id table)
    /\ 0 < id s
    /\ status s = "active" /\ end_time s = None /\ start_time s = now
    /\ get_exam_session (id s) table' = Some s
    /\ (forall k, k <> id s ->
          get_exam_session k table' = get_exam_session k table)
    /\ get_active_exam_session table'
       = match get_active_exam_session table with
         | Some a => Some a
         | None => Some s
         end
    /\ (NoDup (map id table) -> NoDup (map id table')).
Proof.
  intros now name config table s table'.
  assert (Hfresh : ~ In (id s) (map id table))
    by apply DatabaseMore.next_id_fresh.
  assert (Es : s = mkExamSession (DatabaseManager.next_id (map id table))
                     name now None "active" config) by reflexivity.
  split; [reflexivity|]. split; [exact Hfresh|].
  split; [apply DatabaseMore.next_id_positive|].
  split; [reflexivity|]. split; [reflexivity|]. split; [reflexivity|].
  split; [|split; [|split]].
  - unfold get_exam_session, table'. cbn [create_exam_session snd].
    rewrite find_app, <- Es.
    destruct (find (fun s0 => id s0 =? id s) table) as [x|] eqn:E.
    + apply find_some in E. destruct E as [Hin E]. apply Z.eqb_eq in E.
      exfalso. apply Hfresh. rewrite <- E. now apply in_map.
    + cbn [find]. now rewrite Z.eqb_refl.
  - intros k Hk. unfold get_exam_session, table'.
    cbn [create_exam_session snd]. rewrite find_app, <- Es.
    destruct (find (fun s0 => id s0 =? k) table); [reflexivity|].
    cbn [find]. destruct (id s =? k) eqn:E; [|reflexivity].
    apply Z.eqb_eq in E. congruence.
  - unfold get_active_exam_session, table'.
    cbn [create_exam_session snd]. rewrite find_app, <- Es.
    now destruct (find _ table).
  - intros Hnd. unfold table'. cbn [create_exam_session snd]. rewrite <- Es.
    rewrite map_app.
    apply NoDup_app; [exact Hnd|repeat constructor; intros []|].
    intros x Hx [<-|[]]. contradiction.
Qed.

Lemma create_exam_session_fresh_witness :
  get_active_exam_session
    (snd (create_exam_session 9 "UAS" JNull
            [mkExamSession 1 "UTS" 0 None "active" JNull]))
  = Some (mkExamSession 1 "UTS" 0 None "active" JNull).
Proof.
  exact (proj1 (proj2 (proj2 (proj2 (proj2 (proj2 (proj2 (proj2 (proj2
           (create_exam_session_fresh 9 "UAS" JNull
              [mkExamSession 1 "UTS" 0 None "active" JNull])))))))))).
Defined.

Lemma active_agrees (st : World * list ExamSession) :
  consistent st ->
  option_map id (get_active_exam_session (snd st))
  = current_session_id (fst st).
Proof.
  intros (_ & _ & HA & HC). unfold get_active_exam_session.
  destruct (find _ (snd st)) as [s|] eqn:E; cbn [option_map].
  - apply find_some in E. destruct E as [Hin E]. apply String.eqb_eq in E.
    symmetry. now apply HA.
  - destruct (current_session_id (fst st)) as [c|] eqn:Ec; [|reflexivity].
    destruct (HC c eq_refl) as [s [Hin [_ Hs]]].
    pose proof (find_none _ _ E s Hin) as Hn. cbn beta in Hn.
    rewrite Hs in Hn. discriminate.
Qed.

Lemma toggle_keeps_consistent (env : Env) (entered : option string)
    (confirmed : bool) (st : World * list ExamSession) :
  consistent st -> consistent (_toggle_session env entered confirmed st).
Proof.
  intros Hc. pose proof Hc as (HN & HP & HA & HC).
  destruct st as [w table]. cbn [fst snd] in *. unfold _toggle_session.
  destruct (current_session_id w) as [c|] eqn:Ec.
  - destruct confirmed; [|exact Hc].
    destruct (HC c eq_refl) as [x [Hx [Hxc Hxa]]].
    assert ((c =? 0) = false) as ->.
    { apply Z.eqb_neq. specialize (HP x Hx). lia. }
    destruct (get_exam_session c table) as [y|] eqn:Eg.
    + unfold consistent. cbn [fst snd]. split; [|split; [|split]].
      * now rewrite map_update_first.
      * intros s Hs. apply (In_completed _ _ _ _ HN) in Hs.
        destruct Hs as [[_ Hs]|[z [Hz [_ ->]]]]; [now apply HP|].
        now apply (HP z).
      * intros s Hs Ha. apply (In_completed _ _ _ _ HN) in Hs.
        destruct Hs as [[Hne Hs]|[z [Hz [_ ->]]]]; [|discriminate].
        specialize (HA s Hs Ha). congruence.
      * discriminate.
    + unfold get_exam_session in Eg.
      pose proof (find_none _ _ Eg x Hx) as Hn. cbn beta in Hn.
      rewrite Hxc, Z.eqb_refl in Hn. discriminate.
  - destruct entered as [name|]; [|exact Hc].
    destruct (name =? "")%string; [exact Hc|].
    destruct (create_exam_session_keys
                (utcnow_at env (clock_reads w)) name JNull table)
      as (Et & Hfresh & Hpos & Hact & Hnd).
    destruct (create_exam_session _ name JNull table) as [s table'] eqn:E.
    cbn [fst snd] in *. subst table'.
    unfold consistent. cbn [fst snd]. split; [|split; [|split]].
    + now apply Hnd.
    + intros y Hy. apply in_app_or in Hy.
      destruct Hy as [Hy|[<-|[]]]; [now apply HP|exact Hpos].
    + intros y Hy Ha. apply in_app_or in Hy.
      destruct Hy as [Hy|[<-|[]]]; [|reflexivity].
      specialize (HA y Hy Ha). discriminate.
    + intros c [= <-]. exists s. split; [|now split].
      apply in_or_app. right. now left.
Qed.

(** X17.  Starting and ending sessions.  When the table of sessions and the
    application agree (the active session of the table is the current
    session of the application, and there is no other), they agree after
    [_toggle_session], whatever the operator answers.  Confirming a
    non-empty name when no session is current appends a session of that
    name, which becomes the current and the active one; confirming the end
    of the current session marks it completed at the time of the call and
    leaves no session current or active; any other answer changes nothing.
    The roster, the registry and the transport are not touched. *)
Theorem toggle_session_consistent :
  forall (env : Env) (entered : option string) (confirmed : bool)
         (st : World * list ExamSession),
    consistent st ->
    let st' := _toggle_session env entered confirmed st in
    consistent st'
    /\ option_map id (get_active_exam_session (snd st))
       = current_session_id (fst st)
    /\ (current_session_id (fst st) = None ->
        (forall given,
            entered = Some given -> given <> "" ->
            exists s,
              snd st' = (snd st ++ [s])%list
              /\ name s = given
              /\ start_time s = utcnow_at env (clock_reads (fst st))
              /\ current_session_id (fst st') = Some (id s)
              /\ get_active_exam_session (snd st') = Some s)
        /\ (entered = None \/ entered = Some "" -> st' = st))
    /\ (forall c,
          current_session_id (fst st) = Some c ->
          (confirmed = true ->
           current_session_id (fst st') = None
           /\ get_active_exam_session (snd st') = None
           /\ exists s,
                get_exam_session c (snd st) = Some s
                /\ get_exam_session c (snd st')
                   = Some (completed (utcnow_at env (clock_reads (fst st)))
                             s))
          /\ (confirmed = false -> st' = st))
    /\ db (fst st') = db (fst st)
    /\ connected_clients (fst st') = connected_clients (fst st)
    /\ transport_log (fst st') = transport_log (fst st).
Proof.
  intros env entered confirmed st Hc st'.
  pose proof (toggle_keeps_consistent env entered confirmed st Hc) as Hc'.
  fold st' in Hc'.
  pose proof (active_agrees st' Hc') as Hagree'.
  pose proof Hc as (HN & HP & HA & HC).
  pose proof Hc' as (HN' & _).
  split; [exact Hc'|]. split; [now apply active_agrees|].
  destruct st as [w table]. cbn [fst snd] in *.
  split; [|split].
  - intros Ec. split.
    + intros nm -> Hne.
      assert (Es : st' = (set_current_session_id
                            (Some (id (fst (create_exam_session
                               (utcnow_at env (clock_reads w)) nm JNull
                               table))))
                            (set_clock_reads (S (clock_reads w)) w),
                          snd (create_exam_session
                                 (utcnow_at env (clock_reads w)) nm JNull
                                 table))).
      { unfold st', _toggle_session. rewrite Ec.
        apply String.eqb_neq in Hne. now rewrite Hne. }
      set (s := fst (create_exam_session (utcnow_at env (clock_reads w)) nm
                       JNull table)) in *.
      exists s. rewrite Es in *. cbn [fst snd] in *.
      change (snd (create_exam_session (utcnow_at env (clock_reads w)) nm
                     JNull table))
        with (table ++ [s])%list in *.
      split; [reflexivity|]. split; [reflexivity|]. split; [reflexivity|].
      split; [reflexivity|].
      unfold set_current_session_id in Hagree'.
      cbn [current_session_id] in Hagree'.
      destruct (get_active_exam_session (table ++ [s])) as [a|] eqn:Ea;
        [|discriminate].
      cbn [option_map] in Hagree'. injection Hagree' as Eid.
      unfold get_active_exam_session in Ea. apply find_some in Ea.
      f_equal. apply (NoDup_map_inj id (table ++ [s])%list a s HN');
        [tauto| |exact Eid].
      apply in_or_app. right. now left.
    + unfold st', _toggle_session. rewrite Ec.
      intros [->| ->]; reflexivity.
  - intros c Ec. split.
    + intros ->.
      destruct (HC c Ec) as [x [Hx [Hxc Hxa]]].
      assert (E0 : (c =? 0) = false).
      { apply Z.eqb_neq. specialize (HP x Hx). lia. }
      destruct (get_exam_session c table) as [y|] eqn:Eg.
      * assert (Es : st' = (set_current_session_id None
                              (set_clock_reads (S (clock_reads w)) w),
                            DatabaseManager.update_first
                              (fun s => id s =? c)
                              (completed (utcnow_at env (clock_reads w)))
                              table)).
        { unfold st', _toggle_session. now rewrite Ec, E0, Eg. }
        rewrite Es in *. cbn [fst snd] in *.
        split; [reflexivity|]. split.
        { destruct (get_active_exam_session _); [discriminate|reflexivity]. }
        exists y. split; [reflexivity|].
        unfold get_exam_session in *.
        apply DatabaseFacts.find_update_first_hit; [exact Eg|].
        apply find_some in Eg. tauto.
      * unfold get_exam_session in Eg.
        pose proof (find_none _ _ Eg x Hx) as Hn. cbn beta in Hn.
        rewrite Hxc, Z.eqb_refl in Hn. discriminate.
    + intros ->. unfold st', _toggle_session. now rewrite Ec.
  - unfold st', _toggle_session.
    destruct (current_session_id w) as [c|].
    + destruct confirmed; [|now repeat split].
      destruct (c =? 0); [now repeat split|].
      destruct (get_exam_session c table); now repeat split.
    + destruct entered as [nm|]; [|now repeat split].
      destruct (nm =? "")%string; [now repeat split|].
      destruct (create_exam_session _ nm JNull table). now repeat split.
Qed.

Lemma toggle_session_consistent_witness :
  consistent (_toggle_session steady_env (Some "UTS") false
                (ExamSessions.set_current_session_id None exam_world, [])).
Proof.
  apply (toggle_session_consistent steady_env (Some "UTS") false
           (ExamSessions.set_current_session_id None exam_world, [])).
  unfold consistent. cbn.
  split; [constructor|]. split; [intros s []|].
  split; [intros s []|]. discriminate.
Defined.

End ExamSessionFacts.

(* ================================================================== *)
(** * More on the admin application *)
(* ================================================================== *)

Module AdminMore.
Import Models.
Import Protocol.
Import DatabaseManager.
Import AdminApp.

Lemma bind_return_eq {A B} (c : M A) (k : A -> M B) (w w' : World) (a : A) :
  c w = (Return a, w') -> bind c k w = k a w'.
Proof. intros E. unfold bind. now rewrite E. Qed.

Lemma bind_raise_eq {A B} (c : M A) (k : A -> M B) (w w' : World) (e : exc) :
  c w = (Raise e, w') -> bind c k w = (Raise e, w').
Proof. intros E. unfold bind. now rewrite E. Qed.

Section Actions.
Variable lib : PyLib.
Variable env : Env.

(** A call of [send_message] returns, writes at most once, and leaves the
    database and the attributes of the application alone. *)
Lemma send_frame (pid : string) (m : Message) (w : World) :
  exists b w' ds,
    ProctoringServer.send_message lib env pid m w = (Return b, w')
    /\ db w' = db w
    /\ config w' = config w
    /\ current_session_id w' = current_session_id w
    /\ ai_proctor_mode w' = ai_proctor_mode w
    /\ transport_log w' = (transport_log w ++ ds)%list
    /\ ds = match PyDict.get pid (connected_clients w) with
            | Some ws =>
                [mkDelivery ws m
                   (send_text_ok env (List.length (transport_log w)))]
            | None => []
            end.
Proof.
  destruct (PyDict.get pid (connected_clients w)) as [ws|] eqn:Eg.
  - destruct (send_text_ok env (List.length (transport_log w))) eqn:Eok.
    + exists true. eexists. eexists. split.
      * apply (ServerFacts.send_write_completes lib env pid m ws w Eg Eok).
      * repeat split.
    + destruct (ServerFacts.send_write_fails lib env pid m ws w Eg Eok)
        as [w' [E [Ew [Hl [_ [_ Hdb]]]]]].
      exists false, w'. eexists. split; [exact E|].
      split; [exact Hdb|].
      rewrite Ew, ServerMore.disconnect_world. cbn [snd].
      destruct (PyDict.get pid (client_info _));
        destruct (PyDict.mem pid (connected_clients _)); repeat split.
  - exists false, w, []. split.
    + now apply ServerFacts.send_without_handle.
    + rewrite app_nil_r. repeat split.
Qed.

(** X18.  The emergency lock is a broadcast and nothing more.  When the
    operator confirms, one [emergency_lock] message with the reason
    [emergency] and no participant id is written to the handle of every
    registered participant, in the order of the registry; the database is
    not touched, so no participant is recorded as locked.  When the
    operator declines, nothing happens. *)
Theorem emergency_lock_is_not_recorded :
  forall (w : World),
    PyDict.wf (connected_clients w) ->
    exists w' ds,
      AdminActions._emergency_lock lib env true w = (Return tt, w')
      /\ transport_log w' = (transport_log w ++ ds)%list
      /\ map handle ds = map snd (connected_clients w)
      /\ Forall (fun d =>
                   message d
                   = mkMessage EMERGENCY_LOCK
                       (JDict [("reason", JStr "emergency")]) JNull
                       (utcnow_at env (clock_reads w))) ds
      /\ db w' = db w
      /\ Roster.same_locks w w'
      /\ AdminActions._emergency_lock lib env false w = (Return tt, w).
Proof.
  intros w Hwf. unfold AdminActions._emergency_lock, new_message.
  run_effects. unfold ProctoringServer.broadcast_message. run_effects.
  match goal with
  | |- context [ProctoringServer.broadcast_loop lib env ?ids ?m ?ex ?w1] =>
      destruct (ServerFacts.broadcast_loop_log lib env m ex ids Hwf w1)
        as [w' [ds [E [Hl [Hh [Hm Hdb]]]]]]
  end.
  exists w', ds. split; [exact E|]. split; [exact Hl|].
  split.
  { rewrite Hh. world_simpl.
    rewrite (ServerFacts.targets_of_keys [] (connected_clients w) Hwf).
    f_equal. clear. induction (connected_clients w) as [|kv l IH];
      cbn; [reflexivity|]. f_equal. exact IH. }
  split; [exact Hm|]. split; [exact Hdb|].
  split; [unfold Roster.same_locks; now rewrite Hdb|reflexivity].
Qed.

(** X19.  Locking and unlocking by hand.  With no row selected neither
    action does anything.  With a participant selected the action sets, or
    clears, the lock of the participant's row when the roster has one, and
    then sends a [lock] message with the reason [manual], or an [unlock]
    message, when the participant is registered: a participant of the
    roster who is not connected is locked in the database only, and a
    connected id the roster does not know is sent the message with nothing
    recorded.  Nothing else of the row changes, so unlocking after locking
    restores the row to what it was unlocked. *)
Theorem manual_lock_and_unlock :
  forall (w : World) (pid : string) (locked : bool),
    let act :=
      if locked then AdminActions._lock_selected_participant lib env
      else AdminActions._unlock_selected_participant lib env in
    let sent :=
      if locked
      then mkMessage LOCK (JDict [("reason", JStr "manual")]) (JStr pid)
             (utcnow_at env (clock_reads w))
      else mkMessage UNLOCK (JDict []) (JStr pid)
             (utcnow_at env (clock_reads w)) in
    act None w = (Return tt, w)
    /\ exists w',
         act (Some pid) w = (Return tt, w')
         /\ query_participant pid (db w')
            = option_map (with_is_locked locked)
                (query_participant pid (db w))
         /\ (forall other, other <> pid ->
               query_participant other (db w')
               = query_participant other (db w))
         /\ (query_participant pid (db w) = None -> db w' = db w)
         /\ transport_log w'
            = (transport_log w
               ++ match PyDict.get pid (connected_clients w) with
                  | Some ws =>
                      [mkDelivery ws sent
                         (send_text_ok env (List.length (transport_log w)))]
                  | None => []
                  end)%list
         /\ (forall p,
               query_participant pid (db w) = Some p ->
               is_locked p = false ->
               query_participant pid
                 (db (snd (AdminActions._unlock_selected_participant lib env
                             (Some pid)
                             (snd (AdminActions._lock_selected_participant
                                     lib env (Some pid) w)))))
               = Some p).
Proof.
  intros w pid locked act sent.
  assert (Hact : forall (b : bool) (w0 : World),
            exists w',
              (if b then AdminActions._lock_selected_participant lib env
               else AdminActions._unlock_selected_participant lib env)
                (Some pid) w0 = (Return tt, w')
              /\ db w'
                 = match query_participant pid (db w0) with
                   | Some _ => update_participant pid (with_is_locked b)
                                 (db w0)
                   | None => db w0
                   end
              /\ transport_log w'
                 = (transport_log w0
                    ++ match PyDict.get pid (connected_clients w0) with
                       | Some ws =>
                           [mkDelivery ws
                              (if b
                               then mkMessage LOCK
                                      (JDict [("reason", JStr "manual")])
                                      (JStr pid)
                                      (utcnow_at env (clock_reads w0))
                               else mkMessage UNLOCK (JDict []) (JStr pid)
                                      (utcnow_at env (clock_reads w0)))
                              (send_text_ok env
                                 (List.length (transport_log w0)))]
                       | None => []
                       end)%list).
  { intros b w0.
    destruct b;
      unfold AdminActions._lock_selected_participant,
        AdminActions._unlock_selected_participant, lock_participant,
        new_message;
      run_effects;
      destruct (query_participant pid (db w0)) as [p|] eqn:Eq;
      run_effects;
      match goal with
      | |- context [bind (ProctoringServer.send_message lib env pid ?m) _
                         ?w1] =>
          destruct (send_frame pid m w1)
            as [ok [w' [ds [E [Hdb [_ [_ [_ [Hl Hds]]]]]]]]];
          rewrite (bind_return_eq _ _ _ _ _ E)
      end;
      exists w'; (split; [reflexivity|]); (split; [exact Hdb|]);
      rewrite Hl, Hds; reflexivity. }
  split; [unfold act; now destruct locked|].
  destruct (Hact locked w) as [w' [E [Hdb Hl]]].
  exists w'. split; [exact E|].
  split.
  { rewrite Hdb. destruct (query_participant pid (db w)) as [p|] eqn:Eq;
      [|exact Eq].
    exact (DatabaseFacts.query_update_participant pid (with_is_locked locked)
             (db w) p Eq eq_refl). }
  split.
  { intros other Hne. rewrite Hdb.
    destruct (query_participant pid (db w)) as [p|] eqn:Eq; [|reflexivity].
    now apply (DatabaseMore.update_row_local pid (with_is_locked locked)
                 (db w) p Eq (fun _ => eq_refl)). }
  split; [intros Hn; now rewrite Hdb, Hn|].
  split.
  { rewrite Hl. unfold sent. now destruct locked. }
  intros p Hq Hu.
  destruct (Hact true w) as [w1 [E1 [Hdb1 _]]].
  destruct (Hact false w1) as [w2 [E2 [Hdb2 _]]].
  cbv iota in E1, E2. rewrite E1. cbn [snd]. rewrite E2. cbn [snd].
  rewrite Hq in Hdb1.
  assert (Hq1 : query_participant pid (db w1) = Some (with_is_locked true p)).
  { rewrite Hdb1.
    exact (DatabaseFacts.query_update_participant pid (with_is_locked true)
             (db w) p Hq eq_refl). }
  rewrite Hq1 in Hdb2. rewrite Hdb2.
  rewrite (DatabaseFacts.query_update_participant pid (with_is_locked false)
             (db w1) _ Hq1 eq_refl).
  f_equal. destruct p. cbn in Hu. subst. reflexivity.
Qed.
End Actions.

Lemma emergency_lock_is_not_recorded_witness :
  exists w' ds,
    AdminActions._emergency_lock model_lib steady_env true three_clients_world
    = (Return tt, w')
    /\ transport_log w' = (transport_log three_clients_world ++ ds)%list
    /\ map handle ds = [1%nat; 2%nat; 3%nat].
Proof.
  destruct (emergency_lock_is_not_recorded model_lib steady_env
              three_clients_world ServerMore.three_clients_wf)
    as [w' [ds [E [Hl [Hh _]]]]].
  exists w', ds. split; [exact E|]. split; [exact Hl|exact Hh].
Defined.

Lemma manual_lock_and_unlock_witness :
  query_participant "P1"
    (db (snd (AdminActions._unlock_selected_participant model_lib steady_env
                (Some "P1")
                (snd (AdminActions._lock_selected_participant model_lib
                        steady_env (Some "P1") exam_world)))))
  = Some (roster_entry 1 "P1" "Budi" 7).
Proof.
  destruct (proj2 (manual_lock_and_unlock model_lib steady_env exam_world
                     "P1" true))
    as [w' [_ [_ [_ [_ [_ H]]]]]].
  apply H; reflexivity.
Defined.

Ltac world_simpl_in H :=
  cbn [db connected_clients client_info current_session_id ai_proctor_mode
       config clock_reads transport_log set_db set_connected_clients
       set_client_info set_clock_reads set_transport_log fst snd] in H.

Section Reports.
Variable lib : PyLib.
Variable env : Env.

(** What the automatic handling of a violation leaves in the database,
    whether or not the participant is connected and whatever the outcome
    of the writes. *)
Lemma auto_database_effect (v : Violation) (pid : string) (p : Participant)
    (w : World) :
  query_participant pid (db w) = Some p ->
  let n := warning_count p in
  let before_lock := default (warnings_before_lock (config w)) 5 in
  exists w',
    _handle_violation_auto lib env v pid w = (Return tt, w')
    /\ db w'
       = (if before_lock <=? n
          then update_participant pid (with_is_locked true)
          else fun d => d)
           (update_participant pid
              (fun q => with_warning_count (warning_count q + 1) q) (db w))
    /\ query_participant pid (db w')
       = Some (with_is_locked
                 (if before_lock <=? n then true else is_locked p)
                 (with_warning_count (n + 1) p)).
Proof.
  intros Hq n before_lock.
  assert (Hq1 : query_participant pid
                  (update_participant pid
                     (fun q => with_warning_count (warning_count q + 1) q)
                     (db w))
                = Some (with_warning_count (n + 1) p)).
  { exact (DatabaseFacts.query_update_participant pid
             (fun q => with_warning_count (warning_count q + 1) q)
             (db w) p Hq eq_refl). }
  unfold _handle_violation_auto, get_participant, increment_warning_count,
    new_message.
  run_effects. rewrite Hq. run_effects. rewrite Hq. run_effects.
  match goal with
  | |- context [bind (ProctoringServer.send_message lib env pid ?m) _ ?w1] =>
      destruct (AdminMore.send_frame lib env pid m w1)
        as [ok [w2 [ds [E [Hdb [Hcfg _]]]]]];
      rewrite (bind_return_eq _ _ _ _ _ E)
  end.
  world_simpl_in Hdb. world_simpl_in Hcfg.
  run_effects. rewrite Hcfg. fold before_lock n.
  destruct (before_lock <=? n) eqn:Elock.
  - unfold lock_participant. run_effects. rewrite Hdb, Hq1. run_effects.
    unfold new_message. run_effects.
    match goal with
    | |- context [bind (ProctoringServer.send_message lib env pid ?m) _
                       ?w1] =>
        destruct (AdminMore.send_frame lib env pid m w1)
          as [ok' [w3 [ds' [E' [Hdb' _]]]]];
        rewrite (bind_return_eq _ _ _ _ _ E')
    end.
    world_simpl_in Hdb'. rewrite Hdb in Hdb'.
    exists w3. split; [reflexivity|]. split; [exact Hdb'|].
    rewrite Hdb'.
    exact (DatabaseFacts.query_update_participant pid (with_is_locked true)
             _ _ Hq1 eq_refl).
  - assert (Hp : with_is_locked (is_locked p) (with_warning_count (n + 1) p)
                 = with_warning_count (n + 1) p) by reflexivity.
    rewrite Hp.
    destruct (default (warnings_before_flag (config w)) 3 <=? n).
    + unfold new_message. run_effects.
      match goal with
      | |- context [bind (ProctoringServer.send_message lib env pid ?m) _
                         ?w1] =>
          destruct (AdminMore.send_frame lib env pid m w1)
            as [ok' [w3 [ds' [E' [Hdb' _]]]]];
          rewrite (bind_return_eq _ _ _ _ _ E')
      end.
      world_simpl_in Hdb'. rewrite Hdb in Hdb'.
      exists w3. split; [reflexivity|]. split; [exact Hdb'|].
      now rewrite Hdb'.
    + exists w2. split; [reflexivity|]. split; [exact Hdb|].
      now rewrite Hdb.
Qed.

(** The automatic handling of a violation in a thread whose loop is
    running: the warning is counted, the message is built, and the first
    [run_until_complete] raises. *)
Lemma auto_in_loop (v : Violation) (pid : string) (p : Participant)
    (w : World) :
  query_participant pid (db w) = Some p ->
  exists w',
    AdminActions._handle_violation_auto lib env true v pid w
    = (Raise RuntimeError, w')
    /\ db w'
       = update_participant pid
           (fun q => with_warning_count (warning_count q + 1) q) (db w)
    /\ transport_log w' = transport_log w
    /\ connected_clients w' = connected_clients w.
Proof.
  intros Hq.
  unfold AdminActions._handle_violation_auto,
    AdminActions.run_until_complete, get_participant,
    increment_warning_count, new_message.
  run_effects. rewrite Hq. run_effects. rewrite Hq. run_effects.
  eexists. split; [reflexivity|]. world_simpl. now repeat split.
Qed.

Lemma auto_outside_loop (v : Violation) (pid : string) :
  AdminActions._handle_violation_auto lib env false v pid
  = _handle_violation_auto lib env v pid.
Proof. reflexivity. Qed.

Lemma report_outside_loop (pid : string) (m : Message) :
  AdminActions._handle_violation_report lib env false pid m
  = _handle_violation_report lib env pid m.
Proof. reflexivity. Qed.

(** X20.  Unlocking does not reset the escalation.  Unlocking a participant
    clears the lock and leaves the warning counter as it is.  When the
    counter has reached the locking threshold and the next violation is
    handled automatically in the thread of the server, as every report is,
    the warning is counted and the handler raises at its first
    [run_until_complete]: nothing is written and the participant stays
    unlocked, with a counter above the threshold.  Called in a thread that
    runs no loop, the same handling returns and locks the participant
    again, whatever happens on the transport. *)
Theorem unlock_does_not_reset_escalation :
  forall (v : Violation) (pid : string) (p : Participant) (w : World),
    query_participant pid (db w) = Some p ->
    default (warnings_before_lock (config w)) 5 <= warning_count p ->
    exists w1,
      AdminActions._unlock_selected_participant lib env (Some pid) w
      = (Return tt, w1)
      /\ query_participant pid (db w1) = Some (with_is_locked false p)
      /\ (exists w2,
            AdminActions._handle_violation_auto lib env true v pid w1
            = (Raise RuntimeError, w2)
            /\ query_participant pid (db w2)
               = Some (with_is_locked false
                         (with_warning_count (warning_count p + 1) p))
            /\ transport_log w2 = transport_log w1)
      /\ (exists w2,
            AdminActions._handle_violation_auto lib env false v pid w1
            = (Return tt, w2)
            /\ query_participant pid (db w2)
               = Some (with_is_locked true
                         (with_warning_count (warning_count p + 1) p))).
Proof.
  intros v pid p w Hq Hle.
  assert (Hu : exists w1,
            AdminActions._unlock_selected_participant lib env (Some pid) w
            = (Return tt, w1)
            /\ db w1 = update_participant pid (with_is_locked false) (db w)
            /\ config w1 = config w).
  { unfold AdminActions._unlock_selected_participant, lock_participant,
      new_message.
    run_effects. rewrite Hq. run_effects.
    match goal with
    | |- context [bind (ProctoringServer.send_message lib env pid ?m) _
                       ?w1] =>
        destruct (AdminMore.send_frame lib env pid m w1)
          as [ok [w' [ds [E [Hdb [Hcfg _]]]]]];
        rewrite (bind_return_eq _ _ _ _ _ E)
    end.
    exists w'. split; [reflexivity|]. split; [exact Hdb|exact Hcfg]. }
  destruct Hu as [w1 [E1 [Hdb1 Hcfg1]]].
  assert (Hq1 : query_participant pid (db w1) = Some (with_is_locked false p)).
  { rewrite Hdb1.
    exact (DatabaseFacts.query_update_participant pid (with_is_locked false)
             (db w) p Hq eq_refl). }
  exists w1. split; [exact E1|]. split; [exact Hq1|]. split.
  - destruct (auto_in_loop v pid (with_is_locked false p) w1 Hq1)
      as [w2 [E2 [Hdb2 [Hl2 _]]]].
    exists w2. split; [exact E2|]. split; [|exact Hl2].
    rewrite Hdb2.
    exact (DatabaseFacts.query_update_participant pid
             (fun q => with_warning_count (warning_count q + 1) q)
             (db w1) _ Hq1 eq_refl).
  - destruct (auto_database_effect v pid (with_is_locked false p) w1 Hq1)
      as [w2 [E2 [_ Hq2]]].
    exists w2. rewrite auto_outside_loop. split; [exact E2|].
    rewrite Hq2. rewrite Hcfg1.
    cbn [warning_count with_is_locked].
    apply Z.leb_le in Hle. rewrite Hle. reflexivity.
Qed.

(** X21.  Reports that are not recorded.  [_handle_violation_report]
    converts the type and the severity first: a payload that is not a
    dictionary, an unknown type or an unknown severity raises, also when no
    session is running.  A well-formed report is dropped without a trace
    when no session is running, and raises when the reporting id is not in
    the roster.  In all these cases nothing is stored, nothing is sent and
    the clock is not read. *)
Theorem unrecorded_reports :
  forall (pid : string) (m : Message) (w : World),
    ((forall payload, Protocol.data m <> JDict payload) ->
     _handle_violation_report lib env pid m w = (Raise AttributeError, w))
    /\ (forall payload,
          Protocol.data m = JDict payload ->
          let type_value :=
            PyDict.get_default "violation_type" (JStr "application_blocked")
              payload in
          let severity_value :=
            PyDict.get_default "severity" (JStr "medium") payload in
          ((forall vt, ViolationType_call type_value <> Return vt) ->
           _handle_violation_report lib env pid m w
           = (Raise (InvalidEnumValue "ViolationType" type_value), w))
          /\ (forall vt,
                ViolationType_call type_value = Return vt ->
                ((forall sev,
                     ViolationSeverity_call severity_value <> Return sev) ->
                 _handle_violation_report lib env pid m w
                 = (Raise (InvalidEnumValue "ViolationSeverity"
                             severity_value), w))
                /\ (forall sev,
                      ViolationSeverity_call severity_value = Return sev ->
                      (current_session_id w = None
                       \/ current_session_id w = Some 0 ->
                       _handle_violation_report lib env pid m w
                       = (Return tt, w))
                      /\ (forall s,
                            current_session_id w = Some s -> s <> 0 ->
                            query_participant pid (db w) = None ->
                            _handle_violation_report lib env pid m w
                            = (Raise (ValueError
                                        ("Participant " ++ pid
                                         ++ " not found")), w))))).
Proof.
  intros pid m w. split.
  - intros Hd. unfold _handle_violation_report, payload_get.
    destruct (Protocol.data m) as [ | | | | | payload]; try reflexivity.
    now elim (Hd payload).
  - intros payload Hp type_value severity_value.
    unfold _handle_violation_report. rewrite Hp. cbn [payload_get].
    run_effects. fold type_value severity_value.
    split.
    + intros Hvt. unfold ViolationType_call in *.
      destruct type_value as [ | | | s | | ]; try reflexivity.
      destruct (find _ ViolationType_members) as [vt|]; [|reflexivity].
      now elim (Hvt vt).
    + intros vt Hvt. rewrite Hvt. run_effects. split.
      * intros Hsev. unfold ViolationSeverity_call in *.
        destruct severity_value as [ | | | s | | ]; try reflexivity.
        destruct (find _ [LOW; MEDIUM; HIGH; CRITICAL]) as [sev|];
          [|reflexivity].
        now elim (Hsev sev).
      * intros sev Hsev. rewrite Hsev. run_effects. split.
        -- intros [-> | ->]; reflexivity.
        -- intros s -> Hs Hq. apply Z.eqb_neq in Hs. rewrite Hs.
           run_effects. unfold create_violation. run_effects. rewrite Hq.
           reflexivity.
Qed.

(** A report of a participant of the roster, handled in the thread of the
    server during a session. *)
Lemma report_in_loop (w : World) (pid : string) (m : Message)
    (payload : PyDict.t json) (vt : ViolationType) (sev : ViolationSeverity)
    (session_id : Z) (p : Participant) :
  Protocol.data m = JDict payload ->
  ViolationType_call
    (PyDict.get_default "violation_type" (JStr "application_blocked")
       payload) = Return vt ->
  ViolationSeverity_call
    (PyDict.get_default "severity" (JStr "medium") payload) = Return sev ->
  current_session_id w = Some session_id ->
  session_id <> 0 ->
  query_participant pid (db w) = Some p ->
  let p1 :=
    with_integrity_score
      (integrity_score_of (violation_count p + 1) (warning_count p))
      (with_violation_count (violation_count p + 1) p) in
  exists w',
    AdminActions._handle_violation_report lib env true pid m w
    = (if ai_proctor_mode w then Raise RuntimeError else Return tt, w')
    /\ query_participant pid (db w')
       = Some (if ai_proctor_mode w
               then with_warning_count (warning_count p + 1) p1
               else p1)
    /\ transport_log w' = transport_log w
    /\ connected_clients w' = connected_clients w.
Proof.
  intros Hp Hvt Hsev Hs Hs0 Hq p1.
  unfold AdminActions._handle_violation_report. rewrite Hp.
  cbn [payload_get].
  run_effects. rewrite Hvt. run_effects. rewrite Hsev. run_effects.
  rewrite Hs. apply Z.eqb_neq in Hs0. rewrite Hs0. run_effects.
  rewrite (bind_return_eq _ _ _ _ _
             (DatabaseMore.create_violation_effect env w pid p session_id
                vt sev (PyDict.get_default "description" (JStr "") payload)
                Hq)).
  match goal with
  | |- context [bind _ _ (set_db ?d ?w0)] => set (d1 := d); set (w1 := w0)
  end.
  set (p0 := with_violation_count (violation_count p + 1) p).
  assert (Hq0 : query_participant pid d1 = Some p0).
  { exact (DatabaseFacts.query_update_participant pid
             (fun q => with_violation_count (violation_count q + 1) q)
             _ p Hq eq_refl). }
  unfold get_participant, _update_integrity_score. run_effects.
  rewrite Hq0. run_effects. rewrite Hq0. run_effects.
  subst w1. world_simpl.
  set (score := integrity_score_of (violation_count p0) (warning_count p0)).
  assert (Hq1 : query_participant pid
                  (update_participant pid (with_integrity_score score) d1)
                = Some p1).
  { exact (DatabaseFacts.query_update_participant pid
             (with_integrity_score score) d1 p0 Hq0 eq_refl). }
  destruct (ai_proctor_mode w).
  - match goal with
    | |- context [AdminActions._handle_violation_auto lib env true ?v pid
                    ?w2] =>
        destruct (auto_in_loop v pid p1 w2) as [w' [E [Hdb [Hl Hc]]]];
          [exact Hq1|]
    end.
    world_simpl_in Hdb. world_simpl_in Hl. world_simpl_in Hc.
    exists w'. split; [exact E|]. split; [|split; [exact Hl|exact Hc]].
    rewrite Hdb.
    exact (DatabaseFacts.query_update_participant pid
             (fun q => with_warning_count (warning_count q + 1) q)
             _ p1 Hq1 eq_refl).
  - eexists. split; [reflexivity|]. world_simpl.
    split; [exact Hq1|]. now split.
Qed.

(** X22.  In automatic mode the stored score misses the warning just
    issued.  The score is recomputed after the violation is counted and
    before the warning is.  A report of a participant of the roster with
    a description that is a string or [None], handled in automatic mode in
    the thread of the server, ends with the [RuntimeError] of the first
    [run_until_complete]: by then the row has one more violation and one
    more warning, and its score is the formula on the new violation counter
    and the old warning counter, two points above the formula on the
    counters the row now holds whenever that is positive.  The lock of the
    row is as it was and nothing has been written to a connection. *)
Theorem auto_mode_score_misses_warning :
  forall (w : World) (pid : string) (m : Message) (payload : PyDict.t json)
         (vt : ViolationType) (sev : ViolationSeverity) (session_id : Z)
         (p : Participant),
    Protocol.data m = JDict payload ->
    ViolationType_call
      (PyDict.get_default "violation_type" (JStr "application_blocked")
         payload) = Return vt ->
    ViolationSeverity_call
      (PyDict.get_default "severity" (JStr "medium") payload) = Return sev ->
    DatabaseQueries.text_or_none
      (PyDict.get_default "description" (JStr "") payload) = true ->
    current_session_id w = Some session_id ->
    session_id <> 0 ->
    ai_proctor_mode w = true ->
    query_participant pid (db w) = Some p ->
    exists w' p',
      AdminActions._handle_violation_report lib env true pid m w
      = (Raise RuntimeError, w')
      /\ query_participant pid (db w') = Some p'
      /\ violation_count p' = violation_count p + 1
      /\ warning_count p' = warning_count p + 1
      /\ integrity_score p'
         = integrity_score_of (violation_count p + 1) (warning_count p)
      /\ (0 < integrity_score_of (violation_count p') (warning_count p') ->
          integrity_score p'
          = integrity_score_of (violation_count p') (warning_count p') + 2)
      /\ is_locked p' = is_locked p
      /\ transport_log w' = transport_log w.
Proof.
  intros w pid m payload vt sev session_id p Hp Hvt Hsev _ Hs Hs0 Hmode Hq.
  destruct (report_in_loop w pid m payload vt sev session_id p Hp Hvt Hsev
              Hs Hs0 Hq) as [w' [E [Hq' [Hl _]]]].
  rewrite Hmode in E, Hq'.
  eexists. eexists. split; [exact E|]. split; [exact Hq'|].
  cbn [violation_count warning_count integrity_score is_locked
       with_warning_count with_integrity_score with_violation_count].
  split; [reflexivity|]. split; [reflexivity|]. split; [reflexivity|].
  split; [|split; [reflexivity|exact Hl]].
  unfold integrity_score_of. lia.
Qed.

(** X9.  A violation report ends the connection that sent it.  The wrapper
    the admin application registers calls the plain function
    [_handle_violation_report] in the thread of the server and awaits its
    value.  In automatic mode the handling raises at the first
    [run_until_complete], before anything is written; in manual mode it
    returns [None], and awaiting that raises.  Either way, and whatever the
    payload, the turn of the connection loop ends the loop with the
    participant unregistered and with nothing written to any connection.
    A report of a participant of the roster during a session, with a
    description that is a string or [None], has been counted by then: the
    row has one more violation, one more warning in automatic mode, the
    score of the new violation counter and the old warning counter, and
    the lock it had. *)
Theorem violation_report_ends_connection :
  forall (permission : ServerHandlers.handler)
         (base : ServerHandlers.handlers)
         (pid : string) (text : wire lib) (w w0 : World) (m : Message),
    ProctoringServer.decode lib env text w = (Return m, w0) ->
    Protocol.type m = VIOLATION_REPORT ->
    exists w',
      ProctoringServer.receive lib env
        (AdminActions.install_handlers lib env permission base) pid text w
      = (Return false, w')
      /\ PyDict.get pid (connected_clients w') = None
      /\ transport_log w' = transport_log w
      /\ (forall payload vt sev session_id p,
            Protocol.data m = JDict payload ->
            ViolationType_call
              (PyDict.get_default "violation_type"
                 (JStr "application_blocked") payload) = Return vt ->
            ViolationSeverity_call
              (PyDict.get_default "severity" (JStr "medium") payload)
            = Return sev ->
            DatabaseQueries.text_or_none
              (PyDict.get_default "description" (JStr "") payload) = true ->
            current_session_id w = Some session_id ->
            session_id <> 0 ->
            query_participant pid (db w) = Some p ->
            exists p',
              query_participant pid (db w') = Some p'
              /\ violation_count p' = violation_count p + 1
              /\ warning_count p'
                 = warning_count p + (if ai_proctor_mode w then 1 else 0)
              /\ integrity_score p'
                 = integrity_score_of (violation_count p + 1)
                     (warning_count p)
              /\ is_locked p' = is_locked p).
Proof.
  intros permission base pid text w w0 m Hd Ht.
  set (handled := AdminActions._handle_violation_report lib env true pid m
                    w0).
  destruct (ServerFacts.disconnect_effect lib env pid (snd handled))
    as [w' [E [Hc [Hl Hdb]]]].
  pose proof (ServerMore.decode_return lib env text w w0 m Hd) as E0.
  exists w'. split.
  { rewrite (ServerMore.receive_decoded lib env _ pid text w w0 m Hd).
    unfold ProctoringServer._handle_message.
    rewrite Ht.
    change (AdminActions.install_handlers lib env permission base
              VIOLATION_REPORT)
      with (Some (AdminActions._handle_violation_report_async lib env)).
    unfold AdminActions._handle_violation_report_async. unfold bind at 1.
    fold handled. destruct handled as [[[]|e] w1]; cbn [snd] in E;
      unfold raise; unfold bind; now rewrite E. }
  split; [rewrite Hc; apply ServerFacts.get_del_same|].
  split.
  { rewrite Hl. unfold handled.
    rewrite (RosterFacts.quiet_report_in_loop lib env pid m w0).
    now subst w0. }
  intros payload vt sev session_id p Hp Hvt Hsev _ Hs Hs0 Hq.
  destruct (report_in_loop w0 pid m payload vt sev session_id p Hp Hvt Hsev)
    as [w1 [E1 [Hq1 _]]]; try (subst w0; assumption).
  eexists. rewrite Hdb. unfold handled. rewrite E1. cbn [snd].
  split; [exact Hq1|]. subst w0. world_simpl.
  destruct (ai_proctor_mode w);
    cbn [violation_count warning_count integrity_score is_locked
         with_warning_count with_integrity_score with_violation_count];
    repeat split; lia.
Qed.

Lemma find_fresh_request (r : PermissionRequest)
    (l : list PermissionRequest) :
  r_id r = next_id (map r_id l) ->
  find (fun r0 => r_id r0 =? r_id r) (l ++ [r]) = Some r.
Proof.
  intros E. rewrite ExamSessionFacts.find_app.
  destruct (find (fun r0 => r_id r0 =? r_id r) l) as [x|] eqn:Ef.
  - apply find_some in Ef. destruct Ef as [Hin Ex]. apply Z.eqb_eq in Ex.
    exfalso. apply (DatabaseMore.next_id_fresh (map r_id l)).
    rewrite <- E, <- Ex. now apply in_map.
  - cbn [find]. now rewrite Z.eqb_refl.
Qed.

(** X23.  Handling a permission request.  Without a running session the
    request is ignored, and for an id that is not in the roster the handler
    raises with nothing stored.  For a participant of the roster, a
    request type and a reason that are strings or [None] and a duration of
    64 bits, the handler raises as well: the request is created with the
    string
    ['pending'] as its status, which is the name of no member of the
    enumeration, so reading the new row back raises a [LookupError] and
    the row is not kept.  The clock has been read once; nothing is stored,
    the operator is not asked, as the answer makes no difference, and
    nothing is sent. *)
Theorem permission_request_outcomes :
  forall (approves : bool) (pid : string) (kind : json) (duration : Z)
         (reason : json) (w : World),
    let handled :=
      AdminActions._handle_permission_request lib env approves pid kind
        duration reason w in
    (current_session_id w = None \/ current_session_id w = Some 0 ->
     handled = (Return tt, w))
    /\ (forall s,
          current_session_id w = Some s -> s <> 0 ->
          (query_participant pid (db w) = None ->
           handled
           = (Raise (ValueError ("Participant " ++ pid ++ " not found")), w))
          /\ (forall p,
                query_participant pid (db w) = Some p ->
                DatabaseQueries.text_or_none kind = true ->
                DatabaseQueries.sqlite_integer duration = true ->
                DatabaseQueries.text_or_none reason = true ->
                handled
                = (Raise (LookupError "permissionstatus" "pending"),
                   set_clock_reads (S (clock_reads w)) w))).
Proof.
  intros approves pid kind duration reason w handled.
  unfold handled, AdminActions._handle_permission_request.
  split.
  - intros [E|E]; run_effects; rewrite E; reflexivity.
  - intros s Hs Hs0. run_effects. rewrite Hs. apply Z.eqb_neq in Hs0.
    rewrite Hs0.
    split; [intros Hq|intros p Hq _ _ _];
      unfold create_permission_request; run_effects; rewrite Hq;
      reflexivity.
Qed.
End Reports.

Lemma unlock_does_not_reset_escalation_witness :
  exists w1 w2,
    AdminActions._unlock_selected_participant model_lib steady_env
      (Some "P1") warned_world = (Return tt, w1)
    /\ option_map is_locked (query_participant "P1" (db w1)) = Some false
    /\ AdminActions._handle_violation_auto model_lib steady_env true
         (mkViolation 1 1 7 APPLICATION_BLOCKED MEDIUM (JStr "game.exe") 0
            false None None) "P1" w1 = (Raise RuntimeError, w2)
    /\ option_map is_locked (query_participant "P1" (db w2)) = Some false.
Proof.
  destruct (unlock_does_not_reset_escalation model_lib steady_env
              (mkViolation 1 1 7 APPLICATION_BLOCKED MEDIUM (JStr "game.exe")
                 0 false None None)
              "P1"
              (mkParticipant 1 "P1" "Budi" 7 JNull JNull 0 0 true 70 5 4 true)
              warned_world eq_refl)
    as [w1 [E1 [Hq1 [[w2 [E2 [Hq2 _]]] _]]]].
  - cbn. lia.
  - exists w1, w2. rewrite Hq1, Hq2. repeat split; assumption.
Defined.

Lemma unrecorded_reports_witness :
  _handle_violation_report model_lib steady_env "P1" malformed_report
    exam_world = (Raise AttributeError, exam_world).
Proof.
  apply (proj1 (unrecorded_reports model_lib steady_env "P1"
                  malformed_report exam_world)).
  intros payload. discriminate.
Defined.

Lemma auto_mode_score_misses_warning_witness :
  exists w' p',
    AdminActions._handle_violation_report model_lib steady_env true "P1"
      blocked_report exam_world = (Raise RuntimeError, w')
    /\ query_participant "P1" (db w') = Some p'
    /\ integrity_score p' = 95
    /\ warning_count p' = 1.
Proof.
  destruct (auto_mode_score_misses_warning model_lib steady_env exam_world
              "P1" blocked_report
              [("violation_type", JStr "application_blocked");
               ("severity", JStr "medium");
               ("description", JStr "game.exe")]
              APPLICATION_BLOCKED MEDIUM 7 (roster_entry 1 "P1" "Budi" 7)
              eq_refl eq_refl eq_refl eq_refl eq_refl)
    as [w' [p' [E [Hq [_ [Hw [Hs _]]]]]]]; try reflexivity.
  - discriminate.
  - exists w', p'. split; [exact E|]. split; [exact Hq|].
    split; [exact Hs|exact Hw].
Defined.

Lemma violation_report_ends_connection_witness :
  exists w',
    ProctoringServer.receive model_lib steady_env
      (AdminActions.install_handlers model_lib steady_env
         (fun _ _ => ret tt) (fun _ => None))
      "P1" (Protocol.to_json model_lib blocked_report) exam_world
    = (Return false, w')
    /\ PyDict.get "P1" (connected_clients w') = None
    /\ transport_log w' = transport_log exam_world.
Proof.
  destruct (violation_report_ends_connection model_lib steady_env
              (fun _ _ => ret tt) (fun _ => None) "P1"
              (Protocol.to_json model_lib blocked_report) exam_world
              (set_clock_reads 1 exam_world) blocked_report
              eq_refl eq_refl)
    as [w' [E [Hg [Hl _]]]].
  exists w'. split; [exact E|]. split; assumption.
Defined.

Lemma permission_request_outcomes_witness :
  AdminActions._handle_permission_request model_lib steady_env true
    "P1" (JStr "leave_seat") 10 JNull exam_world
  = (Raise (LookupError "permissionstatus" "pending"),
     set_clock_reads 1 exam_world).
Proof.
  refine (proj2 (proj2 (permission_request_outcomes model_lib
                          steady_env true "P1" (JStr "leave_seat") 10
                          JNull exam_world) 7 eq_refl _)
            (roster_entry 1 "P1" "Budi" 7) eq_refl eq_refl eq_refl eq_refl).
  discriminate.
Defined.


Section Validation.
Variable lib : PyLib.
Variable env : Env.


End Validation.


End AdminMore.

(* ================================================================== *)
(** * The process monitor *)
(* ================================================================== *)

Module MonitorFacts.
Import ProcessMonitor.

Lemma prefix_app (n h : string) :
  prefix n h = true <-> exists b, h = n ++ b.
Proof.
  revert h. induction n as [|c n IH]; intros [|c' h]; cbn.
  - split; [intros _; now exists ""|reflexivity].
  - split; [intros _; now exists (String c' h)|reflexivity].
  - split; [discriminate|intros [b H]; discriminate].
  - destruct (ascii_dec c c') as [<-|Hne].
    + rewrite IH. split; intros [b H]; exists b.
      * now rewrite H.
      * now injection H.
    + split; [discriminate|]. intros [b H]. injection H as H _.
      congruence.
Qed.

Lemma contains_substring (n h : string) :
  contains n h = true <-> exists a b, h = a ++ n ++ b.
Proof.
  induction h as [|c h IH]; cbn [contains].
  - destruct (prefix n "") eqn:E.
    + apply prefix_app in E. destruct E as [b E].
      split; [intros _; now exists "", b|reflexivity].
    + split; [discriminate|]. intros [a [b H]].
      destruct a; [|discriminate]. cbn in H.
      assert (prefix n "" = true) by (apply prefix_app; now exists b).
      congruence.
  - destruct (prefix n (String c h)) eqn:E.
    + apply prefix_app in E. destruct E as [b E].
      split; [intros _; now exists "", b|reflexivity].
    + rewrite IH. split.
      * intros [a [b H]]. exists (String c a), b. cbn. now rewrite H.
      * intros [a [b H]]. destruct a as [|c' a].
        -- cbn in H.
           assert (prefix n (String c h) = true)
             by (apply prefix_app; now exists b).
           congruence.
        -- cbn in H. injection H as _ H. now exists a, b.
Qed.

(** X25.  Which processes are blocked.  A process name is blocked exactly
    when it contains the lower-cased form of an entry of the blacklist, or
    when the whitelist is not empty and the name contains the lower-cased
    form of none of its entries: the blacklist wins over the whitelist, and
    with both lists empty nothing is blocked.  An empty string in the
    blacklist blocks every process, and an empty string in the whitelist
    lets through every process the blacklist does not block. *)
Theorem is_blocked_exact :
  forall (allowed blocked : list string) (proc_name : string),
    let listed l :=
      exists entry, In entry l
                    /\ exists a b, proc_name = a ++ Str.lower entry ++ b in
    (_is_blocked allowed blocked proc_name = true
     <-> listed blocked \/ (allowed <> [] /\ ~ listed allowed))
    /\ _is_blocked [] [] proc_name = false
    /\ (In "" blocked -> _is_blocked allowed blocked proc_name = true)
    /\ (In "" allowed ->
        _is_blocked allowed blocked proc_name
        = existsb (fun e => contains (Str.lower e) proc_name) blocked).
Proof.
  intros allowed blocked proc_name listed.
  assert (Hl : forall l,
            existsb (fun e => contains (Str.lower e) proc_name) l = true
            <-> listed l).
  { intros l. rewrite existsb_exists. unfold listed.
    split; intros [e [Hin H]]; exists e; (split; [exact Hin|]);
      now apply contains_substring. }
  assert (He : forall l, In "" l -> listed l).
  { intros l Hin. exists "". split; [exact Hin|]. now exists "", proc_name. }
  split; [|split; [reflexivity|split]].
  - unfold _is_blocked.
    destruct (existsb _ blocked) eqn:Eb.
    + split; [intros _; left; now apply Hl|reflexivity].
    + assert (Hnb : ~ listed blocked).
      { intros H. apply Hl in H. congruence. }
      destruct allowed as [|a0 allowed'].
      * split; [discriminate|]. intros [H|[H _]]; [contradiction|].
        now elim H.
      * destruct (existsb _ (a0 :: allowed')) eqn:Ea; cbn [negb].
        -- split; [discriminate|]. intros [H|[_ H]]; [contradiction|].
           elim H. now apply Hl.
        -- split; [|reflexivity]. intros _. right.
           split; [discriminate|]. intros H. apply Hl in H. congruence.
  - intros Hin. unfold _is_blocked.
    apply He, Hl in Hin. now rewrite Hin.
  - intros Hin. unfold _is_blocked.
    destruct (existsb _ blocked); [reflexivity|].
    pose proof (proj2 (Hl allowed) (He allowed Hin)) as Ha.
    destruct allowed; [reflexivity|]. now rewrite Ha.
Qed.

Lemma is_blocked_exact_witness :
  _is_blocked ["chrome"] [""] "notepad.exe" = true.
Proof.
  apply (proj1 (proj2 (proj2 (is_blocked_exact ["chrome"] [""]
                                "notepad.exe")))).
  now left.
Defined.

Section Scan.
Variable m : Monitor.

(** The loop over processes it passes: the dictionary and the effects it
    goes on with. *)
Lemma scan_app (before rest : list Process) :
  forallb (passes m) before = true ->
  forall current fx,
    scan m (before ++ rest) current fx
    = scan m rest
        (fold_left
           (fun cur p =>
              match name p with
              | JStr s => PyDict.set (Str.lower s) p cur
              | _ => cur
              end) before current)
        (mkEffects
           (reported fx
            ++ match violation_callback m with
               | Some _ => map report (filter (blocked m) before)
               | None => []
               end)
           (killed fx ++ map pid (filter (blocked m) before))).
Proof.
  induction before as [|q before IH]; intros Hn current fx.
  - cbn [app fold_left filter map]. destruct fx. cbn [reported killed].
    destruct (violation_callback m); now rewrite !app_nil_r.
  - cbn [forallb] in Hn. apply andb_prop in Hn. destruct Hn as [Hq Hn].
    unfold passes in Hq. apply andb_prop in Hq. destruct Hq as [Hnamed Hcb].
    unfold is_named in Hnamed. unfold callback_raises in Hcb.
    cbn [app scan fold_left filter].
    destruct (name q) as [ | | | s | | ] eqn:En; try discriminate.
    assert (Hb : blocked m q
                 = _is_blocked (allowed_apps m) (blocked_apps m)
                     (Str.lower s)) by (unfold blocked; now rewrite En).
    assert (Hr : report q = violation_of (Str.lower s) q)
      by (unfold report; now rewrite En).
    rewrite Hb in *. rewrite Hr in Hcb.
    destruct (_is_blocked (allowed_apps m) (blocked_apps m) (Str.lower s)).
    + destruct (violation_callback m) as [callback|].
      * destruct (callback (violation_of (Str.lower s) q));
          [discriminate|].
        rewrite (IH Hn). cbn [reported killed map]. rewrite Hr.
        now rewrite <- !app_assoc.
      * rewrite (IH Hn). cbn [reported killed map].
        now rewrite <- !app_assoc.
    + now rewrite (IH Hn).
Qed.

Lemma filter_none {A} (f : A -> bool) (l : list A) :
  forallb (fun x => negb (f x)) l = true -> filter f l = [].
Proof.
  induction l as [|x l IH]; cbn; [reflexivity|].
  destruct (f x); cbn; [discriminate|exact IH].
Qed.

(** With a callback that raises on every violation, [kill] is never
    called. *)
Lemma scan_kills_nothing (callback : json -> option exc) :
  violation_callback m = Some callback ->
  (forall v, callback v <> None) ->
  forall procs current fx,
    killed (snd (scan m procs current fx)) = killed fx.
Proof.
  intros Hc Hraises.
  induction procs as [|p procs IH]; intros current fx; [reflexivity|].
  cbn [scan]. destruct (name p); try reflexivity.
  destruct (_is_blocked _ _ _); [|apply IH].
  rewrite Hc.
  match goal with
  | |- context [callback ?v] =>
      destruct (callback v) eqn:E; [reflexivity|now elim (Hraises v)]
  end.
Qed.

Lemma get_fold_set (procs : list Process) :
  forall (current : PyDict.t Process) (k : string),
    PyDict.get k
      (fold_left
         (fun cur p =>
            match name p with
            | JStr s => PyDict.set (Str.lower s) p cur
            | _ => cur
            end) procs current)
    = match find (fun p => match name p with
                           | JStr s => (Str.lower s =? k)%string
                           | _ => false
                           end) (rev procs) with
      | Some p => Some p
      | None => PyDict.get k current
      end.
Proof.
  induction procs as [|p procs IH]; intros current k; [reflexivity|].
  cbn [fold_left rev]. rewrite IH, ExamSessionFacts.find_app.
  destruct (find _ (rev procs)); [reflexivity|]. cbn [find].
  destruct (name p) as [ | | | s | | ]; try reflexivity.
  destruct (Str.lower s =? k)%string eqn:E.
  - apply String.eqb_eq in E. subst k. apply DictFacts.get_set_same.
  - apply String.eqb_neq in E. apply DictFacts.get_set_other.
    congruence.
Qed.

Lemma wf_fold_set (procs : list Process) :
  forall (current : PyDict.t Process),
    PyDict.wf current ->
    PyDict.wf
      (fold_left
         (fun cur p =>
            match name p with
            | JStr s => PyDict.set (Str.lower s) p cur
            | _ => cur
            end) procs current).
Proof.
  induction procs as [|p procs IH]; intros current H; [exact H|].
  cbn [fold_left]. apply IH.
  destruct (name p); try exact H. now apply DictFacts.wf_set.
Qed.

(** X26.  One scan of the processes.  The loop passes a process when it has
    a name and the callback, if the process is blocked and there is a
    callback, returns.  When it passes every process, the scan returns;
    [kill] has been called on exactly the processes whose lower-cased name
    is blocked, in the order of the scan, each of them has been reported to
    the callback when there is one, and the table of tracked processes is
    replaced by one that maps each lower-cased name to the last process of
    that name.  The scan raises at the first process it does not pass, with
    the processes before it killed and reported as above, those after it
    not looked at, and the table of tracked processes as the scan before
    left it: at a process without a name it raises an [AttributeError], and
    at a blocked process on which the callback raises it raises what the
    callback raised, after the call and before the [kill], so that process
    is not killed.  The callback of the participant application raises in
    the monitoring thread whenever the client is connected: with it [kill]
    is never called, and the scan ends at the first blocked process. *)
Theorem check_processes_outcome :
  forall (procs : list Process),
    let effects l :=
      mkEffects (match violation_callback m with
                 | Some _ => map report (filter (blocked m) l)
                 | None => []
                 end)
                (map pid (filter (blocked m) l)) in
    (forallb (passes m) procs = true ->
     exists tracked,
       _check_processes m procs
       = (Return tt,
          mkMonitor (allowed_apps m) (blocked_apps m) (violation_callback m)
                    tracked,
          effects procs)
       /\ PyDict.wf tracked
       /\ forall k,
            PyDict.get k tracked
            = find (fun p => match name p with
                             | JStr s => (Str.lower s =? k)%string
                             | _ => false
                             end) (rev procs))
    /\ (forall before p after,
          procs = (before ++ p :: after)%list ->
          forallb (passes m) before = true ->
          is_named p = false ->
          _check_processes m procs
          = (Raise AttributeError, m, effects before))
    /\ (forall before p after e,
          procs = (before ++ p :: after)%list ->
          forallb (passes m) before = true ->
          callback_raises m p = Some e ->
          _check_processes m procs
          = (Raise e, m,
             mkEffects (reported (effects before) ++ [report p])
                       (killed (effects before))))
    /\ (violation_callback m = Some (ParticipantApp._on_process_violation true)
        -> killed (snd (_check_processes m procs)) = []
           /\ forall before p after,
                procs = (before ++ p :: after)%list ->
                forallb is_named before = true ->
                forallb (fun q => negb (blocked m q)) before = true ->
                blocked m p = true ->
                _check_processes m procs
                = (Raise RuntimeError, m, mkEffects [report p] [])).
Proof.
  intros procs effects.
  assert (H3 : forall before p after e,
            procs = (before ++ p :: after)%list ->
            forallb (passes m) before = true ->
            callback_raises m p = Some e ->
            _check_processes m procs
            = (Raise e, m,
               mkEffects (reported (effects before) ++ [report p])
                         (killed (effects before)))).
  { intros before p after e -> Hn He. unfold _check_processes.
    rewrite (scan_app before (p :: after) Hn). cbn [scan reported killed app].
    unfold callback_raises in He.
    destruct (blocked m p) eqn:Eb; [|discriminate].
    unfold blocked in Eb. unfold report in *.
    destruct (name p) as [ | | | s | | ]; try discriminate.
    rewrite Eb.
    destruct (violation_callback m) as [callback|]; [|discriminate].
    rewrite He. reflexivity. }
  split; [|split; [|split; [exact H3|]]].
  - intros Hn. eexists. unfold _check_processes.
    pose proof (scan_app procs [] Hn [] (mkEffects [] [])) as E.
    rewrite app_nil_r in E. rewrite E. cbn [scan reported killed app].
    split; [reflexivity|]. split.
    + apply wf_fold_set. constructor.
    + intros k. rewrite get_fold_set. now destruct (find _ (rev procs)).
  - intros before p after -> Hn Hp. unfold _check_processes.
    rewrite (scan_app before (p :: after) Hn). cbn [scan reported killed app].
    unfold is_named in Hp.
    destruct (name p); try reflexivity. discriminate.
  - intros Hc. split.
    + unfold _check_processes.
      assert (Hr : forall v,
                ParticipantApp._on_process_violation true v <> None)
        by (intros v; discriminate).
      pose proof (scan_kills_nothing _ Hc Hr procs [] (mkEffects [] []))
        as Hk.
      destruct (scan m procs [] (mkEffects [] [])) as [[cur|e] fx];
        exact Hk.
    + intros before p after E Hnamed Hfree Hb.
      assert (Hn : forallb (passes m) before = true).
      { apply forallb_forall. intros q Hq. unfold passes, callback_raises.
        rewrite (proj1 (forallb_forall _ _) Hnamed q Hq).
        pose proof (proj1 (forallb_forall _ _) Hfree q Hq) as Hq'.
        cbv beta in Hq'. now destruct (blocked m q). }
      rewrite (H3 before p after RuntimeError E Hn).
      * unfold effects. rewrite Hc, (filter_none _ _ Hfree). reflexivity.
      * unfold callback_raises. rewrite Hb, Hc. reflexivity.
Qed.
End Scan.

Lemma check_processes_outcome_witness :
  _check_processes
    (mkMonitor [] ["game"]
       (Some (ParticipantApp._on_process_violation true)) [])
    [mkProcess 9 (JStr "notepad.exe") false;
     mkProcess 10 (JStr "Game.EXE") false;
     mkProcess 12 (JStr "game2.exe") false]
  = (Raise RuntimeError,
     mkMonitor [] ["game"]
       (Some (ParticipantApp._on_process_violation true)) [],
     mkEffects [violation_of "game.exe" (mkProcess 10 (JStr "Game.EXE") false)]
               []).
Proof.
  apply (proj2 (proj2 (proj2 (proj2 (check_processes_outcome
                  (mkMonitor [] ["game"]
                     (Some (ParticipantApp._on_process_violation true)) [])
                  [mkProcess 9 (JStr "notepad.exe") false;
                   mkProcess 10 (JStr "Game.EXE") false;
                   mkProcess 12 (JStr "game2.exe") false]))) eq_refl)
           [mkProcess 9 (JStr "notepad.exe") false]
           (mkProcess 10 (JStr "Game.EXE") false)
           [mkProcess 12 (JStr "game2.exe") false]);
    reflexivity.
Defined.

End MonitorFacts.

(* ================================================================== *)
(** * The detection manager *)
(* ================================================================== *)

Module DetectionFacts.
Import DetectionManager.

Section Detections.
Variable value : Type.
Variable truth : value -> bool.
Variable format_1f format_2f format : value -> string.
Variable zero : value.

(** X27.  A permission suppresses the report of an absent face and nothing
    else.  While a permission is active and has not expired (its expiry is
    not before the reading of the clock, or it has none), a call of
    [get_all_detections] reports what it reports without a permission
    except the violations of type [face_absence], and keeps the permission.
    A permission whose expiry has passed is switched off by the call, which
    then reports everything, the absent face included.  The callback is
    handed exactly the violations the call returns, in the same order. *)
Theorem permission_suppresses_face_absence_only :
  forall (has_callback : bool)
         (camera_results audio_results : option (PyDict.t value))
         (stamp now : datetime) (st : State),
    let run s :=
      get_all_detections value truth format_1f format_2f format zero
        has_callback camera_results audio_results stamp now s in
    let plain := violations value (fst (run (mkState false None))) in
    let found := violations value (fst (run st)) in
    called_back value (fst (run st)) = (if has_callback then found else [])
    /\ timestamp value (fst (run st)) = stamp
    /\ (permission_active st = false -> snd (run st) = st /\ found = plain)
    /\ (permission_active st = true ->
        (forall e, permission_expires_at st = Some e -> now <= e) ->
        snd (run st) = st
        /\ found
           = filter (fun v => negb (type v =? "face_absence")%string) plain)
    /\ (forall e,
          permission_active st = true ->
          permission_expires_at st = Some e ->
          e < now ->
          snd (run st) = mkState false (Some e) /\ found = plain).
Proof.
  intros has_callback camera_results audio_results stamp now
         [active expiry] run plain found.
  assert (Hfilter : filter (fun v => negb (type v =? "face_absence")%string)
                      plain
                    = violations value (fst (run (mkState true None)))).
  { unfold plain, run, get_all_detections, check_permission_expired.
    cbn [permission_active permission_expires_at fst violations].
    rewrite filter_app. f_equal.
    - destruct camera_results as [results|]; [|reflexivity].
      unfold camera_violations. cbn [negb andb].
      destruct (flag value truth results "face_absent"),
               (flag value truth results "multiple_faces"),
               (flag value truth results "suspicious_movement");
        reflexivity.
    - destruct audio_results as [results|]; [|reflexivity].
      unfold audio_violations.
      destruct (flag value truth results "voice_activity"),
               (flag value truth results "multiple_speakers");
        reflexivity. }
  split.
  { unfold found, run, get_all_detections.
    now destruct (check_permission_expired now _). }
  split.
  { unfold run, get_all_detections.
    now destruct (check_permission_expired now _). }
  cbn [permission_active permission_expires_at].
  split; [|split].
  - intros ->. split; reflexivity.
  - intros -> Hle. rewrite Hfilter.
    unfold found, run, get_all_detections, check_permission_expired.
    cbn [permission_active permission_expires_at].
    destruct expiry as [e|]; [|split; reflexivity].
    assert ((e <? now) = false) as -> by (apply Z.ltb_ge; now apply Hle).
    split; reflexivity.
  - intros e -> -> Hlt.
    unfold found, plain, run, get_all_detections, check_permission_expired.
    cbn [permission_active permission_expires_at].
    apply Z.ltb_lt in Hlt. rewrite Hlt. split; reflexivity.
Qed.

(** X28.  Every violation the detection manager produces can be recorded:
    its type is the value of a member of [ViolationType] and its severity,
    [medium] or [high], the value of a member of [ViolationSeverity], so
    the constructors the admin application applies to a report accept them.
    The type under which the process monitor reports is accepted as well. *)
Theorem detected_violations_are_reportable :
  forall (has_callback : bool)
         (camera_results audio_results : option (PyDict.t value))
         (stamp now : datetime) (st : State) (v : Violation),
    In v (violations value
            (fst (get_all_detections value truth format_1f format_2f format
                    zero has_callback camera_results audio_results stamp now
                    st))) ->
    (exists vt,
        Models.ViolationType_call (JStr (type v)) = Return vt
        /\ Models.ViolationType_value vt = type v)
    /\ (exists sev,
           Models.ViolationSeverity_call (JStr (severity v)) = Return sev
           /\ Models.ViolationSeverity_value sev = severity v
           /\ (sev = Models.MEDIUM \/ sev = Models.HIGH))
    /\ (forall proc_name p,
          exists payload,
            ProcessMonitor.violation_of proc_name p = JDict payload
            /\ option_map Models.ViolationType_call
                 (PyDict.get "type" payload)
               = Some (Return Models.APPLICATION_BLOCKED)).
Proof.
  intros has_callback camera_results audio_results stamp now st v Hin.
  split; [|split].
  - unfold get_all_detections in Hin.
    destruct (check_permission_expired now st) as [expired st1].
    cbn [fst violations] in Hin. apply in_app_or in Hin.
    destruct Hin as [Hin|Hin].
    + destruct camera_results as [results|]; [|destruct Hin].
      unfold camera_violations in Hin.
      apply in_app_or in Hin. destruct Hin as [Hin|Hin];
        [|apply in_app_or in Hin; destruct Hin as [Hin|Hin]];
        match type of Hin with
        | In _ (if ?c then _ else _) => destruct c
        end; try destruct Hin as [<-|[]]; try destruct Hin;
        eexists; split; reflexivity.
    + destruct audio_results as [results|]; [|destruct Hin].
      unfold audio_violations in Hin.
      apply in_app_or in Hin. destruct Hin as [Hin|Hin];
        match type of Hin with
        | In _ (if ?c then _ else _) => destruct c
        end; try destruct Hin as [<-|[]]; try destruct Hin;
        eexists; split; reflexivity.
  - unfold get_all_detections in Hin.
    destruct (check_permission_expired now st) as [expired st1].
    cbn [fst violations] in Hin. apply in_app_or in Hin.
    destruct Hin as [Hin|Hin].
    + destruct camera_results as [results|]; [|destruct Hin].
      unfold camera_violations in Hin.
      apply in_app_or in Hin. destruct Hin as [Hin|Hin];
        [|apply in_app_or in Hin; destruct Hin as [Hin|Hin]];
        match type of Hin with
        | In _ (if ?c then _ else _) => destruct c
        end; try destruct Hin as [<-|[]]; try destruct Hin;
        eexists; (split; [reflexivity|]); (split; [reflexivity|]); tauto.
    + destruct audio_results as [results|]; [|destruct Hin].
      unfold audio_violations in Hin.
      apply in_app_or in Hin. destruct Hin as [Hin|Hin];
        match type of Hin with
        | In _ (if ?c then _ else _) => destruct c
        end; try destruct Hin as [<-|[]]; try destruct Hin;
        eexists; (split; [reflexivity|]); (split; [reflexivity|]); tauto.
  - intros proc_name p. eexists. split; reflexivity.
Qed.
End Detections.

Lemma permission_suppresses_face_absence_only_witness :
  violations bool
    (fst (get_all_detections bool (fun b => b) (fun _ => "1.0")
            (fun _ => "1.00") (fun _ => "1") false true
            (Some [("face_absent", true); ("multiple_faces", true)]) None
            0 5 (mkState true (Some 9))))
  = filter (fun v => negb (type v =? "face_absence")%string)
      (violations bool
         (fst (get_all_detections bool (fun b => b) (fun _ => "1.0")
                 (fun _ => "1.00") (fun _ => "1") false true
                 (Some [("face_absent", true); ("multiple_faces", true)])
                 None 0 5 (mkState false None)))).
Proof.
  refine (proj2 (proj1 (proj2 (proj2 (proj2
            (permission_suppresses_face_absence_only bool (fun b => b)
               (fun _ => "1.0") (fun _ => "1.00") (fun _ => "1") false true
               (Some [("face_absent", true); ("multiple_faces", true)]) None
               0 5 (mkState true (Some 9)))))) eq_refl _)).
  intros e [= <-]. lia.
Defined.

Lemma detected_violations_are_reportable_witness :
  exists vt,
    Models.ViolationType_call (JStr "multiple_faces") = Return vt
    /\ Models.ViolationType_value vt = "multiple_faces".
Proof.
  refine (proj1 (detected_violations_are_reportable bool (fun b => b)
                   (fun _ => "1.0") (fun _ => "1.00") (fun _ => "1") false
                   true (Some [("multiple_faces", true)]) None 0 5
                   (mkState false None)
                   (mkViolation "multiple_faces" "high"
                      "Terdeteksi 1 wajah dalam frame") _)).
  cbn. now left.
Defined.

End DetectionFacts.

(* ================================================================== *)
(** * Sending from the client *)
(* ================================================================== *)

Module ClientMore.
Import Protocol.
Import ProctoringClient.
Import ClientMessages.

(** X29.  Sending from the client.  A client that is not connected, or has
    no transport, refuses to send without touching the transport.
    Otherwise it makes one write, of the type and data of the message under
    its own participant id, whatever id the message carried.  A write that
    completes leaves the client as it was; a write that fails clears the
    connected flag and nothing else, after which every send is refused
    without a write until a call of [connect] succeeds, and a successful
    [connect] makes the next send write to the new transport. *)
Theorem client_send_outcomes :
  forall (c : Client) (m : Message) (write_ok : bool),
    (is_connected c = false \/ websocket c = None ->
     send_message c m write_ok = (false, c, []))
    /\ (forall ws,
          is_connected c = true -> websocket c = Some ws ->
          let call := Send ws (type m) (data m) (JStr (participant_id c)) in
          send_message c m write_ok
          = (write_ok, (if write_ok then c else set_is_connected false c),
             [call])
          /\ (forall m' ok',
                send_message (set_is_connected false c) m' ok'
                = (false, set_is_connected false c, []))
          /\ (forall ws' m' ok',
                let c' := snd (connect (set_is_connected false c) (Some ws'))
                in
                fst (connect (set_is_connected false c) (Some ws')) = true
                /\ snd (send_message c' m' ok')
                   = [Send ws' (type m') (data m')
                           (JStr (participant_id c))])
          /\ (forall m' ok',
                let c' := snd (connect c None) in
                fst (connect c None) = false
                /\ websocket c' = Some ws
                /\ send_message c' m' ok' = (false, c', []))).
Proof.
  intros c m write_ok. split.
  - unfold send_message. intros [H|H]; rewrite H; [reflexivity|].
    now destruct (is_connected c).
  - intros ws Hc Hw call. unfold send_message, connect.
    cbn [is_connected websocket set_is_connected set_websocket fst snd
         participant_id].
    rewrite Hc, Hw. split; [now destruct write_ok|].
    split; [reflexivity|]. split.
    + intros ws' m' ok'. split; [reflexivity|]. now destruct ok'.
    + intros m' ok'. split; [reflexivity|]. split; reflexivity.
Qed.

Lemma client_send_outcomes_witness :
  send_message (init "ws://10.0.0.1:8765" "P1") ping true
  = (false, init "ws://10.0.0.1:8765" "P1", []).
Proof.
  apply (proj1 (client_send_outcomes (init "ws://10.0.0.1:8765" "P1") ping
                  true)).
  now left.
Defined.

End ClientMore.

(* ================================================================== *)
(** * From the client to the database *)
(* ================================================================== *)

Module EndToEnd.
Import Models.
Import DatabaseManager.

(** X30.  A report from the client is stored as sent.  A connected client
    that reports a violation under a type and a severity the enumerations
    know makes one write, of a [violation_report] under its own participant
    id.  When the admin application handles the message that arrives, in
    manual mode, with a session running and the participant in the roster,
    it stores one new violation of that type and severity with the
    description sent, for that participant and the current session, counts
    it on the participant's row, sends nothing and changes no lock. *)
Theorem reported_violation_is_stored :
  forall (lib : PyLib) (env : Env) (c : ProctoringClient.Client)
         (ws : WebSocket) (vtype vsev text : string) (now ts : datetime)
         (w : World) (p : Participant) (session_id : Z)
         (vt : ViolationType) (sev : ViolationSeverity),
    ProctoringClient.is_connected c = true ->
    ProctoringClient.websocket c = Some ws ->
    ViolationType_call (JStr vtype) = Return vt ->
    ViolationSeverity_call (JStr vsev) = Return sev ->
    current_session_id w = Some session_id ->
    session_id <> 0 ->
    ai_proctor_mode w = false ->
    query_participant (ProctoringClient.participant_id c) (db w) = Some p ->
    let pid := ProctoringClient.participant_id c in
    exists call m w',
      ClientMessages.send_violation_report c vtype vsev text now true
      = (true, c, [call])
      /\ ClientMessages.received call ts = Some m
      /\ Protocol.type m = Protocol.VIOLATION_REPORT
      /\ Protocol.participant_id m = JStr pid
      /\ AdminApp._handle_violation_report lib env pid m w = (Return tt, w')
      /\ violations (db w')
         = (violations (db w)
            ++ [mkViolation (next_id (map v_id (violations (db w)))) (id p)
                  session_id vt sev (JStr text)
                  (utcnow_at env (clock_reads w)) false None None])%list
      /\ option_map violation_count (query_participant pid (db w'))
         = Some (violation_count p + 1)
      /\ option_map is_locked (query_participant pid (db w'))
         = Some (is_locked p)
      /\ transport_log w' = transport_log w.
Proof.
  intros lib env c ws vtype vsev text now ts w p session_id vt sev
         Hc Hw Hvt Hsev Hs Hs0 Hmode Hq pid.
  eexists. eexists. eexists.
  split.
  { unfold ClientMessages.send_violation_report, ClientMessages.send_message.
    rewrite Hc, Hw. reflexivity. }
  split; [reflexivity|]. split; [reflexivity|]. split; [reflexivity|].
  cbn [Protocol.Message_init Protocol.type Protocol.data].
  unfold AdminApp._handle_violation_report.
  cbn [Protocol.data ClientMessages.violation_report_data py_or truthy
       AdminApp.payload_get].
  assert (Ht : PyDict.get_default "violation_type"
                 (JStr "application_blocked")
                 [("violation_type", JStr vtype); ("severity", JStr vsev);
                  ("description", JStr text)] = JStr vtype) by reflexivity.
  assert (Hv : PyDict.get_default "severity" (JStr "medium")
                 [("violation_type", JStr vtype); ("severity", JStr vsev);
                  ("description", JStr text)] = JStr vsev) by reflexivity.
  assert (Hd : PyDict.get_default "description" (JStr "")
                 [("violation_type", JStr vtype); ("severity", JStr vsev);
                  ("description", JStr text)] = JStr text) by reflexivity.
  rewrite Ht, Hv, Hd. run_effects. rewrite Hvt. run_effects.
  rewrite Hsev. run_effects. rewrite Hs.
  apply Z.eqb_neq in Hs0. rewrite Hs0. fold pid in Hq |- *.
  run_effects.
  rewrite (AdminMore.bind_return_eq _ _ _ _ _
             (DatabaseMore.create_violation_effect env w pid p session_id
                vt sev (JStr text) Hq)).
  cbv beta.
  match goal with
  | |- context [bind _ _ (set_db ?d ?w0)] => set (d1 := d)
  end.
  assert (Hq1 : query_participant pid d1
                = Some (with_violation_count (violation_count p + 1) p)).
  { exact (DatabaseFacts.query_update_participant pid
             (fun q => with_violation_count (violation_count q + 1) q)
             _ p Hq eq_refl). }
  unfold get_participant, AdminApp._update_integrity_score. run_effects.
  rewrite Hq1. run_effects. rewrite Hq1. run_effects. rewrite Hmode.
  split; [reflexivity|]. unfold ret. world_simpl.
  split; [reflexivity|].
  unfold d1 in Hq1. AdminMore.world_simpl_in Hq1.
  match goal with
  | |- context [update_participant pid (with_integrity_score ?s) _] =>
      rewrite (DatabaseFacts.query_update_participant pid
                 (with_integrity_score s) _ _ Hq1 eq_refl)
  end.
  repeat split.
Qed.

Lemma reported_violation_is_stored_witness :
  exists call m w',
    ClientMessages.send_violation_report
      (ProctoringClient.mkClient "ws://10.0.0.1:8765" "P1" (Some 1%nat) true
         5 true)
      "face_absence" "medium" "Face tidak terdeteksi" 3 true
    = (true,
       ProctoringClient.mkClient "ws://10.0.0.1:8765" "P1" (Some 1%nat) true
         5 true,
       [call])
    /\ ClientMessages.received call 3 = Some m
    /\ AdminApp._handle_violation_report model_lib steady_env "P1" m
         (AdminActions.set_ai_proctor_mode false exam_world)
       = (Return tt, w')
    /\ List.length (violations (db w')) = 1%nat.
Proof.
  destruct (reported_violation_is_stored model_lib steady_env
              (ProctoringClient.mkClient "ws://10.0.0.1:8765" "P1"
                 (Some 1%nat) true 5 true)
              1%nat "face_absence" "medium" "Face tidak terdeteksi" 3 3
              (AdminActions.set_ai_proctor_mode false exam_world)
              (roster_entry 1 "P1" "Budi" 7) 7 FACE_ABSENCE MEDIUM
              eq_refl eq_refl eq_refl eq_refl eq_refl)
    as [call [m [w' [E1 [E2 [_ [_ [E3 [Hv _]]]]]]]]]; try reflexivity.
  - discriminate.
  - exists call, m, w'. split; [exact E1|]. split; [exact E2|].
    split; [exact E3|]. now rewrite Hv.
Defined.

End EndToEnd.
